(** * SimulatedOpcUaServer: the address-space engine of [app.js]

    A shallow embedding of [OPCUA -Simulator/app.js]: the class
    [SimulatedOpcUaServer] with its in-memory address space, [findNode],
    [readNode], [writeNode], [browseNodes], [subscribe], [unsubscribe]
    and the data simulation timer; and the page around it, with
    [getLocalUtcOffset], [renderAddressSpaceTree], the click handlers
    and [init].  The definitions are followed by the properties of the
    specification, and by further properties of the code. *)

From Stdlib Require Import ZArith Lia List Bool Ascii String.
From stdpp Require Import gmap strings.
Import ListNotations.

Local Open Scope string_scope.
Local Open Scope Z_scope.

(** ** JavaScript values *)

(** A JavaScript Number: not-a-number, an infinity, or a finite binary64
    value [(-1)^neg * m * 2^e]. *)
Inductive Number : Type :=
| NaN
| Inf (neg : bool)
| Fin (neg : bool) (m : Z) (e : Z).

#[global] Instance Number_eq_dec : EqDecision Number.
Proof. solve_decision. Defined.

(** The values a node's [value] property holds. *)
Inductive JsValue : Type :=
| JUndefined
| JNum (x : Number)
| JBool (b : bool)
| JStr (s : string).

(** ** binary64 arithmetic

    Every finite double is a dyadic rational, so the arithmetic of the
    source is computed exactly on fractions [n/d] of integers and rounded
    to the nearest double, ties to even, as IEEE 754 prescribes. *)

(** Is [2^l <= n/d]?  ([0 < d].) *)
Definition geTwoPow (n d l : Z) : bool :=
  if 0 <=? l then d * 2 ^ l <=? n else d <=? n * 2 ^ (- l).

(** The integer [l] with [2^l <= n/d < 2^(l+1)], for [0 < n] and [0 < d]. *)
Definition floorLog2 (n d : Z) : Z :=
  let l := Z.log2 n - Z.log2 d in
  if geTwoPow n d l then l else l - 1.

(** The integer nearest to [a/b], the even one of two equally near
    ([0 <= a], [0 < b]). *)
Definition roundHalfEven (a b : Z) : Z :=
  let q := a / b in
  let r := a mod b in
  if 2 * r <? b then q
  else if b <? 2 * r then q + 1
  else if Z.even q then q else q + 1.

(** The double nearest to [(-1)^neg * n/d] ([0 <= n], [0 < d]): 53
    significant bits, exponent of the last bit at least [-1074]
    (subnormal numbers and zero have exactly that exponent), overflow to
    an infinity from [2^1024 - 2^970] on. *)
Definition binary64 (neg : bool) (n d : Z) : Number :=
  if n =? 0 then Fin neg 0 (-1074)
  else
    let e := Z.max (floorLog2 n d - 52) (-1074) in
    let m := if 0 <=? e then roundHalfEven n (d * 2 ^ e)
             else roundHalfEven (n * 2 ^ (- e)) d in
    if 971 <? e then Inf neg
    else if m <? 2 ^ 53 then Fin neg m e
    else if e =? 971 then Inf neg
    else Fin neg (2 ^ 52) (e + 1).

(** [m * 2^e] as a fraction. *)
Definition numer (m e : Z) : Z := if 0 <=? e then m * 2 ^ e else m.
Definition denom (e : Z) : Z := if 0 <=? e then 1 else 2 ^ (- e).

(** [x * y] on Numbers. *)
Definition mul (x y : Number) : Number :=
  match x, y with
  | NaN, _ | _, NaN => NaN
  | Inf s, Inf t => Inf (xorb s t)
  | Inf s, Fin t m _ | Fin t m _, Inf s =>
      if m =? 0 then NaN else Inf (xorb s t)
  | Fin s m e, Fin t m' e' =>
      binary64 (xorb s t) (numer (m * m') (e + e')) (denom (e + e'))
  end.

(** [x + y] on Numbers. *)
Definition add (x y : Number) : Number :=
  match x, y with
  | NaN, _ | _, NaN => NaN
  | Inf s, Inf t => if Bool.eqb s t then Inf s else NaN
  | Inf s, Fin _ _ _ | Fin _ _ _, Inf s => Inf s
  | Fin s m e, Fin t m' e' =>
      let e0 := Z.min e e' in
      let a := (if s then - m else m) * 2 ^ (e - e0) in
      let b := (if t then - m' else m') * 2 ^ (e' - e0) in
      let c := a + b in
      if c =? 0 then Fin (s && t) 0 (-1074)
      else binary64 (c <? 0) (numer (Z.abs c) e0) (denom e0)
  end.

(** The double nearest to the integer [z]; the Number a numeric literal
    such as [10] or [20] of the source denotes. *)
Definition ofZ (z : Z) : Number := binary64 (z <? 0) (Z.abs z) 1.

(** The double nearest to [z / 10^k]: the Number a literal such as
    [25.5] (that is [255 / 10^1]) denotes. *)
Definition ofDecimal (z : Z) (k : Z) : Number :=
  binary64 (z <? 0) (Z.abs z) (10 ^ k).

Definition isNaN (x : Number) : bool :=
  match x with NaN => true | _ => false end.

(** ** Strings

    A text is a [string] of code units below 256. *)

Definition code (c : ascii) : Z := Z.of_N (N_of_ascii c).

Definition isDigit (c : ascii) : bool := (48 <=? code c) && (code c <=? 57).

(** White space and line terminators that [parseFloat] skips: TAB, LF,
    VT, FF, CR, SP and NBSP. *)
Definition isWhiteSpace (c : ascii) : bool :=
  let n := code c in
  (n =? 9) || (n =? 10) || (n =? 11) || (n =? 12) || (n =? 13) ||
  (n =? 32) || (n =? 160).

Fixpoint trimStart (s : string) : string :=
  match s with
  | String c r => if isWhiteSpace c then trimStart r else s
  | EmptyString => EmptyString
  end.

(** The longest run of decimal digits at the start of a text, and what
    follows it. *)
Fixpoint spanDigits (s : string) : string * string :=
  match s with
  | String c r =>
      if isDigit c then
        let (ds, t) := spanDigits r in (String c ds, t)
      else (EmptyString, s)
  | EmptyString => (EmptyString, EmptyString)
  end.

(** The integer a run of decimal digits denotes, most significant first. *)
Fixpoint digitsValueFrom (acc : Z) (ds : string) : Z :=
  match ds with
  | String c r => digitsValueFrom (10 * acc + (code c - 48)) r
  | EmptyString => acc
  end.
Definition digitsValue (ds : string) : Z := digitsValueFrom 0 ds.

Definition len (s : string) : Z := Z.of_nat (String.length s).

(** An optional sign: is it [-], and what follows it. *)
Definition readSign (s : string) : bool * string :=
  match s with
  | String c r =>
      if Ascii.eqb c "-" then (true, r)
      else if Ascii.eqb c "+" then (false, r)
      else (false, s)
  | EmptyString => (false, s)
  end.

(** The value of the [ExponentPart] a text starts with: [e] or [E], an
    optional sign, at least one digit; 0 when there is none. *)
Definition readExponent (s : string) : Z :=
  match s with
  | String c r =>
      if Ascii.eqb c "e" || Ascii.eqb c "E" then
        let (neg, r1) := readSign r in
        let (ds, _) := spanDigits r1 in
        match ds with
        | EmptyString => 0
        | _ => if neg then - digitsValue ds else digitsValue ds
        end
      else 0
  | EmptyString => 0
  end.

(** The Number [(-1)^neg * digits * 10^e10]. *)
Definition decimalNumber (neg : bool) (digits : Z) (e10 : Z) : Number :=
  if 0 <=? e10 then binary64 neg (digits * 10 ^ e10) 1
  else binary64 neg digits (10 ^ (- e10)).

(** The value of the longest prefix of [s] that is a
    [StrUnsignedDecimalLiteral] ([Infinity], or digits with an optional
    fraction and exponent, or a fraction with an optional exponent);
    [NaN] when no prefix is one. *)
Definition parseUnsigned (neg : bool) (s : string) : Number :=
  if String.prefix "Infinity" s then Inf neg
  else
    let (ip, t) := spanDigits s in
    let (fp, u) :=
      match t with
      | String c r =>
          if Ascii.eqb c "." then spanDigits r else (EmptyString, t)
      | EmptyString => (EmptyString, t)
      end in
    match ip, fp with
    | EmptyString, EmptyString => NaN
    | _, _ =>
        decimalNumber neg (digitsValue (ip ++ fp)) (readExponent u - len fp)
    end.

(** [parseFloat(string)]: skip leading white space, then take the value
    of the longest prefix that is a [StrDecimalLiteral]. *)
Definition parseFloat (s : string) : Number :=
  let (neg, t) := readSign (trimStart s) in parseUnsigned neg t.

(** [String.prototype.toLowerCase] on code units below 256: the letters
    A-Z and the capital letters of Latin-1 (0xC0-0xDE, the multiplication
    sign 0xD7 apart) move 32 places up. *)
Definition lowerChar (c : ascii) : ascii :=
  let n := code c in
  if ((65 <=? n) && (n <=? 90)) ||
     ((192 <=? n) && (n <=? 222) && negb (n =? 215))
  then ascii_of_N (Z.to_N (n + 32)) else c.

Fixpoint toLowerCase (s : string) : string :=
  match s with
  | String c r => String (lowerChar c) (toLowerCase r)
  | EmptyString => EmptyString
  end.

(** The decimal digits of a natural number, most significant first;
    [fuel] bounds the number of digits. *)
Fixpoint digitsOf (fuel : nat) (n : Z) (acc : string) : string :=
  match fuel with
  | O => acc
  | S fuel' =>
      let acc' := String (ascii_of_N (Z.to_N (48 + n mod 10))) acc in
      if n <? 10 then acc' else digitsOf fuel' (n / 10) acc'
  end.

Definition decimalText (n : Z) : string :=
  digitsOf (S (Z.to_nat (Z.log2 n))) n EmptyString.

(** ** The address space *)

(** A node object and the object that maps node ids to nodes.  A property
    the object literal leaves out is [None] (JavaScript [undefined]).  A
    [Space] lists the own properties of a [children] object (or of
    [addressSpace] itself) in the order a [for ... in] loop and
    [Object.values] enumerate them; for keys that are not array indices,
    as node ids are, that is the order of the object literal. *)
Inductive Node : Type :=
| mkNode (browseName : string) (nodeId : string) (nodeClass : string)
         (dataType : option string) (value : JsValue)
         (accessLevel : option string) (timestamp : option string)
         (children : option Space)
with Space : Type :=
| snil
| scons (key : string) (node : Node) (rest : Space).

Definition browseName (n : Node) : string :=
  match n with mkNode b _ _ _ _ _ _ _ => b end.
Definition nodeId (n : Node) : string :=
  match n with mkNode _ i _ _ _ _ _ _ => i end.
Definition nodeClass (n : Node) : string :=
  match n with mkNode _ _ c _ _ _ _ _ => c end.
Definition dataType (n : Node) : option string :=
  match n with mkNode _ _ _ d _ _ _ _ => d end.
Definition value (n : Node) : JsValue :=
  match n with mkNode _ _ _ _ v _ _ _ => v end.
Definition accessLevel (n : Node) : option string :=
  match n with mkNode _ _ _ _ _ a _ _ => a end.
Definition timestamp (n : Node) : option string :=
  match n with mkNode _ _ _ _ _ _ t _ => t end.
Definition children (n : Node) : option Space :=
  match n with mkNode _ _ _ _ _ _ _ c => c end.

(** [Object.values]: the nodes of a space, in enumeration order. *)
Fixpoint entries (sp : Space) : list (string * Node) :=
  match sp with
  | snil => []
  | scons k n rest => (k, n) :: entries rest
  end.

(** The own property [k] of a space. *)
Fixpoint ownNode (k : string) (sp : Space) : option Node :=
  match sp with
  | snil => None
  | scons k' n rest => if String.eqb k k' then Some n else ownNode k rest
  end.

(** The property names every object created by an object literal inherits
    from [Object.prototype]; each of them holds a function or an object,
    so reading it yields a truthy value. *)
Definition objectPrototypeNames : list string :=
  [ "constructor"; "toString"; "toLocaleString"; "valueOf";
    "hasOwnProperty"; "isPrototypeOf"; "propertyIsEnumerable"; "__proto__";
    "__defineGetter__"; "__defineSetter__"; "__lookupGetter__";
    "__lookupSetter__" ].

Definition inherited (k : string) : bool :=
  existsb (String.eqb k) objectPrototypeNames.

(** What [obj[k]] evaluates to on an object whose own properties hold
    values of type [A]: the own property, else the property inherited from
    [Object.prototype], else [undefined] ([None]). *)
Inductive Lookup (A : Type) : Type :=
| Own (a : A)
| Inherited (name : string).
Arguments Own {A} a.
Arguments Inherited {A} name.

Definition getProp {A : Type} (own : option A) (k : string) : option (Lookup A) :=
  match own with
  | Some a => Some (Own a)
  | None => if inherited k then Some (Inherited k) else None
  end.

(** [findNode(nodeId, currentSpace)]: the property [nodeId] of the space
    if it is truthy, else the first truthy result of the search in the
    [children] of the space's nodes, in enumeration order.
    [findInChildren] is the [for ... in] loop, with the recursive call of
    [findNode] on a [children] object written out. *)
Fixpoint findInChildren (id : string) (sp : Space) {struct sp} : option (Lookup Node) :=
  match sp with
  | snil => None
  | scons _ n rest =>
      match children n with
      | Some ch =>
          match
            match getProp (ownNode id ch) id with
            | Some found => Some found
            | None => findInChildren id ch
            end
          with
          | Some found => Some found
          | None => findInChildren id rest
          end
      | None => findInChildren id rest
      end
  end.

Definition findNode (id : string) (sp : Space) : option (Lookup Node) :=
  match getProp (ownNode id sp) id with
  | Some found => Some found
  | None => findInChildren id sp
  end.

(** The node [findNode] returns is changed in place by the callers: the
    space in which the node found under [id] is replaced by [f] of it.
    The traversal is that of [findNode]. *)
Fixpoint modifyOwn (f : Node -> Node) (id : string) (sp : Space) : Space :=
  match sp with
  | snil => snil
  | scons k n rest =>
      if String.eqb id k then scons k (f n) rest
      else scons k n (modifyOwn f id rest)
  end.

Definition setChildren (n : Node) (ch : Space) : Node :=
  match n with mkNode b i c d v a t _ => mkNode b i c d v a t (Some ch) end.

Fixpoint modifyInChildren (f : Node -> Node) (id : string) (sp : Space)
  {struct sp} : Space :=
  match sp with
  | snil => snil
  | scons k n rest =>
      match children n with
      | Some ch =>
          match findNode id ch with
          | Some _ =>
              scons k
                (setChildren n
                   match ownNode id ch with
                   | Some _ => modifyOwn f id ch
                   | None => modifyInChildren f id ch
                   end)
                rest
          | None => scons k n (modifyInChildren f id rest)
          end
      | None => scons k n (modifyInChildren f id rest)
      end
  end.

Definition modifyNode (f : Node -> Node) (id : string) (sp : Space) : Space :=
  match ownNode id sp with
  | Some _ => modifyOwn f id sp
  | None => modifyInChildren f id sp
  end.

(** [node.value = v; node.timestamp = t]. *)
Definition update (v : JsValue) (t : string) (n : Node) : Node :=
  match n with mkNode b i c d _ a _ ch => mkNode b i c d v a (Some t) ch end.

(** ** The server and its host *)

(** A subscription callback is a function of the caller; the model keeps
    its identity and records its invocations. *)
Definition Callback : Type := nat.

(** One call [f(value, timestamp)] made by the server, where [f] is a
    subscribed callback or a function inherited from [Object.prototype]. *)
Record Call : Type := mkCall {
  callee : Lookup Callback;
  argValue : JsValue;
  argTimestamp : option string
}.

(** The fields of a [SimulatedOpcUaServer] ([addressSpace],
    [subscriptions], [updateInterval]) and what the server uses of its
    host: the interval timers that run the simulation ([timers], with the
    id [nextTimer] that [setInterval] hands out next; ids are positive
    integers) and the calls made so far, oldest first. *)
Record World : Type := mkWorld {
  addressSpace : Space;
  subscriptions : gmap string Callback;
  updateInterval : option positive;
  timers : gset positive;
  nextTimer : positive;
  calls : list Call
}.

Definition setSpace (sp : Space) (w : World) : World :=
  mkWorld sp (subscriptions w) (updateInterval w) (timers w) (nextTimer w) (calls w).
Definition setSubscriptions (m : gmap string Callback) (w : World) : World :=
  mkWorld (addressSpace w) m (updateInterval w) (timers w) (nextTimer w) (calls w).
Definition setCalls (l : list Call) (w : World) : World :=
  mkWorld (addressSpace w) (subscriptions w) (updateInterval w) (timers w) (nextTimer w) l.

(** What [readNode] returns for a Variable. *)
Module ReadResult.
Record t : Type := mk {
  value : JsValue;
  dataType : option string;
  accessLevel : option string;
  timestamp : option string
}.
End ReadResult.

(** What [writeNode], [subscribe] and [unsubscribe] return; [timestamp]
    and [dataType] are present in the result of a successful write only. *)
Module Result.
Record t : Type := mk {
  success : bool;
  message : string;
  timestamp : option string;
  dataType : option string
}.
Definition failure (msg : string) : t := mk false msg None None.
Definition ok (msg : string) : t := mk true msg None None.
End Result.

(** An element of the array [browseNodes] returns. *)
Module Summary.
Record t : Type := mk {
  nodeId : string;
  browseName : string;
  nodeClass : string;
  dataType : option string;
  hasChildren : bool;
  value : JsValue;
  timestamp : option string
}.
End Summary.

(** [new SimulatedOpcUaServer()] in a fresh host; [t1] to [t4] are the
    results of the four calls of [getUtcTimestamp()], in evaluation
    order. *)
Definition variable (name id type : string) (v : JsValue) (access t : string) : Node :=
  mkNode name id "Variable" (Some type) v (Some access) (Some t) None.

Definition folder1 (vT : JsValue) (tT : string) (vP : JsValue) (tP : string)
    (vS : JsValue) (tS : string) (vD : JsValue) (tD : string) : Space :=
  scons "ns=1;s=Temperature"
    (variable "Temperature" "ns=1;s=Temperature" "Float" vT "ReadWrite" tT)
  (scons "ns=1;s=Pressure"
    (variable "Pressure" "ns=1;s=Pressure" "Float" vP "ReadWrite" tP)
  (scons "ns=1;s=Status"
    (variable "Status" "ns=1;s=Status" "Boolean" vS "ReadOnly" tS)
  (scons "ns=1;s=DeviceName"
    (variable "DeviceName" "ns=1;s=DeviceName" "String" vD "ReadOnly" tD)
   snil))).

(** The address space of the constructor with the given values and
    timestamps in its four Variables. *)
Definition spaceWith (vT : JsValue) (tT : string) (vP : JsValue) (tP : string)
    (vS : JsValue) (tS : string) (vD : JsValue) (tD : string) : Space :=
  scons "ns=0;i=84"
    (mkNode "Objects" "ns=0;i=84" "Object" None JUndefined None None
       (Some
          (scons "ns=1;s=Folder1"
             (mkNode "MyDevices" "ns=1;s=Folder1" "Object" None JUndefined None None
                (Some (folder1 vT tT vP tP vS tS vD tD)))
             snil)))
    snil.

Definition initialSpace (t1 t2 t3 t4 : string) : Space :=
  spaceWith (JNum (ofDecimal 255 1)) t1 (JNum (ofDecimal 1012 1)) t2
            (JBool true) t3 (JStr "SensorUnit-A") t4.

Definition construct (t1 t2 t3 t4 : string) : World :=
  mkWorld (initialSpace t1 t2 t3 t4) ∅ None ∅ 1%positive [].

(** ** Operations that do not print numbers *)

(** [readNode(nodeId)]; [None] is [null].  The method has no assignment:
    it is a function of the server's state. *)
Definition readNode (id : string) (w : World) : option ReadResult.t :=
  match findNode id (addressSpace w) with
  | Some (Own node) =>
      if String.eqb (nodeClass node) "Variable" then
        Some (ReadResult.mk (value node) (dataType node) (accessLevel node)
                (timestamp node))
      else None
  | _ => None
  end.

(** [Object.keys(node.children || {}).length > 0]. *)
Definition hasChildren (n : Node) : bool :=
  match children n with
  | Some (scons _ _ _) => true
  | _ => false
  end.

Definition summary (n : Node) : Summary.t :=
  Summary.mk (nodeId n) (browseName n) (nodeClass n) (dataType n)
    (hasChildren n) (value n) (timestamp n).

(** [browseNodes(parentNodeId = 'ns=0;i=84')]; [None] is the call without
    an argument. *)
Definition browseNodes (parentNodeId : option string) (w : World) : list Summary.t :=
  let parent := match parentNodeId with Some id => id | None => "ns=0;i=84" end in
  match findNode parent (addressSpace w) with
  | Some (Own parentNode) =>
      match children parentNode with
      | Some ch => map (fun kn => summary (snd kn)) (entries ch)
      | None => []
      end
  | _ => []
  end.

(** [subscribe(nodeId, callback)]. *)
Definition subscribe (id : string) (callback : Callback) (w : World) : Result.t * World :=
  match findNode id (addressSpace w) with
  | Some (Own node) =>
      if String.eqb (nodeClass node) "Variable" then
        (Result.ok ("Subscribed to '" ++ browseName node ++ "'."),
         setSubscriptions (<[id := callback]> (subscriptions w)) w)
      else
        (Result.failure ("Cannot subscribe to '" ++ id ++ "'. Not a Variable."), w)
  | _ => (Result.failure ("Cannot subscribe to '" ++ id ++ "'. Not a Variable."), w)
  end.

(** [unsubscribe(nodeId)]: the test [this.subscriptions[nodeId]] reads an
    own or an inherited property; [delete] removes an own property and
    does nothing when there is none. *)
Definition unsubscribe (id : string) (w : World) : Result.t * World :=
  match getProp (subscriptions w !! id) id with
  | Some _ =>
      (Result.ok ("Unsubscribed from '" ++ id ++ "'."),
       setSubscriptions (delete id (subscriptions w)) w)
  | None => (Result.failure ("No active subscription for '" ++ id ++ "'."), w)
  end.

(** [startDataSimulation()]: nothing when [updateInterval] is set, else
    [setInterval] starts a timer and its id is kept. *)
Definition startDataSimulation (w : World) : World :=
  match updateInterval w with
  | Some _ => w
  | None =>
      mkWorld (addressSpace w) (subscriptions w) (Some (nextTimer w))
        ({[ nextTimer w ]} ∪ timers w) (Pos.succ (nextTimer w)) (calls w)
  end.

(** [stopDataSimulation()]: [clearInterval] and [updateInterval = null]
    when a timer id is kept, nothing otherwise. *)
Definition stopDataSimulation (w : World) : World :=
  match updateInterval w with
  | Some i =>
      mkWorld (addressSpace w) (subscriptions w) None
        (timers w ∖ {[ i ]}) (nextTimer w) (calls w)
  | None => w
  end.

(** [if (this.subscriptions[id]) this.subscriptions[id](v, t)].  The
    callee is a subscribed callback, or the inherited function when [id]
    is the name of one and nothing is subscribed to it; the call is
    recorded, and what the callee does is its own affair: the callback
    of [app.js] writes to the page and leaves the server alone, and the
    properties below are about trees none of whose ids names an
    inherited property. *)
Definition notify (id : string) (v : JsValue) (t : option string) (w : World) : World :=
  match getProp (subscriptions w !! id) id with
  | Some f => setCalls (calls w ++ [mkCall f v t]) w
  | None => w
  end.

(** The [switch] on [node.dataType] in [writeNode], inside its [try]:
    the converted value, or the message of the [Error] thrown. *)
Definition convert (type : option string) (newValue : string) : string + JsValue :=
  match type with
  | Some "Float" =>
      let convertedValue := parseFloat newValue in
      if isNaN convertedValue then inl "Invalid float value."
      else inr (JNum convertedValue)
  | Some "Boolean" =>
      inr (JBool (String.eqb (toLowerCase newValue) "true" || String.eqb newValue "1"))
  | Some "String" => inr (JStr newValue)
  | _ => inr (JStr newValue)
  end.

Definition orUndefined (o : option string) : string :=
  match o with Some s => s | None => "undefined" end.

(** ** Notions the properties are stated with *)

(** The node ids present in a tree: the keys of a space and of the
    [children] of its nodes, at any depth. *)
Fixpoint keys (sp : Space) : list string :=
  match sp with
  | snil => []
  | scons k n rest =>
      k :: match children n with Some ch => keys ch | None => [] end ++ keys rest
  end.

(** No node id of the tree is the name of a property of
    [Object.prototype].  Ids follow the grammar [ns=<n>;i=<integer>] or
    [ns=<n>;s=<key>], so those of an address space never are.  (An id
    such as [__proto__] would make [subscriptions[id] = callback] set
    the prototype of the registry, and a write to it call an inherited
    function.) *)
Definition plainKeys (sp : Space) : Prop :=
  forall k, In k (keys sp) -> inherited k = false.

(** [id] resolves to a Variable node [n]. *)
Definition resolvesToVariable (id : string) (sp : Space) (n : Node) : Prop :=
  findNode id sp = Some (Own n) /\ nodeClass n = "Variable".

(** [id] resolves to an Object node. *)
Definition resolvesToObject (id : string) (sp : Space) : Prop :=
  exists n, findNode id sp = Some (Own n) /\ nodeClass n = "Object".

(** Two nodes that differ at most in their [children]. *)
Definition sameAttributes (n n' : Node) : Prop :=
  browseName n = browseName n' /\ nodeId n = nodeId n' /\
  nodeClass n = nodeClass n' /\ dataType n = dataType n' /\
  value n = value n' /\ accessLevel n = accessLevel n' /\
  timestamp n = timestamp n'.

(** Two results of a lookup that are the same but for the [children] of
    the node found. *)
Definition sameLookup (a b : option (Lookup Node)) : Prop :=
  match a, b with
  | Some (Own n), Some (Own n') => sameAttributes n n'
  | Some (Inherited k), Some (Inherited k') => k = k'
  | None, None => True
  | _, _ => False
  end.

(** The three ways [writeNode] fails. *)
Inductive WriteFailure (id raw : string) (sp : Space) : string -> Prop :=
| NotAVariable :
    (forall n, ~ resolvesToVariable id sp n) ->
    WriteFailure id raw sp ("Node '" ++ id ++ "' not found or not a Variable.")
| ReadOnlyViolation (n : Node) :
    resolvesToVariable id sp n ->
    accessLevel n <> Some "ReadWrite" ->
    WriteFailure id raw sp ("Node '" ++ browseName n ++ "' is ReadOnly.")
| InvalidValueFormat (n : Node) :
    resolvesToVariable id sp n ->
    accessLevel n = Some "ReadWrite" ->
    dataType n = Some "Float" ->
    parseFloat raw = NaN ->
    WriteFailure id raw sp "Invalid float value. for Float type.".

(** Equality of texts up to the case of the letters A-Z, as the
    specification words the Boolean conversion. *)
Definition isAsciiLetter (c : ascii) : bool :=
  ((65 <=? code c) && (code c <=? 90)) || ((97 <=? code c) && (code c <=? 122)).

Definition sameLetter (c d : ascii) : bool :=
  Ascii.eqb c d ||
  (isAsciiLetter c && isAsciiLetter d && (Z.abs (code c - code d) =? 32)).

Fixpoint equalsIgnoreCase (s t : string) : bool :=
  match s, t with
  | EmptyString, EmptyString => true
  | String c s', String d t' => sameLetter c d && equalsIgnoreCase s' t'
  | _, _ => false
  end.

(** An address space with a ReadWrite Boolean and a ReadWrite String
    Variable, data types the constructor only gives to ReadOnly nodes. *)
Definition switchSpace (b : bool) (label t : string) : Space :=
  scons "ns=0;i=84"
    (mkNode "Objects" "ns=0;i=84" "Object" None JUndefined None None
       (Some
          (scons "ns=2;s=Switch"
             (variable "Switch" "ns=2;s=Switch" "Boolean" (JBool b) "ReadWrite" t)
          (scons "ns=2;s=Label"
             (variable "Label" "ns=2;s=Label" "String" (JStr label) "ReadWrite" t)
           snil))))
    snil.

(** ** Numbers in an interval *)

(** [x] is a finite, non-negative Number with [lo <= x <= hi]. *)
Definition between (lo hi : Z) (x : Number) : Prop :=
  match x with
  | Fin false m e => 0 <= m /\ lo * denom e <= numer m e <= hi * denom e
  | _ => False
  end.

(** What [Math.random()] returns: a Number with positive sign, at least
    0 and less than 1. *)
Definition unitInterval (r : Number) : Prop :=
  match r with
  | Fin false m e => 0 <= m /\ numer m e < denom e
  | _ => False
  end.

(** [x] is the integer [z], with a negative exponent. *)
Definition exactly (z : Z) (x : Number) : Prop :=
  match x with
  | Fin false m e => e < 0 /\ m = z * 2 ^ (- e)
  | _ => False
  end.

(** [lo <= x < hi] for a Number [x]. *)
Definition halfOpen (lo hi : Z) (x : Number) : Prop :=
  match x with
  | Fin neg m e =>
      let a := if neg then - numer m e else numer m e in
      lo * denom e <= a /\ a < hi * denom e
  | _ => False
  end.

(** The Number a value stands for when it is read as one: itself, or the
    number a string starts with. *)
Definition asNumber (v : JsValue) : Number :=
  match v with
  | JNum x => x
  | JStr s => parseFloat s
  | JBool b => ofZ (if b then 1 else 0)
  | JUndefined => NaN
  end.

(** ** Decimal literals, as the specification words [parseFloat] *)


Definition isPoint (c : ascii) : bool := Ascii.eqb c ".".
Definition isExponentIndicator (c : ascii) : bool := Ascii.eqb c "e" || Ascii.eqb c "E".




Fixpoint allDigits (s : string) : bool :=
  match s with
  | String c r => isDigit c && allDigits r
  | EmptyString => true
  end.

Fixpoint allWhiteSpace (s : string) : bool :=
  match s with
  | String c r => isWhiteSpace c && allWhiteSpace r
  | EmptyString => true
  end.

Definition isSign (s : string) : bool :=
  String.eqb s "" || String.eqb s "+" || String.eqb s "-".

(** A decimal literal: optional sign, integer digits, optional point with
    fraction digits, optional exponent part (indicator, sign, digits). *)
Record Literal : Type := mkLiteral {
  litSign : string;
  litInt : string;
  litPoint : bool;
  litFrac : string;
  litExp : option (ascii * string * string)
}.

Definition wfLiteral (l : Literal) : bool :=
  isSign (litSign l) && allDigits (litInt l) && allDigits (litFrac l)
  && (litPoint l || String.eqb (litFrac l) "")
  && negb (String.eqb (litInt l) "" && String.eqb (litFrac l) "")
  && match litExp l with
     | Some (ind, sg, ds) =>
         isExponentIndicator ind && isSign sg && allDigits ds
         && negb (String.eqb ds "")
     | None => true
     end.

Definition expText (e : option (ascii * string * string)) : string :=
  match e with
  | Some (ind, sg, ds) => String ind (sg ++ ds)
  | None => ""
  end.

Definition literalText (l : Literal) : string :=
  litSign l ++ litInt l ++ (if litPoint l then "." ++ litFrac l else "")
  ++ expText (litExp l).

(** The number a decimal literal denotes, as a Number:
    [(-1)^sign * (int.frac) * 10^exp]. *)
Definition literalValue (l : Literal) : Number :=
  decimalNumber (String.eqb (litSign l) "-")
    (digitsValue (litInt l ++ litFrac l))
    (match litExp l with
     | Some (_, sg, ds) =>
         if String.eqb sg "-" then - digitsValue ds else digitsValue ds
     | None => 0
     end - len (litFrac l)).

(** A character that cannot continue a decimal literal. *)
Definition nonNumeric (c : ascii) : bool :=
  negb (isDigit c || isPoint c || isExponentIndicator c).

(** A text of characters to be ignored after a literal: empty, or
    starting with a character that is not numeric. *)
Definition ignorable (tail : string) : bool :=
  match tail with
  | String c _ => nonNumeric c
  | EmptyString => true
  end.

(** ** Example data *)

(** Clock readings, in the format [toISOString] gives. *)
Definition time0 : string := "2025-03-01T10:00:00.000Z".
Definition time1 : string := "2025-03-01T10:00:02.000Z".
Definition time2 : string := "2025-03-01T10:00:02.001Z".

(** A constructed server. *)
Definition server0 : World := construct time0 time0 time0 time0.

(** A server with a ReadWrite Boolean Variable. *)
Definition switchServer : World :=
  mkWorld (switchSpace false "Unit" time0) ∅ None ∅ 1%positive [].

(** A stand-in for [Number::toString] in the examples; the properties
    hold for every function in its place. *)
Definition printedNumber (x : Number) : string := "<number>".

Section Server.

(** [Number::toString], the text of a Number in a template literal and
    the result of [toFixed] on a Number that is not finite or is
    [10^21] or more in magnitude.  The source only passes its result
    on; it is taken as given. *)
Variable numberToString : Number -> string.

(** [`${v}`] *)
Definition toText (v : JsValue) : string :=
  match v with
  | JUndefined => "undefined"
  | JNum x => numberToString x
  | JBool true => "true"
  | JBool false => "false"
  | JStr s => s
  end.

Definition digitChar (d : Z) : ascii := ascii_of_N (Z.to_N (48 + d)).

(** The text of [n / 100] with two decimals: the digits of [n] with a
    point before the last two, and a zero before the point when
    [n < 100]. *)
Definition fixedText (n : Z) : string :=
  decimalText (n / 100) ++ "." ++
  String (digitChar (n mod 100 / 10))
    (String (digitChar (n mod 10)) EmptyString).

(** [x.toFixed(2)]: [Number::toString] of a Number that is not finite;
    else a [-] when [x < 0], followed by [Number::toString] of [|x|]
    when [|x| >= 10^21], and otherwise by the two-decimal text of the
    integer [n] for which [n / 100] is nearest to [|x|], the larger one
    of two. *)
Definition toFixed2 (x : Number) : string :=
  match x with
  | Fin neg m e =>
      let a := numer m e in
      let b := denom e in
      let s := if neg && (0 <? m) then "-" else "" in
      if 10 ^ 21 * b <=? a then s ++ numberToString (Fin false m e)
      else
        let n := (200 * a + b) / (2 * b) in
        s ++ fixedText n
  | _ => numberToString x
  end.

(** [writeNode(nodeId, newValue)], with [now] the result of
    [getUtcTimestamp()] should the call reach it. *)
Definition writeNode (now : string) (id : string) (newValue : string)
    (w : World) : Result.t * World :=
  match findNode id (addressSpace w) with
  | Some (Own node) =>
      if negb (String.eqb (nodeClass node) "Variable") then
        (Result.failure ("Node '" ++ id ++ "' not found or not a Variable."), w)
      else if negb (bool_decide (accessLevel node = Some "ReadWrite")) then
        (Result.failure ("Node '" ++ browseName node ++ "' is ReadOnly."), w)
      else
        match convert (dataType node) newValue with
        | inl msg =>
            (Result.failure (msg ++ " for " ++ orUndefined (dataType node) ++ " type."), w)
        | inr convertedValue =>
            let w' := setSpace (modifyNode (update convertedValue now) id (addressSpace w)) w in
            (Result.mk true
               ("Value of " ++ browseName node ++ " updated to " ++ toText convertedValue)
               (Some now) (dataType node),
             notify id convertedValue (Some now) w')
        end
  | _ => (Result.failure ("Node '" ++ id ++ "' not found or not a Variable."), w)
  end.

(** One variable of the timer's callback:
    [node = findNode(id); if (node) { node.value = (Math.random() * scale + base).toFixed(2);
    node.timestamp = getUtcTimestamp(); notify }],
    with [r] the result of [Math.random()] and [now] that of
    [getUtcTimestamp()].  Neither id the callback uses is the name of
    an inherited property, so a truthy result is a node. *)
Definition simulate (id : string) (scale base : Z) (r : Number) (now : string)
    (w : World) : World :=
  match findNode id (addressSpace w) with
  | Some (Own _) =>
      let v := JStr (toFixed2 (add (mul r (ofZ scale)) (ofZ base))) in
      notify id v (Some now)
        (setSpace (modifyNode (update v now) id (addressSpace w)) w)
  | _ => w
  end.

(** The callback [startDataSimulation] hands to [setInterval]: what one
    tick does to the server.  The two calls that follow in the source
    redraw the page and leave the server alone. *)
Definition tick (r1 r2 : Number) (t1 t2 : string) (w : World) : World :=
  simulate "ns=1;s=Pressure" 5 98 r2 t2
    (simulate "ns=1;s=Temperature" 10 20 r1 t1 w).

(** What can happen to a server: a call of one of its methods, or the
    host firing the timer [timer] with the given random numbers and
    clock readings. *)
Inductive Op : Type :=
| OpRead (id : string)
| OpBrowse (parent : option string)
| OpWrite (now id newValue : string)
| OpSubscribe (id : string) (callback : Callback)
| OpUnsubscribe (id : string)
| OpStart
| OpStop
| OpTick (timer : positive) (r1 r2 : Number) (t1 t2 : string).

(** A timer fires only while it is active. *)
Definition fires (timer : positive) (w : World) : bool :=
  bool_decide (timer ∈ timers w).

Definition exec (o : Op) (w : World) : World :=
  match o with
  | OpRead _ | OpBrowse _ => w
  | OpWrite now id v => snd (writeNode now id v w)
  | OpSubscribe id cb => snd (subscribe id cb w)
  | OpUnsubscribe id => snd (unsubscribe id w)
  | OpStart => startDataSimulation w
  | OpStop => stopDataSimulation w
  | OpTick i r1 r2 t1 t2 => if fires i w then tick r1 r2 t1 t2 w else w
  end.

Definition run (ops : list Op) (w : World) : World :=
  fold_left (fun w o => exec o w) ops w.

(** The servers a program can hold: a constructed one, after any number
    of method calls and timer events. *)
Definition reachable (w : World) : Prop :=
  exists (t1 t2 t3 t4 : string) (ops : list Op),
    w = run ops (construct t1 t2 t3 t4).

(** The constructor's tree with the given values and timestamps in
    Status and DeviceName, whatever Temperature and Pressure hold. *)
Definition treeWith (vS : JsValue) (tS : string) (vD : JsValue) (tD : string)
    (sp : Space) : Prop :=
  exists vT tT vP tP, sp = spaceWith vT tT vP tP vS tS vD tD.

(** The constructor's tree, whatever its four Variables hold. *)
Definition constructedTree (sp : Space) : Prop :=
  exists vS tS vD tD, treeWith vS tS vD tD sp.

(** The timer whose id the server keeps is the one active timer that
    runs the simulation. *)
Definition timersKept (w : World) : Prop :=
  timers w = match updateInterval w with Some i => {[ i ]} | None => ∅ end.

(** No node id has the callback [cb] subscribed. *)
Definition unsubscribed (cb : Callback) (w : World) : Prop :=
  forall k, subscriptions w !! k <> Some cb.

Definition isSubscribeOf (cb : Callback) (o : Op) : Prop :=
  match o with OpSubscribe _ cb' => cb' = cb | _ => False end.

(** The calls made after the first [n]. *)
Definition callsFrom (n : nat) (w : World) : list Call := drop n (calls w).

(** ** The order of the search, and trees that can be browsed *)

(** The entries below the first level of a space, in the order
    [findNode] meets them: for each node in turn, the entries of its
    [children] and what is below them. *)
Fixpoint below (sp : Space) : list (string * Node) :=
  match sp with
  | snil => []
  | scons _ n rest =>
      match children n with
      | Some ch => entries ch ++ below ch
      | None => []
      end ++ below rest
  end.

(** All entries of a tree in the order [findNode] meets them: the own
    properties of the space first, then what is below. *)
Definition searchOrder (sp : Space) : list (string * Node) :=
  entries sp ++ below sp.

(** The first node of a list of entries stored under [id]. *)
Definition findKey (id : string) (l : list (string * Node)) : option Node :=
  match find (fun kn => String.eqb id (fst kn)) l with
  | Some kn => Some (snd kn)
  | None => None
  end.

(** Every node of the tree carries the key it is stored under in its
    [nodeId] property. *)
Definition keyedById (sp : Space) : Prop :=
  forall k n, In (k, n) (searchOrder sp) -> nodeId n = k.

(** A tree as the data model has it: ids that are unique, that name no
    inherited property, and that the nodes carry. *)
Definition wellFormed (sp : Space) : Prop :=
  NoDup (keys sp) /\ plainKeys sp /\ keyedById sp.

(** The number of levels of a tree. *)
Fixpoint depth (sp : Space) : nat :=
  match sp with
  | snil => O
  | scons _ n rest =>
      Nat.max (match children n with Some ch => S (depth ch) | None => O end)
              (depth rest)
  end.

(** What [renderAddressSpaceTree(parentElement, nodes, level)] appends to
    [parentElement]: a list with one item per node, and in the item of a
    node with [hasChildren] the list rendered for
    [server.browseNodes(node.nodeId)].  An item keeps the summary its
    elements are filled from. *)
#[warnings="-register-all"] Inductive Item : Type :=
| mkItem (shown : Summary.t) (sub : list Item).

(** The summaries of a rendered list, from top to bottom. *)
Fixpoint shownIn (i : Item) : list Summary.t :=
  match i with
  | mkItem s sub => s :: flat_map shownIn sub
  end.

(** [renderAddressSpaceTree]; the recursion of the source follows
    [browseNodes], so [fuel] bounds the depth of the calls and [None] is
    a rendering that does not end within it. *)
Fixpoint renderAddressSpaceTree (fuel : nat) (w : World) (nodes : list Summary.t)
  : option (list Item) :=
  match fuel with
  | O => None
  | S fuel' =>
      fold_right
        (fun node done =>
           match
             if Summary.hasChildren node then
               renderAddressSpaceTree fuel' w
                 (browseNodes (Some (Summary.nodeId node)) w)
             else Some []
           with
           | Some sub =>
               match done with
               | Some items => Some (mkItem node sub :: items)
               | None => None
               end
           | None => None
           end)
        (Some []) nodes
  end.

(** ** [getLocalUtcOffset] *)

(** [-x] on Numbers. *)
Definition opp (x : Number) : Number :=
  match x with
  | NaN => NaN
  | Inf s => Inf (negb s)
  | Fin s m e => Fin (negb s) m e
  end.

(** [x / y] on Numbers: the quotient of two finite Numbers is the
    fraction [(m * 2^e) / (m' * 2^e')], rounded. *)
Definition div (x y : Number) : Number :=
  match x, y with
  | NaN, _ | _, NaN => NaN
  | Inf _, Inf _ => NaN
  | Inf s, Fin t _ _ => Inf (xorb s t)
  | Fin s _ _, Inf t => Fin (xorb s t) 0 (-1074)
  | Fin s m e, Fin t m' e' =>
      if m' =? 0 then (if m =? 0 then NaN else Inf (xorb s t))
      else binary64 (xorb s t) (numer m e * denom e') (numer m' e' * denom e)
  end.

(** [x === 0]: true of both zeros. *)
Definition isZero (x : Number) : bool :=
  match x with Fin _ m _ => m =? 0 | _ => false end.

(** [x > 0]. *)
Definition greaterThanZero (x : Number) : bool :=
  match x with
  | Fin false m _ => 0 <? m
  | Inf false => true
  | _ => false
  end.

(** [getLocalUtcOffset()], with [offsetMinutes] what
    [new Date().getTimezoneOffset()] returns: a whole number of minutes. *)
Definition getLocalUtcOffset (offsetMinutes : Z) : string :=
  let offsetHours := div (opp (ofZ offsetMinutes)) (ofZ 60) in
  if isZero offsetHours then "UTC+0"
  else "UTC" ++ (if greaterThanZero offsetHours then "+" else "")
             ++ numberToString offsetHours.

(** ** The page

    The part of [app.js] around the server: the variables
    [isConnected] and [subscribedNodeId], the elements of the document
    the functions write to, the click handlers and [init].  Of an
    element the model keeps what the functions assign: its text, its
    [disabled] flag, its [value], its [style.display] or the list of its
    children; class names are left out.  The times the page prints come
    from the host's locale and time zone, so the two functions that
    format them are taken as given. *)

(** [new Date(t).toLocaleTimeString('en-US', { hour12: false, timeZone: 'UTC' })] *)
Variable utcTimeString : option string -> string.

(** [formatUtcToLocalTime(t)] *)
Variable formatUtcToLocalTime : option string -> string.

(** [s.trimEnd()] and [s.trim()]. *)
Fixpoint trimEnd (s : string) : string :=
  match s with
  | EmptyString => EmptyString
  | String c r =>
      match trimEnd r with
      | EmptyString => if isWhiteSpace c then EmptyString else String c EmptyString
      | r' => String c r'
      end
  end.

Definition trim (s : string) : string := trimEnd (trimStart s).

(** The [type] of [displayClientMessage]. *)
Inductive MessageType : Type := ErrorMessage | SuccessMessage | InfoMessage.

(** The [disabled] flags of the five buttons and the text of the
    subscribe button. *)
Record Buttons : Type := mkButtons {
  connectDisabled : bool;
  disconnectDisabled : bool;
  readDisabled : bool;
  writeDisabled : bool;
  subscribeDisabled : bool;
  subscribeText : string
}.

(** The content of the element [address-space-tree]: what the document
    came with, the prompt [handleDisconnect] puts there, or the list
    [renderAddressSpaceTree] builds from [server.browseNodes()] on the
    tree [shown]. *)
Inductive TreePanel : Type :=
| TreeAsLoaded
| ConnectPrompt
| TreeOf (shown : Space).

(** A child of the element [subscription-entries]: the paragraph
    [No active subscription data.] or an entry with its text. *)
Inductive LogItem : Type :=
| NoData
| Entry (text : string).

(** A [div] of the element [server-nodes-display]. *)
Record NodeLine : Type := mkNodeLine {
  lineName : string;
  lineValue : string;
  lineTimestamp : string
}.

(** The document, as far as the functions write to it. *)
Record Dom : Type := mkDom {
  clientConnectionStatus : string;
  buttons : Buttons;
  addressSpaceTree : TreePanel;
  nodeIdInput : string;
  nodeValueInput : string;
  clientMessageBox : option (string * MessageType);
  serverNodesDisplay : list NodeLine;
  subscriptionLogDisplay : string;
  subscriptionEntries : list LogItem;
  subscribedNodeIdDisplay : string
}.

Definition setStatus (s : string) (d : Dom) : Dom :=
  mkDom s (buttons d) (addressSpaceTree d) (nodeIdInput d) (nodeValueInput d)
    (clientMessageBox d) (serverNodesDisplay d) (subscriptionLogDisplay d)
    (subscriptionEntries d) (subscribedNodeIdDisplay d).
Definition setButtons (b : Buttons) (d : Dom) : Dom :=
  mkDom (clientConnectionStatus d) b (addressSpaceTree d) (nodeIdInput d)
    (nodeValueInput d) (clientMessageBox d) (serverNodesDisplay d)
    (subscriptionLogDisplay d) (subscriptionEntries d) (subscribedNodeIdDisplay d).
Definition setTree (t : TreePanel) (d : Dom) : Dom :=
  mkDom (clientConnectionStatus d) (buttons d) t (nodeIdInput d)
    (nodeValueInput d) (clientMessageBox d) (serverNodesDisplay d)
    (subscriptionLogDisplay d) (subscriptionEntries d) (subscribedNodeIdDisplay d).
Definition setNodeIdInput (s : string) (d : Dom) : Dom :=
  mkDom (clientConnectionStatus d) (buttons d) (addressSpaceTree d) s
    (nodeValueInput d) (clientMessageBox d) (serverNodesDisplay d)
    (subscriptionLogDisplay d) (subscriptionEntries d) (subscribedNodeIdDisplay d).
Definition setNodeValueInput (s : string) (d : Dom) : Dom :=
  mkDom (clientConnectionStatus d) (buttons d) (addressSpaceTree d) (nodeIdInput d)
    s (clientMessageBox d) (serverNodesDisplay d)
    (subscriptionLogDisplay d) (subscriptionEntries d) (subscribedNodeIdDisplay d).
Definition setServerNodes (l : list NodeLine) (d : Dom) : Dom :=
  mkDom (clientConnectionStatus d) (buttons d) (addressSpaceTree d) (nodeIdInput d)
    (nodeValueInput d) (clientMessageBox d) l
    (subscriptionLogDisplay d) (subscriptionEntries d) (subscribedNodeIdDisplay d).
Definition setLogDisplay (s : string) (d : Dom) : Dom :=
  mkDom (clientConnectionStatus d) (buttons d) (addressSpaceTree d) (nodeIdInput d)
    (nodeValueInput d) (clientMessageBox d) (serverNodesDisplay d)
    s (subscriptionEntries d) (subscribedNodeIdDisplay d).
Definition setEntries (l : list LogItem) (d : Dom) : Dom :=
  mkDom (clientConnectionStatus d) (buttons d) (addressSpaceTree d) (nodeIdInput d)
    (nodeValueInput d) (clientMessageBox d) (serverNodesDisplay d)
    (subscriptionLogDisplay d) l (subscribedNodeIdDisplay d).
Definition setSubscribedDisplay (s : string) (d : Dom) : Dom :=
  mkDom (clientConnectionStatus d) (buttons d) (addressSpaceTree d) (nodeIdInput d)
    (nodeValueInput d) (clientMessageBox d) (serverNodesDisplay d)
    (subscriptionLogDisplay d) (subscriptionEntries d) s.

(** The page: the server, the two variables, the number of arrow
    functions [handleSubscribe] has created so far (the next one is
    known to the server by that number), and the document. *)
Record Page : Type := mkPage {
  server : World;
  isConnected : bool;
  subscribedNodeId : option string;
  closures : nat;
  dom : Dom
}.

Definition setDom (d : Dom) (p : Page) : Page :=
  mkPage (server p) (isConnected p) (subscribedNodeId p) (closures p) d.

(** [displayClientMessage(message, type)]: the text and the type the
    message box shows.  (The timer that hides the box again is not
    modelled.) *)
Definition displayClientMessage (message : string) (type : MessageType)
    (d : Dom) : Dom :=
  mkDom (clientConnectionStatus d) (buttons d) (addressSpaceTree d) (nodeIdInput d)
    (nodeValueInput d) (Some (message, type)) (serverNodesDisplay d)
    (subscriptionLogDisplay d) (subscriptionEntries d) (subscribedNodeIdDisplay d).

(** [if (subscribedNodeId)]: [null] and the empty text are falsy. *)
Definition truthy (o : option string) : bool :=
  match o with
  | Some s => negb (String.eqb s "")
  | None => false
  end.

(** What [updateClientButtons()] makes of the buttons. *)
Definition buttonsFor (connected : bool) (subscribed : option string) : Buttons :=
  mkButtons connected (negb connected) (negb connected) (negb connected)
    (negb connected)
    (if truthy subscribed then "Unsubscribe" else "Subscribe (Simulated)").

Definition updateClientButtons (connected : bool) (subscribed : option string)
    (d : Dom) : Dom :=
  setButtons (buttonsFor connected subscribed) d.

Definition nodesToDisplay : list string :=
  [ "ns=1;s=Temperature"; "ns=1;s=Pressure"; "ns=1;s=Status"; "ns=1;s=DeviceName" ].

(** [updateServerNodeDisplay()]: a line for each of the four ids that
    [server.findNode] finds.  (None of the four ids names an inherited
    property, so what is found is a node.) *)
Definition updateServerNodeDisplay (w : World) (d : Dom) : Dom :=
  setServerNodes
    (flat_map
       (fun id =>
          match findNode id (addressSpace w) with
          | Some (Own node) =>
              [ mkNodeLine (browseName node) (toText (value node))
                  (utcTimeString (timestamp node) ++ " UTC") ]
          | _ => []
          end)
       nodesToDisplay)
    d.

(** The arrow function [handleSubscribe] subscribes: a new entry is put
    before the children of [subscription-entries], and the last child
    is removed when there are more than ten. *)
Definition entryText (newValue : JsValue) (newTimestamp : option string) : string :=
  "New Value: " ++ toText newValue ++ " (UTC: " ++ utcTimeString newTimestamp
  ++ " | Local: " ++ formatUtcToLocalTime newTimestamp ++ ")".

Definition prependEntry (newValue : JsValue) (newTimestamp : option string)
    (l : list LogItem) : list LogItem :=
  let l' := Entry (entryText newValue newTimestamp) :: l in
  if (10 <? length l')%nat then removelast l' else l'.

(** What the calls the server made do to the page: every callback the
    page subscribed is such an arrow function. *)
Definition called (c : Call) (l : list LogItem) : list LogItem :=
  match callee c with
  | Own _ => prependEntry (argValue c) (argTimestamp c) l
  | Inherited _ => l
  end.

Definition deliver (cs : list Call) (l : list LogItem) : list LogItem :=
  fold_left (fun l c => called c l) cs l.

(** The server after a call of one of its methods, on the page: the
    callbacks it called in between have written their entries. *)
Definition served (w' : World) (p : Page) : Dom :=
  setEntries
    (deliver (callsFrom (length (calls (server p))) w')
       (subscriptionEntries (dom p)))
    (dom p).

(** [handleConnect()] *)
Definition handleConnect (p : Page) : Page :=
  if isConnected p then p
  else
    let w := startDataSimulation (server p) in
    mkPage w true (subscribedNodeId p) (closures p)
      (displayClientMessage
         "Successfully connected to simulated OPC UA Server." SuccessMessage
         (setTree (TreeOf (addressSpace w))
            (updateServerNodeDisplay w
               (updateClientButtons true (subscribedNodeId p)
                  (setStatus "Client Status: Connected" (dom p)))))).

(** [handleDisconnect()] *)
Definition handleDisconnect (p : Page) : Page :=
  if negb (isConnected p) then p
  else
    let w :=
      match subscribedNodeId p with
      | Some id => if truthy (Some id) then snd (unsubscribe id (server p)) else server p
      | None => server p
      end in
    let subscribed := if truthy (subscribedNodeId p) then None else subscribedNodeId p in
    mkPage (stopDataSimulation w) false subscribed (closures p)
      (displayClientMessage "Disconnected from simulated OPC UA Server." InfoMessage
         (setTree ConnectPrompt
            (updateClientButtons false subscribed
               (setEntries [NoData]
                  (setLogDisplay "none"
                     (setStatus "Client Status: Disconnected" (dom p))))))).

(** [handleRead()]; [offsetMinutes] is the time zone offset the host
    reports when the message is written. *)
Definition handleRead (offsetMinutes : Z) (p : Page) : Page :=
  let nodeId := trim (nodeIdInput (dom p)) in
  if String.eqb nodeId "" then
    setDom (displayClientMessage "Please enter a Node ID to read." ErrorMessage (dom p)) p
  else
    match readNode nodeId (server p) with
    | Some result =>
        setDom
          (displayClientMessage
             ("Read Node '" ++ nodeId ++ "': Value = "
              ++ toText (ReadResult.value result)
              ++ ", Data Type = " ++ orUndefined (ReadResult.dataType result)
              ++ ", Access = " ++ orUndefined (ReadResult.accessLevel result)
              ++ ", UTC Timestamp = " ++ utcTimeString (ReadResult.timestamp result)
              ++ " UTC, Local Timestamp = "
              ++ formatUtcToLocalTime (ReadResult.timestamp result)
              ++ " " ++ getLocalUtcOffset offsetMinutes)
             SuccessMessage (dom p))
          p
    | None =>
        setDom
          (displayClientMessage
             ("Failed to read Node '" ++ nodeId ++ "'. Node not found or not a variable.")
             ErrorMessage (dom p))
          p
    end.

(** [handleWrite()]; [now] is the clock reading of [writeNode]. *)
Definition handleWrite (now : string) (offsetMinutes : Z) (p : Page) : Page :=
  let nodeId := trim (nodeIdInput (dom p)) in
  let newValue := trim (nodeValueInput (dom p)) in
  if String.eqb nodeId "" || String.eqb newValue "" then
    setDom
      (displayClientMessage "Please enter both a Node ID and a value to write."
         ErrorMessage (dom p))
      p
  else
    let (result, w) := writeNode now nodeId newValue (server p) in
    if Result.success result then
      mkPage w (isConnected p) (subscribedNodeId p) (closures p)
        (setNodeValueInput ""
           (displayClientMessage
              (Result.message result
               ++ ", UTC Timestamp = " ++ utcTimeString (Result.timestamp result)
               ++ " UTC, Local Timestamp = "
               ++ formatUtcToLocalTime (Result.timestamp result)
               ++ " " ++ getLocalUtcOffset offsetMinutes)
              SuccessMessage (served w p)))
    else
      mkPage w (isConnected p) (subscribedNodeId p) (closures p)
        (displayClientMessage
           ("Failed to write to Node '" ++ nodeId ++ "': " ++ Result.message result)
           ErrorMessage (served w p)).

(** [handleSubscribe()] *)
Definition handleSubscribe (p : Page) : Page :=
  let nodeId := trim (nodeIdInput (dom p)) in
  if String.eqb nodeId "" then
    setDom
      (displayClientMessage "Please enter a Node ID to subscribe." ErrorMessage (dom p))
      p
  else if bool_decide (subscribedNodeId p = Some nodeId) then
    let (result, w) := unsubscribe nodeId (server p) in
    if Result.success result then
      mkPage w (isConnected p) None (closures p)
        (updateClientButtons (isConnected p) None
           (displayClientMessage (Result.message result) InfoMessage
              (setEntries [NoData] (setLogDisplay "none" (dom p)))))
    else
      mkPage w (isConnected p) (subscribedNodeId p) (closures p)
        (updateClientButtons (isConnected p) (subscribedNodeId p)
           (displayClientMessage
              ("Unsubscription failed: " ++ Result.message result)
              ErrorMessage (dom p)))
  else
    let (w0, d0) :=
      match subscribedNodeId p with
      | Some old =>
          if truthy (Some old) then
            (snd (unsubscribe old (server p)), setEntries [] (dom p))
          else (server p, dom p)
      | None => (server p, dom p)
      end in
    let (result, w) := subscribe nodeId (closures p) w0 in
    if Result.success result then
      mkPage w (isConnected p) (Some nodeId) (S (closures p))
        (updateClientButtons (isConnected p) (Some nodeId)
           (displayClientMessage (Result.message result) SuccessMessage
              (setSubscribedDisplay nodeId (setLogDisplay "block" d0))))
    else
      mkPage w (isConnected p) None (S (closures p))
        (updateClientButtons (isConnected p) None
           (displayClientMessage
              ("Subscription failed: " ++ Result.message result)
              ErrorMessage d0)).

(** The [onclick] of a node name in the rendered tree: the id goes to
    the input field.  (Which lists of the tree are folded is not
    modelled.) *)
Definition selectNode (id : string) (p : Page) : Page :=
  setDom
    (displayClientMessage ("Node ID '" ++ id ++ "' selected.") InfoMessage
       (setNodeIdInput id (dom p)))
    p.

(** The callback of the simulation timer, on the page: the tick of the
    server, the entries its callbacks write, and the two calls that
    redraw the page. *)
Definition timerTick (r1 r2 : Number) (t1 t2 : string) (p : Page) : Page :=
  let w := tick r1 r2 t1 t2 (server p) in
  let d := updateServerNodeDisplay w (served w p) in
  mkPage w (isConnected p) (subscribedNodeId p) (closures p)
    (if isConnected p then setTree (TreeOf (addressSpace w)) d else d).

(** [init()], run on the document [html] as it was loaded: the
    listeners are added, the node display is filled and the simulation
    is started.  (The clock [updateLocalTimeDisplay] keeps is not
    modelled: it writes the local time to two elements nothing else
    reads.)  [t1] to [t4] are the clock readings of the constructor. *)
Definition init (t1 t2 t3 t4 : string) (html : Dom) : Page :=
  let w := construct t1 t2 t3 t4 in
  mkPage (startDataSimulation w) false None O (updateServerNodeDisplay w html).

(** What can happen to the page: a click on one of the five buttons
    (a disabled button receives none), a click on a node name of the
    tree, text typed into one of the two fields, or the host firing a
    timer. *)
Inductive Event : Type :=
| ClickConnect
| ClickDisconnect
| ClickRead (offsetMinutes : Z)
| ClickWrite (now : string) (offsetMinutes : Z)
| ClickSubscribe
| ClickNode (id : string)
| TypeNodeId (text : string)
| TypeNodeValue (text : string)
| TimerFires (timer : positive) (r1 r2 : Number) (t1 t2 : string).

Definition handle (e : Event) (p : Page) : Page :=
  match e with
  | ClickConnect =>
      if connectDisabled (buttons (dom p)) then p else handleConnect p
  | ClickDisconnect =>
      if disconnectDisabled (buttons (dom p)) then p else handleDisconnect p
  | ClickRead offsetMinutes =>
      if readDisabled (buttons (dom p)) then p else handleRead offsetMinutes p
  | ClickWrite now offsetMinutes =>
      if writeDisabled (buttons (dom p)) then p
      else handleWrite now offsetMinutes p
  | ClickSubscribe =>
      if subscribeDisabled (buttons (dom p)) then p else handleSubscribe p
  | ClickNode id => selectNode id p
  | TypeNodeId text => setDom (setNodeIdInput text (dom p)) p
  | TypeNodeValue text => setDom (setNodeValueInput text (dom p)) p
  | TimerFires timer r1 r2 t1 t2 =>
      if fires timer (server p) then timerTick r1 r2 t1 t2 p else p
  end.

Definition handleAll (es : list Event) (p : Page) : Page :=
  fold_left (fun p e => handle e p) es p.

(** Events that leave the connection, the subscription and the buttons
    as they are. *)
Definition quiet (e : Event) : bool :=
  match e with
  | ClickConnect | ClickDisconnect | ClickSubscribe => false
  | _ => true
  end.

(** The pages a session can show: the page [init] leaves on some
    document, after any number of events. *)
Definition reachablePage (html : Dom) (p : Page) : Prop :=
  exists (t1 t2 t3 t4 : string) (es : list Event),
    p = handleAll es (init t1 t2 t3 t4 html).

(** The registry holds what the page believes it subscribed: nothing,
    or one arrow function of [handleSubscribe] under the id kept in
    [subscribedNodeId]. *)
Definition oneSubscription (p : Page) : Prop :=
  match subscribedNodeId p with
  | Some id =>
      In id nodesToDisplay /\
      exists cb, (cb < closures p)%nat /\ subscriptions (server p) = {[ id := cb ]}
  | None => subscriptions (server p) = ∅
  end.



(** Stand-ins for the two functions that format a time, and a document,
    for the examples. *)
Definition printedTime (t : option string) : string := "<time>".

Definition html0 : Dom :=
  mkDom "Client Status: Disconnected" (buttonsFor false None) TreeAsLoaded
    "" "" None [] "none" [NoData] "".

(** ** Notions of the revised properties *)

(** [n] hundredths is the non-negative Number [x] rounded to two decimal
    places: [n / 100] is at most half a hundredth away from [x]. *)
Definition roundedTo2 (x : Number) (n : Z) : Prop :=
  match x with
  | Fin false m e => 2 * Z.abs (100 * numer m e - n * denom e) <= denom e
  | _ => False
  end.

(** The grammar of node identifiers: [ns=<namespace-index>;i=<integer>]
    or [ns=<namespace-index>;s=<string-key>]. *)
Definition isNodeId (id : string) : bool :=
  match id with
  | String "n" (String "s" (String "=" rest)) =>
      let (index, t) := spanDigits rest in
      negb (String.eqb index "")
      && match t with
         | String ";" (String "i" (String "=" v)) =>
             allDigits v && negb (String.eqb v "")
         | String ";" (String "s" (String "=" _)) => true
         | _ => false
         end
  | _ => false
  end.

(** ** Looking nodes up *)

(** Induction on a space, with the hypothesis available for the
    [children] of its first node and for the rest of the space. *)
Lemma Space_children_ind (P : Space -> Prop) :
  P snil ->
  (forall k n rest,
      (forall ch, children n = Some ch -> P ch) -> P rest -> P (scons k n rest)) ->
  forall sp, P sp.
Proof.
  intros Hnil Hcons.
  fix IH 1.
  intros [|k n rest].
  - exact Hnil.
  - apply Hcons.
    + destruct n as [b i c d v a t [ch|]]; simpl; intros ch' E.
      * injection E as <-. apply IH.
      * discriminate.
    + apply IH.
Qed.

Lemma getProp_Own {A : Type} (o : option A) (k : string) (a : A) :
  getProp o k = Some (Own a) <-> o = Some a.
Proof.
  unfold getProp. destruct o as [b|].
  - split; intros E; injection E as ->; reflexivity.
  - destruct (inherited k); split; discriminate.
Qed.

Lemma getProp_plain {A : Type} (o : option A) (k : string) :
  inherited k = false -> getProp o k = option_map Own o.
Proof. intros H. unfold getProp. rewrite H. destruct o; reflexivity. Qed.

Lemma getProp_None {A : Type} (o : option A) (k : string) :
  getProp o k = None <-> o = None /\ inherited k = false.
Proof.
  unfold getProp. destruct o as [a|]; [split; [discriminate|intros [? _]; discriminate]|].
  destruct (inherited k); split; try discriminate; auto.
  intros [_ ?]; discriminate.
Qed.

(** One step of [findNode] on a non-empty space. *)
Lemma findNode_scons (id k : string) (n : Node) (rest : Space) :
  findNode id (scons k n rest) =
  match getProp (ownNode id (scons k n rest)) id with
  | Some found => Some found
  | None =>
      match children n with
      | Some ch =>
          match findNode id ch with
          | Some found => Some found
          | None => findInChildren id rest
          end
      | None => findInChildren id rest
      end
  end.
Proof. reflexivity. Qed.

(** An own property is found under a key of the tree. *)
Lemma ownNode_In_keys (id : string) (sp : Space) (n : Node) :
  ownNode id sp = Some n -> In id (keys sp).
Proof.
  induction sp as [|k m rest _ IH] using Space_children_ind; simpl; [discriminate|].
  destruct (String.eqb_spec id k) as [->|Hne]; intros E.
  - now left.
  - right. apply in_or_app. right. auto.
Qed.

Lemma findInChildren_In_keys (id : string) (sp : Space) (n : Node) :
  findInChildren id sp = Some (Own n) -> In id (keys sp).
Proof.
  induction sp as [|k m rest IHch IH] using Space_children_ind; simpl; [discriminate|].
  destruct (children m) as [ch|] eqn:Ech.
  - destruct (getProp (ownNode id ch) id) as [found|] eqn:Eg.
    + intros E. injection E as ->. apply getProp_Own in Eg.
      right. apply in_or_app. left. eapply ownNode_In_keys; eauto.
    + destruct (findInChildren id ch) as [found|] eqn:Ef.
      * intros E. injection E as ->.
        right. apply in_or_app. left. eapply IHch; eauto.
      * intros E. right. apply in_or_app. right. auto.
  - intros E. right. simpl. auto.
Qed.

(** A node [findNode] returns is stored under the id asked for. *)
Lemma findNode_In_keys (id : string) (sp : Space) (n : Node) :
  findNode id sp = Some (Own n) -> In id (keys sp).
Proof.
  unfold findNode. destruct (getProp (ownNode id sp) id) as [found|] eqn:Eg.
  - intros E. injection E as ->. apply getProp_Own in Eg.
    eapply ownNode_In_keys; eauto.
  - apply findInChildren_In_keys.
Qed.

Lemma findNode_plain (id : string) (sp : Space) (n : Node) :
  plainKeys sp -> findNode id sp = Some (Own n) -> inherited id = false.
Proof. intros Hp Hf. apply Hp. eapply findNode_In_keys; eauto. Qed.

Lemma ownNode_absent (id : string) (sp : Space) :
  ~ In id (keys sp) -> ownNode id sp = None.
Proof.
  destruct (ownNode id sp) as [n|] eqn:E; [|reflexivity].
  intros H. exfalso. apply H. eapply ownNode_In_keys; eauto.
Qed.

(** An id that is no key of the tree is not found, or an inherited
    property is. *)
Lemma findNode_absent (id : string) (sp : Space) :
  ~ In id (keys sp) -> forall n, findNode id sp <> Some (Own n).
Proof. intros H n E. apply H. eapply findNode_In_keys; eauto. Qed.

(** ** Changing the node found *)

Lemma ownNode_modifyOwn (f : Node -> Node) (id : string) (sp : Space) :
  ownNode id (modifyOwn f id sp) = option_map f (ownNode id sp).
Proof.
  induction sp as [|k m rest _ IH] using Space_children_ind; simpl; [reflexivity|].
  destruct (String.eqb id k) eqn:E; simpl; rewrite E; auto.
Qed.

Lemma ownNode_modifyInChildren_None (f : Node -> Node) (id id' : string) (sp : Space) :
  ownNode id' sp = None -> ownNode id' (modifyInChildren f id sp) = None.
Proof.
  induction sp as [|k m rest _ IH] using Space_children_ind; simpl; [reflexivity|].
  destruct (String.eqb id' k) eqn:E; [discriminate|]. intros H.
  destruct (children m) as [ch|]; [destruct (findNode id ch)|]; simpl; rewrite E; auto.
Qed.

Lemma children_setChildren (n : Node) (ch : Space) :
  children (setChildren n ch) = Some ch.
Proof. destruct n; reflexivity. Qed.

(** After the change, [findNode] returns the changed node. *)
Lemma findNode_modifyNode (f : Node -> Node) (id : string) (sp : Space) (n : Node) :
  findNode id sp = Some (Own n) ->
  findNode id (modifyNode f id sp) = Some (Own (f n)).
Proof.
  revert n.
  induction sp as [|k m rest IHch IH] using Space_children_ind; intros n.
  - unfold findNode; simpl. destruct (inherited id); discriminate.
  - unfold modifyNode.
    destruct (ownNode id (scons k m rest)) as [o|] eqn:Eown.
    + (* an own property of this space *)
      unfold findNode. rewrite Eown, ownNode_modifyOwn, Eown. simpl.
      intros E. injection E as ->. reflexivity.
    + rewrite findNode_scons, Eown.
      destruct (getProp None id) as [found|] eqn:Eg.
      { unfold getProp in Eg. destruct (inherited id); [|discriminate].
        injection Eg as <-. discriminate. }
      assert (Eown' : ownNode id rest = None).
      { simpl in Eown. destruct (String.eqb id k); [discriminate|assumption]. }
      assert (Hrest : forall n, findInChildren id rest = Some (Own n) ->
                findInChildren id (modifyInChildren f id rest) = Some (Own (f n))).
      { intros n' Hn'. specialize (IH n'). unfold findNode, modifyNode in IH.
        rewrite Eown', Eg in IH. specialize (IH Hn').
        rewrite (ownNode_modifyInChildren_None f id id rest Eown'), Eg in IH.
        exact IH. }
      intros Hfind.
      assert (Hown : forall n' sp', ownNode id (scons k n' sp') = ownNode id sp').
      { intros n' sp'. simpl. simpl in Eown.
        destruct (String.eqb id k); [discriminate|reflexivity]. }
      destruct (children m) as [ch|] eqn:Ech.
      * destruct (findNode id ch) as [found|] eqn:Efc.
        -- injection Hfind as ->.
           replace (modifyInChildren f id (scons k m rest))
             with (scons k (setChildren m (modifyNode f id ch)) rest)
             by (simpl; rewrite Ech, Efc; reflexivity).
           rewrite findNode_scons, Hown, Eown', Eg, children_setChildren.
           rewrite (IHch ch eq_refl n Efc). reflexivity.
        -- replace (modifyInChildren f id (scons k m rest))
             with (scons k m (modifyInChildren f id rest))
             by (simpl; rewrite Ech, Efc; reflexivity).
           rewrite findNode_scons, Hown.
           rewrite (ownNode_modifyInChildren_None f id id rest Eown'), Eg, Ech, Efc.
           auto.
      * replace (modifyInChildren f id (scons k m rest))
          with (scons k m (modifyInChildren f id rest))
          by (simpl; rewrite Ech; reflexivity).
        rewrite findNode_scons, Hown.
        rewrite (ownNode_modifyInChildren_None f id id rest Eown'), Eg, Ech.
        auto.
Qed.

Lemma keys_modifyOwn (f : Node -> Node) (id : string) (sp : Space) :
  (forall n, children (f n) = children n) ->
  keys (modifyOwn f id sp) = keys sp.
Proof.
  intros Hf.
  induction sp as [|k m rest _ IH] using Space_children_ind; simpl; [reflexivity|].
  destruct (String.eqb id k); simpl; [rewrite Hf|rewrite IH]; reflexivity.
Qed.

(** The change keeps the node ids of the tree. *)
Lemma keys_modifyNode (f : Node -> Node) (id : string) (sp : Space) :
  (forall n, children (f n) = children n) ->
  keys (modifyNode f id sp) = keys sp.
Proof.
  intros Hf.
  induction sp as [|k m rest IHch IH] using Space_children_ind.
  - reflexivity.
  - unfold modifyNode.
    destruct (ownNode id (scons k m rest)) as [o|] eqn:Eown.
    + apply keys_modifyOwn, Hf.
    + assert (Eown' : ownNode id rest = None).
      { simpl in Eown. destruct (String.eqb id k); [discriminate|assumption]. }
      unfold modifyNode in IH. rewrite Eown' in IH.
      simpl. destruct (children m) as [ch|] eqn:Ech.
      * destruct (findNode id ch) as [found|] eqn:Efc.
        -- simpl. rewrite children_setChildren.
           change (k :: keys (modifyNode f id ch) ++ keys rest = k :: keys ch ++ keys rest).
           rewrite (IHch ch eq_refl). reflexivity.
        -- simpl. rewrite Ech, IH. reflexivity.
      * simpl. rewrite Ech, IH. reflexivity.
Qed.

Lemma children_update (v : JsValue) (t : string) (n : Node) :
  children (update v t n) = children n.
Proof. destruct n; reflexivity. Qed.

Lemma plainKeys_modifyNode (v : JsValue) (t : string) (id : string) (sp : Space) :
  plainKeys sp -> plainKeys (modifyNode (update v t) id sp).
Proof.
  unfold plainKeys. rewrite keys_modifyNode; [auto|]. apply children_update.
Qed.

(** ** [readNode] *)

Lemma readNode_Some (id : string) (w : World) (r : ReadResult.t) :
  readNode id w = Some r <->
  exists n, resolvesToVariable id (addressSpace w) n /\
            r = ReadResult.mk (value n) (dataType n) (accessLevel n) (timestamp n).
Proof.
  unfold readNode, resolvesToVariable. split.
  - destruct (findNode id (addressSpace w)) as [[n|k]|]; try discriminate.
    destruct (String.eqb_spec (nodeClass n) "Variable") as [E|E]; [|discriminate].
    intros H. injection H as <-. exists n. auto.
  - intros (n & [-> Hc] & ->). rewrite Hc. reflexivity.
Qed.

(** C7.  [readNode(nodeId)] returns the value, data type, access level
    and timestamp of the node when the id resolves to a Variable; it
    returns [null] when the id is no key of the tree and when it resolves
    to an Object, and in no other case than the id not resolving to a
    Variable; a read leaves the server and its host as they are. *)
Theorem readNode_spec (id : string) (w : World) :
  (forall n, resolvesToVariable id (addressSpace w) n ->
     readNode id w =
     Some (ReadResult.mk (value n) (dataType n) (accessLevel n) (timestamp n)))
  /\ (~ In id (keys (addressSpace w)) -> readNode id w = None)
  /\ (resolvesToObject id (addressSpace w) -> readNode id w = None)
  /\ (readNode id w = None <->
      forall n, ~ resolvesToVariable id (addressSpace w) n)
  /\ exec (OpRead id) w = w.
Proof.
  assert (Hnone : readNode id w = None <->
                  forall n, ~ resolvesToVariable id (addressSpace w) n).
  { split.
    - intros Hr n Hn.
      assert (E : readNode id w =
                  Some (ReadResult.mk (value n) (dataType n) (accessLevel n) (timestamp n)))
        by (apply readNode_Some; eauto).
      congruence.
    - intros Hn. destruct (readNode id w) as [r|] eqn:E; [|reflexivity].
      apply readNode_Some in E as (n & Hv & _). destruct (Hn n Hv). }
  repeat split.
  - intros n Hn. apply readNode_Some. eauto.
  - intros Habs. apply Hnone. intros n [Hf _].
    exact (findNode_absent id _ Habs n Hf).
  - intros (n & Hf & Hc). apply Hnone. intros n' [Hf' Hc'].
    rewrite Hf in Hf'. injection Hf' as <-. rewrite Hc in Hc'. discriminate.
  - apply Hnone.
  - apply Hnone.
Qed.

(** ** [writeNode] *)

Lemma addressSpace_notify (id : string) (v : JsValue) (t : option string) (w : World) :
  addressSpace (notify id v t w) = addressSpace w.
Proof. unfold notify. destruct (getProp _ _); reflexivity. Qed.

Lemma subscriptions_notify (id : string) (v : JsValue) (t : option string) (w : World) :
  subscriptions (notify id v t w) = subscriptions w.
Proof. unfold notify. destruct (getProp _ _); reflexivity. Qed.

Lemma notify_calls (id : string) (v : JsValue) (t : option string) (w : World) :
  inherited id = false ->
  notify id v t w =
  setCalls (calls w ++ match subscriptions w !! id with
                       | Some cb => [mkCall (Own cb) v t]
                       | None => []
                       end) w.
Proof.
  intros H. unfold notify. rewrite (getProp_plain _ _ H).
  destruct (subscriptions w !! id); simpl; [reflexivity|].
  rewrite app_nil_r. destruct w; reflexivity.
Qed.

Lemma convert_inl (type : option string) (raw msg : string) :
  convert type raw = inl msg <->
  type = Some "Float" /\ parseFloat raw = NaN /\ msg = "Invalid float value.".
Proof.
  unfold convert. split.
  - destruct type as [ty|]; [|discriminate].
    destruct (String.eqb_spec ty "Float") as [->|Hne].
    + destruct (parseFloat raw); simpl; try discriminate.
      intros E. injection E as <-. auto.
    + destruct (String.eqb_spec ty "Boolean") as [->|Hb]; [discriminate|].
      destruct (String.eqb_spec ty "String") as [->|Hs]; [discriminate|].
      intros E. exfalso.
      repeat (destruct ty as [|[[] [] [] [] [] [] [] []] ty]; try discriminate E;
              try congruence).
  - intros (-> & -> & ->). reflexivity.
Qed.

Lemma writeNode_cases (now id raw : string) (w : World) :
  let sp := addressSpace w in
  (exists msg, WriteFailure id raw sp msg /\
               writeNode now id raw w = (Result.failure msg, w))
  \/ (exists n v,
        resolvesToVariable id sp n /\ accessLevel n = Some "ReadWrite" /\
        convert (dataType n) raw = inr v /\
        writeNode now id raw w =
        (Result.mk true
           ("Value of " ++ browseName n ++ " updated to " ++ toText v)
           (Some now) (dataType n),
         notify id v (Some now)
           (setSpace (modifyNode (update v now) id sp) w))).
Proof.
  intros sp. unfold writeNode. fold sp.
  destruct (findNode id sp) as [[n|k]|] eqn:Ef.
  - destruct (String.eqb_spec (nodeClass n) "Variable") as [Ec|Ec]; simpl.
    + assert (Hv : resolvesToVariable id sp n) by (split; assumption).
      destruct (bool_decide_reflect (accessLevel n = Some "ReadWrite")) as [Ea|Ea]; simpl.
      * destruct (convert (dataType n) raw) as [msg|v] eqn:Ecv.
        -- left. apply convert_inl in Ecv as (Et & Ep & ->). rewrite Et. simpl.
           eexists. split; [|reflexivity]. eapply InvalidValueFormat; eauto.
        -- right. exists n, v. auto.
      * left. eexists. split; [|reflexivity]. eapply ReadOnlyViolation; eauto.
    + left. eexists. split; [|reflexivity]. apply NotAVariable.
      intros n' [Hf' Hc']. rewrite Ef in Hf'. injection Hf' as <-. contradiction.
  - left. eexists. split; [|reflexivity]. apply NotAVariable.
    intros n' [Hf' _]. rewrite Ef in Hf'. discriminate.
  - left. eexists. split; [|reflexivity]. apply NotAVariable.
    intros n' [Hf' _]. rewrite Ef in Hf'. discriminate.
Qed.

(** What a successful [writeNode] returns and does. *)
Lemma writeNode_done (now id raw : string) (w : World) (n : Node) (v : JsValue) :
  resolvesToVariable id (addressSpace w) n ->
  accessLevel n = Some "ReadWrite" ->
  convert (dataType n) raw = inr v ->
  writeNode now id raw w =
  (Result.mk true
     ("Value of " ++ browseName n ++ " updated to " ++ toText v)
     (Some now) (dataType n),
   notify id v (Some now)
     (setSpace (modifyNode (update v now) id (addressSpace w)) w)).
Proof.
  intros [Hf Hc] Ha Hcv.
  destruct (writeNode_cases now id raw w) as
    [(msg & Hfail & _)|(n' & v' & [Hf' Hc'] & Ha' & Hcv' & ->)].
  - exfalso.
    destruct Hfail as [Hno|m [Hfm _] Ham|m [Hfm _] _ Htm Hpm].
    + destruct (Hno n). split; assumption.
    + rewrite Hf in Hfm. injection Hfm as <-. contradiction.
    + rewrite Hf in Hfm. injection Hfm as <-.
      rewrite Htm in Hcv. unfold convert in Hcv. simpl in Hcv.
      rewrite Hpm in Hcv. discriminate.
  - rewrite Hf in Hf'. injection Hf' as <-.
    rewrite Hcv in Hcv'. injection Hcv' as <-. reflexivity.
Qed.

Lemma writeNode_calls (now id raw : string) (w : World) (n : Node) (v : JsValue) :
  plainKeys (addressSpace w) ->
  resolvesToVariable id (addressSpace w) n ->
  accessLevel n = Some "ReadWrite" ->
  convert (dataType n) raw = inr v ->
  calls (snd (writeNode now id raw w)) =
  (calls w ++ match subscriptions w !! id with
              | Some cb => [mkCall (Own cb) v (Some now)]
              | None => []
              end)%list.
Proof.
  intros Hplain Hn Ha Hcv. rewrite (writeNode_done now id raw w n v Hn Ha Hcv).
  simpl. rewrite notify_calls by (destruct Hn; eapply findNode_plain; eauto).
  reflexivity.
Qed.

(** C3.  A call of [writeNode] fails exactly when the id does not resolve
    to a Variable (so when it is no key of the tree, and when it
    resolves to an Object), or the Variable is not ReadWrite, or it is a
    ReadWrite Float and the text does not parse; a failing call returns
    [{success: false, message}] with the message of its case (for the
    Float, the message of the error thrown followed by the data type) and
    leaves the whole server as it was: address space, subscriptions and
    the calls made. *)
Theorem writeNode_failure (now id raw : string) (w : World) :
  let r := fst (writeNode now id raw w) in
  let w' := snd (writeNode now id raw w) in
  (Result.success r = false <->
   exists msg, WriteFailure id raw (addressSpace w) msg)
  /\ (Result.success r = false ->
      WriteFailure id raw (addressSpace w) (Result.message r)
      /\ r = Result.failure (Result.message r)
      /\ w' = w
      /\ calls w' = calls w)
  /\ (forall n, resolvesToVariable id (addressSpace w) n ->
      accessLevel n = Some "ReadWrite" -> dataType n = Some "Float" ->
      parseFloat raw = NaN ->
      r = Result.failure ("Invalid float value." ++ " for " ++ "Float" ++ " type."))
  /\ (~ In id (keys (addressSpace w)) \/ resolvesToObject id (addressSpace w) ->
      r = Result.failure ("Node '" ++ id ++ "' not found or not a Variable."))
  /\ (forall n, resolvesToVariable id (addressSpace w) n ->
      accessLevel n <> Some "ReadWrite" ->
      r = Result.failure ("Node '" ++ browseName n ++ "' is ReadOnly.")).
Proof.
  intros r w'. subst r w'.
  assert (Hnv : ~ In id (keys (addressSpace w)) \/ resolvesToObject id (addressSpace w) ->
                forall n, ~ resolvesToVariable id (addressSpace w) n).
  { intros [Habs|(n' & Hf' & Hc')] n [Hf Hc].
    - exact (findNode_absent id _ Habs n Hf).
    - rewrite Hf in Hf'. injection Hf' as <-. rewrite Hc in Hc'. discriminate. }
  destruct (writeNode_cases now id raw w) as
    [(msg & Hfail & ->)|(n & v & [Hf Hc] & Ha & Hcv & ->)]; simpl.
  - split; [|split; [|split; [|split]]].
    + split; eauto.
    + auto.
    + intros n [Hf Hc] Ha Ht Hp.
      destruct Hfail as [Hno|n' [Hf' Hc'] Ha'|n' [Hf' Hc'] Ha' Ht' Hp'].
      * destruct (Hno n). split; assumption.
      * rewrite Hf in Hf'. injection Hf' as <-. contradiction.
      * reflexivity.
    + intros Hcase. specialize (Hnv Hcase).
      destruct Hfail as [Hno|n' Hv' Ha'|n' Hv' Ha' Ht' Hp'].
      * reflexivity.
      * destruct (Hnv n' Hv').
      * destruct (Hnv n' Hv').
    + intros n [Hf Hc] Ha.
      destruct Hfail as [Hno|n' [Hf' Hc'] Ha'|n' [Hf' Hc'] Ha' Ht' Hp'].
      * destruct (Hno n). split; assumption.
      * rewrite Hf in Hf'. injection Hf' as <-. reflexivity.
      * rewrite Hf in Hf'. injection Hf' as <-. contradiction.
  - split; [|split; [|split; [|split]]].
    + split; [discriminate|]. intros (msg & Hfail). exfalso.
      destruct Hfail as [Hno|n' [Hf' Hc'] Ha'|n' [Hf' Hc'] Ha' Ht' Hp'].
      * destruct (Hno n). split; assumption.
      * rewrite Hf in Hf'. injection Hf' as <-. contradiction.
      * rewrite Hf in Hf'. injection Hf' as <-.
        rewrite Ht' in Hcv. unfold convert in Hcv. simpl in Hcv.
        rewrite Hp' in Hcv. discriminate.
    + discriminate.
    + intros n' [Hf' Hc'] Ha' Ht' Hp'. exfalso.
      rewrite Hf in Hf'. injection Hf' as <-.
      rewrite Ht' in Hcv. unfold convert in Hcv. simpl in Hcv.
      rewrite Hp' in Hcv. discriminate.
    + intros Hcase. destruct (Hnv Hcase n). split; assumption.
    + intros n' [Hf' Hc'] Ha'. rewrite Hf in Hf'. injection Hf' as <-. contradiction.
Qed.

(** C2.  When the id resolves to a ReadWrite Variable and the text
    converts to [v] under the node's data type, [writeNode] stores [v]
    and the current time in the node, calls the callback subscribed to
    the id once with [v] and that time (and makes no call when there is
    none), and returns [{success: true, message, timestamp, dataType}]
    with that time and the node's data type. *)
Theorem writeNode_success (now id raw : string) (w : World) (n : Node) (v : JsValue) :
  plainKeys (addressSpace w) ->
  resolvesToVariable id (addressSpace w) n ->
  accessLevel n = Some "ReadWrite" ->
  convert (dataType n) raw = inr v ->
  let r := fst (writeNode now id raw w) in
  let w' := snd (writeNode now id raw w) in
  r = Result.mk true
        ("Value of " ++ browseName n ++ " updated to " ++ toText v)
        (Some now) (dataType n)
  /\ (exists n', resolvesToVariable id (addressSpace w') n' /\
                 value n' = v /\ timestamp n' = Some now /\
                 Result.timestamp r = timestamp n')
  /\ calls w' = (calls w ++ match subscriptions w !! id with
                            | Some cb => [mkCall (Own cb) v (Some now)]
                            | None => []
                            end)%list
  /\ subscriptions w' = subscriptions w.
Proof.
  intros Hplain Hn Ha Hcv r w'. subst r w'.
  rewrite (writeNode_calls now id raw w n v Hplain Hn Ha Hcv).
  rewrite (writeNode_done now id raw w n v Hn Ha Hcv). simpl.
  destruct Hn as [Hf Hc]. repeat split.
  - exists (update v now n). repeat split.
    + rewrite addressSpace_notify. simpl. apply findNode_modifyNode, Hf.
    + destruct n; assumption.
    + destruct n; reflexivity.
    + destruct n; reflexivity.
    + destruct n; reflexivity.
  - now rewrite subscriptions_notify.
Qed.

(** ** The Boolean conversion *)

Lemma lowerChar_t (c : ascii) : Ascii.eqb (lowerChar c) "t" = sameLetter c "t".
Proof. destruct c as [[] [] [] [] [] [] [] []]; reflexivity. Qed.

Lemma lowerChar_r (c : ascii) : Ascii.eqb (lowerChar c) "r" = sameLetter c "r".
Proof. destruct c as [[] [] [] [] [] [] [] []]; reflexivity. Qed.

Lemma lowerChar_u (c : ascii) : Ascii.eqb (lowerChar c) "u" = sameLetter c "u".
Proof. destruct c as [[] [] [] [] [] [] [] []]; reflexivity. Qed.

Lemma lowerChar_e (c : ascii) : Ascii.eqb (lowerChar c) "e" = sameLetter c "e".
Proof. destruct c as [[] [] [] [] [] [] [] []]; reflexivity. Qed.

(** [newValue.toLowerCase() === 'true'] is equality with ["true"] up to
    case. *)
Lemma toLowerCase_true (raw : string) :
  String.eqb (toLowerCase raw) "true" = equalsIgnoreCase raw "true".
Proof.
  destruct raw as [|c1 [|c2 [|c3 [|c4 [|c5 r]]]]]; simpl; try reflexivity;
    rewrite ?lowerChar_t, ?lowerChar_r, ?lowerChar_u, ?lowerChar_e;
    repeat match goal with
           | |- context [sameLetter ?c ?d] => destruct (sameLetter c d)
           end;
    reflexivity.
Qed.

Lemma convert_Boolean (raw : string) :
  convert (Some "Boolean") raw =
  inr (JBool (equalsIgnoreCase raw "true" || String.eqb raw "1")).
Proof. unfold convert. simpl. now rewrite toLowerCase_true. Qed.

(** C4.  Written to a ReadWrite Boolean Variable, a text is converted to
    [true] when it equals ["true"] up to case or is ["1"], and to [false]
    otherwise; the conversion never fails, so the write succeeds for
    every text, stores that Boolean and passes it to the callback
    subscribed to the id. *)
Theorem writeNode_Boolean (now id raw : string) (w : World) (n : Node) :
  plainKeys (addressSpace w) ->
  resolvesToVariable id (addressSpace w) n ->
  accessLevel n = Some "ReadWrite" ->
  dataType n = Some "Boolean" ->
  exists b : bool,
    (b = true <-> equalsIgnoreCase raw "true" = true \/ raw = "1")
    /\ convert (dataType n) raw = inr (JBool b)
    /\ Result.success (fst (writeNode now id raw w)) = true
    /\ (exists n', resolvesToVariable id (addressSpace (snd (writeNode now id raw w))) n'
                   /\ value n' = JBool b)
    /\ calls (snd (writeNode now id raw w)) =
       (calls w ++ match subscriptions w !! id with
                   | Some cb => [mkCall (Own cb) (JBool b) (Some now)]
                   | None => []
                   end)%list.
Proof.
  intros Hplain [Hf Hc] Ha Ht.
  exists (equalsIgnoreCase raw "true" || String.eqb raw "1").
  assert (Hcv : convert (dataType n) raw =
                inr (JBool (equalsIgnoreCase raw "true" || String.eqb raw "1")))
    by (rewrite Ht; apply convert_Boolean).
  split; [|split; [exact Hcv|]].
  - rewrite orb_true_iff. split; (intros [H|H]; [now left|right]).
    + now apply String.eqb_eq.
    + now apply String.eqb_eq.
  - rewrite (writeNode_calls now id raw w n _ Hplain (conj Hf Hc) Ha Hcv).
    rewrite (writeNode_done now id raw w n _ (conj Hf Hc) Ha Hcv). simpl.
    split; [reflexivity|]. split; [|reflexivity].
    exists (update (JBool (equalsIgnoreCase raw "true" || String.eqb raw "1")) now n).
    split; [split|].
    + rewrite addressSpace_notify. simpl. apply findNode_modifyNode, Hf.
    + destruct n; assumption.
    + destruct n; reflexivity.
Qed.

(** ** [browseNodes] on the constructor's tree *)

(** [findNode] on the constructor's tree. *)
Lemma findNode_spaceWith (id : string) vT tT vP tP vS tS vD tD :
  findNode id (spaceWith vT tT vP tP vS tS vD tD) =
  if String.eqb id "ns=0;i=84" then
    Some (Own (mkNode "Objects" "ns=0;i=84" "Object" None JUndefined None None
                 (Some
                    (scons "ns=1;s=Folder1"
                       (mkNode "MyDevices" "ns=1;s=Folder1" "Object" None
                          JUndefined None None
                          (Some (folder1 vT tT vP tP vS tS vD tD)))
                       snil))))
  else if inherited id then Some (Inherited id)
  else if String.eqb id "ns=1;s=Folder1" then
    Some (Own (mkNode "MyDevices" "ns=1;s=Folder1" "Object" None JUndefined
                 None None (Some (folder1 vT tT vP tP vS tS vD tD))))
  else if String.eqb id "ns=1;s=Temperature" then
    Some (Own (variable "Temperature" "ns=1;s=Temperature" "Float" vT "ReadWrite" tT))
  else if String.eqb id "ns=1;s=Pressure" then
    Some (Own (variable "Pressure" "ns=1;s=Pressure" "Float" vP "ReadWrite" tP))
  else if String.eqb id "ns=1;s=Status" then
    Some (Own (variable "Status" "ns=1;s=Status" "Boolean" vS "ReadOnly" tS))
  else if String.eqb id "ns=1;s=DeviceName" then
    Some (Own (variable "DeviceName" "ns=1;s=DeviceName" "String" vD "ReadOnly" tD))
  else None.
Proof.
  unfold findNode, spaceWith, folder1. cbn [ownNode findInChildren children].
  unfold getProp.
  destruct (String.eqb id "ns=0;i=84"); [reflexivity|].
  destruct (inherited id); [reflexivity|].
  destruct (String.eqb id "ns=1;s=Folder1"); [reflexivity|].
  destruct (String.eqb id "ns=1;s=Temperature"); [reflexivity|].
  destruct (String.eqb id "ns=1;s=Pressure"); [reflexivity|].
  destruct (String.eqb id "ns=1;s=Status"); [reflexivity|].
  destruct (String.eqb id "ns=1;s=DeviceName"); reflexivity.
Qed.

(** On the constructor's tree, only the ids of Temperature and Pressure
    resolve to a ReadWrite Variable. *)
Lemma constructedTree_ReadWrite (id : string) (sp : Space) (n : Node) :
  constructedTree sp -> resolvesToVariable id sp n ->
  accessLevel n = Some "ReadWrite" ->
  id = "ns=1;s=Temperature" \/ id = "ns=1;s=Pressure".
Proof.
  intros (vS & tS & vD & tD & vT & tT & vP & tP & ->) [Hf Hc] Ha.
  rewrite findNode_spaceWith in Hf.
  destruct (String.eqb id "ns=0;i=84") eqn:E0.
  { injection Hf as <-. discriminate. }
  destruct (inherited id); [discriminate|].
  destruct (String.eqb id "ns=1;s=Folder1") eqn:E1.
  { injection Hf as <-. discriminate. }
  destruct (String.eqb id "ns=1;s=Temperature") eqn:E2.
  { left. now apply String.eqb_eq. }
  destruct (String.eqb id "ns=1;s=Pressure") eqn:E3.
  { right. now apply String.eqb_eq. }
  destruct (String.eqb id "ns=1;s=Status") eqn:E4.
  { injection Hf as <-. discriminate. }
  destruct (String.eqb id "ns=1;s=DeviceName") eqn:E5.
  { injection Hf as <-. discriminate. }
  discriminate.
Qed.

Lemma treeWith_update_Temperature vS tS vD tD (v : JsValue) (t : string) (sp : Space) :
  treeWith vS tS vD tD sp ->
  treeWith vS tS vD tD (modifyNode (update v t) "ns=1;s=Temperature" sp).
Proof.
  intros (vT & tT & vP & tP & ->). exists v, t, vP, tP. reflexivity.
Qed.

Lemma treeWith_update_Pressure vS tS vD tD (v : JsValue) (t : string) (sp : Space) :
  treeWith vS tS vD tD sp ->
  treeWith vS tS vD tD (modifyNode (update v t) "ns=1;s=Pressure" sp).
Proof.
  intros (vT & tT & vP & tP & ->). exists vT, tT, v, t. reflexivity.
Qed.

Lemma treeWith_simulate vS tS vD tD (id : string) (scale base : Z) (r : Number)
    (now : string) (w : World) :
  id = "ns=1;s=Temperature" \/ id = "ns=1;s=Pressure" ->
  treeWith vS tS vD tD (addressSpace w) ->
  treeWith vS tS vD tD (addressSpace (simulate id scale base r now w)).
Proof.
  intros Hid Ht. unfold simulate.
  destruct (findNode id (addressSpace w)) as [[n|k]|]; try assumption.
  rewrite addressSpace_notify. simpl.
  destruct Hid as [-> | ->];
    [apply treeWith_update_Temperature | apply treeWith_update_Pressure];
    assumption.
Qed.

(** Every method and every timer event keeps the constructor's tree, and
    in it what Status and DeviceName hold. *)
Lemma treeWith_exec vS tS vD tD (o : Op) (w : World) :
  treeWith vS tS vD tD (addressSpace w) ->
  treeWith vS tS vD tD (addressSpace (exec o w)).
Proof.
  intros Ht. destruct o as [id|p|now id v|id cb|id| | |i r1 r2 t1 t2]; simpl.
  - assumption.
  - assumption.
  - destruct (writeNode_cases now id v w) as
      [(msg & _ & ->)|(n & v' & Hv & Ha & _ & ->)]; simpl; [assumption|].
    rewrite addressSpace_notify. simpl.
    assert (Hc : constructedTree (addressSpace w)) by (exists vS, tS, vD, tD; exact Ht).
    destruct (constructedTree_ReadWrite id _ n Hc Hv Ha) as [-> | ->];
      [apply treeWith_update_Temperature
      |apply treeWith_update_Pressure]; assumption.
  - unfold subscribe.
    destruct (findNode id (addressSpace w)) as [[n|k]|]; try assumption.
    destruct (String.eqb (nodeClass n) "Variable"); assumption.
  - unfold unsubscribe. destruct (getProp _ _); assumption.
  - unfold startDataSimulation. destruct (updateInterval w); assumption.
  - unfold stopDataSimulation. destruct (updateInterval w); assumption.
  - destruct (fires i w); [|assumption].
    unfold tick. apply treeWith_simulate; [now right|].
    apply treeWith_simulate; [now left|assumption].
Qed.

Lemma run_treeWith vS tS vD tD (ops : list Op) (w : World) :
  treeWith vS tS vD tD (addressSpace w) ->
  treeWith vS tS vD tD (addressSpace (run ops w)).
Proof.
  revert w. induction ops as [|o ops IH]; intros w Ht; [assumption|].
  change (run (o :: ops) w) with (run ops (exec o w)).
  apply IH, treeWith_exec, Ht.
Qed.

Lemma run_app (ops1 ops2 : list Op) (w : World) :
  run (ops1 ++ ops2) w = run ops2 (run ops1 w).
Proof. unfold run. apply fold_left_app. Qed.

(** Induction on the servers a program can hold. *)
Lemma reachable_ind (P : World -> Prop) :
  (forall t1 t2 t3 t4, P (construct t1 t2 t3 t4)) ->
  (forall o w, reachable w -> P w -> P (exec o w)) ->
  forall w, reachable w -> P w.
Proof.
  intros Hinit Hstep w (t1 & t2 & t3 & t4 & ops & ->).
  induction ops as [|o ops IH] using rev_ind.
  - apply Hinit.
  - rewrite run_app. simpl. apply Hstep; [|exact IH].
    exists t1, t2, t3, t4, ops. reflexivity.
Qed.

Lemma reachable_constructedTree (w : World) :
  reachable w -> constructedTree (addressSpace w).
Proof.
  intros (t1 & t2 & t3 & t4 & ops & ->).
  exists (JBool true), t3, (JStr "SensorUnit-A"), t4.
  apply run_treeWith. eexists _, _, _, _. reflexivity.
Qed.

(** Status and DeviceName are ReadOnly for good: on a constructed server
    they hold their first value and timestamp whatever is called and
    whatever the timer does. *)
Theorem readOnly_kept (t1 t2 t3 t4 : string) (ops : list Op) :
  let w := run ops (construct t1 t2 t3 t4) in
  readNode "ns=1;s=Status" w =
    Some (ReadResult.mk (JBool true) (Some "Boolean") (Some "ReadOnly") (Some t3))
  /\ readNode "ns=1;s=DeviceName" w =
    Some (ReadResult.mk (JStr "SensorUnit-A") (Some "String") (Some "ReadOnly") (Some t4)).
Proof.
  intros w.
  assert (Ht : treeWith (JBool true) t3 (JStr "SensorUnit-A") t4 (addressSpace w)).
  { subst w. apply run_treeWith. eexists _, _, _, _. reflexivity. }
  destruct Ht as (vT & tT & vP & tP & E).
  unfold readNode. rewrite E. split; reflexivity.
Qed.

(** What the constructor builds: the four Variables with their first
    values and the clock readings taken for them, an empty registry and
    no timer. *)
Theorem construct_initial (t1 t2 t3 t4 : string) :
  let w := construct t1 t2 t3 t4 in
  readNode "ns=1;s=Temperature" w =
    Some (ReadResult.mk (JNum (ofDecimal 255 1)) (Some "Float") (Some "ReadWrite") (Some t1))
  /\ readNode "ns=1;s=Pressure" w =
    Some (ReadResult.mk (JNum (ofDecimal 1012 1)) (Some "Float") (Some "ReadWrite") (Some t2))
  /\ readNode "ns=1;s=Status" w =
    Some (ReadResult.mk (JBool true) (Some "Boolean") (Some "ReadOnly") (Some t3))
  /\ readNode "ns=1;s=DeviceName" w =
    Some (ReadResult.mk (JStr "SensorUnit-A") (Some "String") (Some "ReadOnly") (Some t4))
  /\ readNode "ns=0;i=84" w = None
  /\ readNode "ns=1;s=Folder1" w = None
  /\ keys (addressSpace w) =
     ["ns=0;i=84"; "ns=1;s=Folder1"; "ns=1;s=Temperature"; "ns=1;s=Pressure";
      "ns=1;s=Status"; "ns=1;s=DeviceName"]
  /\ subscriptions w = ∅
  /\ updateInterval w = None.
Proof. repeat split. Qed.

(** C5.  On the tree of a constructed server, at any time, [browseNodes]
    of the root (the default) returns the one summary of MyDevices with
    [hasChildren] true, and [browseNodes] of MyDevices the summaries of
    Temperature, Pressure, Status and DeviceName in this order, each with
    [hasChildren] false.  On every server the summaries are those of the
    parent's children in enumeration order, and an id that is not found,
    or whose node has no children, gives the empty array. *)
Theorem browseNodes_spec (w : World) :
  reachable w ->
  (browseNodes None w =
     [Summary.mk "ns=1;s=Folder1" "MyDevices" "Object" None true JUndefined None]
   /\ browseNodes (Some "ns=0;i=84") w = browseNodes None w
   /\ map Summary.browseName (browseNodes (Some "ns=1;s=Folder1") w)
      = ["Temperature"; "Pressure"; "Status"; "DeviceName"]
   /\ map Summary.nodeId (browseNodes (Some "ns=1;s=Folder1") w)
      = ["ns=1;s=Temperature"; "ns=1;s=Pressure"; "ns=1;s=Status";
         "ns=1;s=DeviceName"]
   /\ map Summary.hasChildren (browseNodes (Some "ns=1;s=Folder1") w)
      = [false; false; false; false])
  /\ (forall parent n ch,
        findNode parent (addressSpace w) = Some (Own n) ->
        children n = Some ch ->
        browseNodes (Some parent) w = map (fun kn => summary (snd kn)) (entries ch))
  /\ (forall parent,
        (forall n, findNode parent (addressSpace w) = Some (Own n) ->
                   children n = None \/ children n = Some snil) ->
        browseNodes (Some parent) w = []).
Proof.
  intros Hr. split; [|split].
  - destruct (reachable_constructedTree w Hr)
      as (vS & tS & vD & tD & vT & tT & vP & tP & E).
    unfold browseNodes. rewrite E. repeat split; reflexivity.
  - intros parent n ch Hf Hc. unfold browseNodes. now rewrite Hf, Hc.
  - intros parent H. unfold browseNodes.
    destruct (findNode parent (addressSpace w)) as [[n|k]|]; try reflexivity.
    destruct (H n eq_refl) as [-> | ->]; reflexivity.
Qed.

(** ** The subscription registry *)

Lemma subscribe_cases (id : string) (cb : Callback) (w : World) :
  (exists n, resolvesToVariable id (addressSpace w) n /\
             subscribe id cb w =
             (Result.ok ("Subscribed to '" ++ browseName n ++ "'."),
              setSubscriptions (<[id := cb]> (subscriptions w)) w))
  \/ ((forall n, ~ resolvesToVariable id (addressSpace w) n) /\
      subscribe id cb w =
      (Result.failure ("Cannot subscribe to '" ++ id ++ "'. Not a Variable."), w)).
Proof.
  unfold subscribe, resolvesToVariable.
  destruct (findNode id (addressSpace w)) as [[n|k]|] eqn:Ef.
  - destruct (String.eqb_spec (nodeClass n) "Variable") as [Ec|Ec].
    + left. exists n. auto.
    + right. split; [|reflexivity]. intros n' [E Hc]. injection E as <-. contradiction.
  - right. split; [|reflexivity]. intros n' [E _]. discriminate.
  - right. split; [|reflexivity]. intros n' [E _]. discriminate.
Qed.

(** The calls [notify] adds go to callbacks of the registry. *)
Lemma notify_subscribed (id : string) (v : JsValue) (t : option string) (w : World) :
  exists l, calls (notify id v t w) = (calls w ++ l)%list /\
            forall c cb, In c l -> callee c = Own cb ->
                         exists k, subscriptions w !! k = Some cb.
Proof.
  unfold notify. destruct (getProp (subscriptions w !! id) id) as [f|] eqn:Eg.
  - exists [mkCall f v t]. split; [reflexivity|].
    intros c cb [<-|[]] Hc. simpl in Hc. subst f.
    apply getProp_Own in Eg. eauto.
  - exists []. split; [now rewrite app_nil_r|]. intros c cb [].
Qed.

Lemma simulate_subscribed (id : string) (scale base : Z) (r : Number)
    (now : string) (w : World) :
  subscriptions (simulate id scale base r now w) = subscriptions w
  /\ exists l, calls (simulate id scale base r now w) = (calls w ++ l)%list /\
               forall c cb, In c l -> callee c = Own cb ->
                            exists k, subscriptions w !! k = Some cb.
Proof.
  unfold simulate.
  destruct (findNode id (addressSpace w)) as [[n|k]|];
    try (split; [reflexivity|]; exists []; split; [now rewrite app_nil_r|];
         intros c cb []).
  split; [now rewrite subscriptions_notify|].
  apply (notify_subscribed id _ (Some now)
           (setSpace (modifyNode _ id (addressSpace w)) w)).
Qed.

(** Whatever happens to a server, the calls it makes go to callbacks the
    registry holds at that time. *)
Lemma exec_subscribed (o : Op) (w : World) :
  exists l, calls (exec o w) = (calls w ++ l)%list /\
            forall c cb, In c l -> callee c = Own cb ->
                         exists k, subscriptions w !! k = Some cb.
Proof.
  assert (Hnil : forall w', calls w' = calls w ->
            exists l, calls w' = (calls w ++ l)%list /\
                      forall c cb, In c l -> callee c = Own cb ->
                                   exists k, subscriptions w !! k = Some cb).
  { intros w' E. exists []. split; [now rewrite app_nil_r|]. intros c cb []. }
  destruct o as [id|p|now id v|id cb|id| | |i r1 r2 t1 t2]; simpl.
  - now apply Hnil.
  - now apply Hnil.
  - destruct (writeNode_cases now id v w) as
      [(msg & _ & ->)|(n & v' & _ & _ & _ & ->)]; simpl; [now apply Hnil|].
    apply (notify_subscribed id v' (Some now)
             (setSpace (modifyNode (update v' now) id (addressSpace w)) w)).
  - apply Hnil. destruct (subscribe_cases id cb w) as [(n & _ & ->)|(_ & ->)]; reflexivity.
  - apply Hnil. unfold unsubscribe. destruct (getProp _ _); reflexivity.
  - apply Hnil. unfold startDataSimulation. destruct (updateInterval w); reflexivity.
  - apply Hnil. unfold stopDataSimulation. destruct (updateInterval w); reflexivity.
  - destruct (fires i w); [|now apply Hnil]. unfold tick.
    destruct (simulate_subscribed "ns=1;s=Temperature" 10 20 r1 t1 w)
      as (Es1 & l1 & Ec1 & H1).
    destruct (simulate_subscribed "ns=1;s=Pressure" 5 98 r2 t2
                (simulate "ns=1;s=Temperature" 10 20 r1 t1 w))
      as (Es2 & l2 & Ec2 & H2).
    exists (l1 ++ l2)%list. split.
    + now rewrite Ec2, Ec1, app_assoc.
    + intros c cb Hin Hc. apply in_app_or in Hin as [Hin|Hin].
      * eapply H1; eauto.
      * rewrite <- Es1. eapply H2; eauto.
Qed.

(** A callback that is not subscribed stays so until it is subscribed. *)
Lemma exec_unsubscribed (cb : Callback) (o : Op) (w : World) :
  ~ isSubscribeOf cb o -> unsubscribed cb w -> unsubscribed cb (exec o w).
Proof.
  intros Ho Hw.
  destruct o as [id|p|now id v|id cb'|id| | |i r1 r2 t1 t2]; simpl; try assumption.
  - destruct (writeNode_cases now id v w) as
      [(msg & _ & ->)|(n & v' & _ & _ & _ & ->)]; simpl; [assumption|].
    intros k. rewrite subscriptions_notify. apply Hw.
  - destruct (subscribe_cases id cb' w) as [(n & _ & ->)|(_ & ->)]; simpl; [|assumption].
    intros k. simpl. destruct (decide (id = k)) as [->|Hne].
    + rewrite lookup_insert_eq. intros E. injection E as ->. now apply Ho.
    + rewrite lookup_insert_ne by assumption. apply Hw.
  - unfold unsubscribe. destruct (getProp _ _); simpl; [|assumption].
    intros k. simpl. destruct (decide (id = k)) as [->|Hne].
    + now rewrite lookup_delete_eq.
    + rewrite lookup_delete_ne by assumption. apply Hw.
  - unfold startDataSimulation. destruct (updateInterval w); assumption.
  - unfold stopDataSimulation. destruct (updateInterval w); assumption.
  - destruct (fires i w); [|assumption]. unfold tick. intros k.
    destruct (simulate_subscribed "ns=1;s=Pressure" 5 98 r2 t2
                (simulate "ns=1;s=Temperature" 10 20 r1 t1 w)) as (-> & _).
    destruct (simulate_subscribed "ns=1;s=Temperature" 10 20 r1 t1 w) as (-> & _).
    apply Hw.
Qed.

(** A callback that is not subscribed is not called, however long the
    server runs, unless it is subscribed again. *)
Lemma run_never_calls (cb : Callback) (ops : list Op) (w : World) :
  unsubscribed cb w ->
  Forall (fun o => ~ isSubscribeOf cb o) ops ->
  forall c, In c (callsFrom (List.length (calls w)) (run ops w)) ->
            callee c <> Own cb.
Proof.
  intros Hw Hops.
  assert (H : exists l, calls (run ops w) = (calls w ++ l)%list /\
                        forall c, In c l -> callee c <> Own cb).
  { revert w Hw. induction Hops as [|o ops Ho _ IH]; intros w Hw.
    - exists []. split; [simpl; now rewrite app_nil_r|]. intros c [].
    - destruct (exec_subscribed o w) as (l1 & E1 & H1).
      destruct (IH (exec o w) (exec_unsubscribed cb o w Ho Hw)) as (l2 & E2 & H2).
      exists (l1 ++ l2)%list. split.
      + change (run (o :: ops) w) with (run ops (exec o w)).
        now rewrite E2, E1, app_assoc.
      + intros c Hin Hc. apply in_app_or in Hin as [Hin|Hin].
        * destruct (H1 c cb Hin Hc) as (k & Hk). exact (Hw k Hk).
        * exact (H2 c Hin Hc). }
  destruct H as (l & E & Hl). intros c. unfold callsFrom. rewrite E.
  rewrite drop_app_length. apply Hl.
Qed.

(** C6.  [subscribe(nodeId, callback)] succeeds exactly when the id
    resolves to a Variable (it fails for an id that is no key of the
    tree and for the id of an Object); it then stores the callback under
    the id, in place of the one stored there before, and otherwise
    changes nothing.
    The registry maps an id to at most one callback; after two
    subscriptions of an id the registry is the one the second alone
    gives, it holds the second callback for the id, and the first
    callback is not called again as long as it is not subscribed anew. *)
Theorem subscribe_spec (id : string) (cb1 cb2 : Callback) (w : World) :
  plainKeys (addressSpace w) ->
  let w1 := snd (subscribe id cb1 w) in
  let w2 := snd (subscribe id cb2 w1) in
  (Result.success (fst (subscribe id cb2 w)) = true <->
   exists n, resolvesToVariable id (addressSpace w) n)
  /\ (~ In id (keys (addressSpace w)) \/ resolvesToObject id (addressSpace w) ->
      subscribe id cb2 w =
      (Result.failure ("Cannot subscribe to '" ++ id ++ "'. Not a Variable."), w))
  /\ (Result.success (fst (subscribe id cb2 w)) = true ->
      snd (subscribe id cb2 w) = setSubscriptions (<[id := cb2]> (subscriptions w)) w)
  /\ (Result.success (fst (subscribe id cb2 w)) = false ->
      snd (subscribe id cb2 w) = w)
  /\ w2 = snd (subscribe id cb2 w)
  /\ (forall n, resolvesToVariable id (addressSpace w) n ->
      subscriptions w2 !! id = Some cb2
      /\ forall k, k <> id -> subscriptions w2 !! k = subscriptions w !! k)
  /\ (forall now raw n v,
        resolvesToVariable id (addressSpace w) n ->
        accessLevel n = Some "ReadWrite" ->
        convert (dataType n) raw = inr v ->
        calls (snd (writeNode now id raw w2)) =
        (calls w2 ++ [mkCall (Own cb2) v (Some now)])%list)
  /\ (forall ops,
        cb1 <> cb2 -> unsubscribed cb1 w ->
        Forall (fun o => ~ isSubscribeOf cb1 o) ops ->
        forall c, In c (callsFrom (List.length (calls w2)) (run ops w2)) ->
                  callee c <> Own cb1).
Proof.
  intros Hplain w1 w2.
  assert (E2 : w2 = snd (subscribe id cb2 w)).
  { subst w2 w1.
    destruct (subscribe_cases id cb1 w) as [(n & Hn & ->)|(Hno & ->)]; simpl; [|reflexivity].
    destruct (subscribe_cases id cb2 (setSubscriptions (<[id:=cb1]> (subscriptions w)) w))
      as [(n' & _ & ->)|(Hno & _)]; [|destruct (Hno n Hn)].
    destruct (subscribe_cases id cb2 w) as [(n'' & _ & ->)|(Hno & _)];
      [|destruct (Hno n Hn)].
    simpl. unfold setSubscriptions. simpl. now rewrite insert_insert_eq. }
  repeat split.
  - destruct (subscribe_cases id cb2 w) as [(n & Hn & ->)|(Hno & ->)]; simpl;
      [eauto|discriminate].
  - intros (n & Hn).
    destruct (subscribe_cases id cb2 w) as [(n' & _ & ->)|(Hno & _)];
      [reflexivity|destruct (Hno n Hn)].
  - intros Hcase.
    destruct (subscribe_cases id cb2 w) as [(n & [Hf Hc] & _)|(_ & ->)];
      [exfalso|reflexivity].
    destruct Hcase as [Habs|(n' & Hf' & Hc')].
    + exact (findNode_absent id _ Habs n Hf).
    + rewrite Hf in Hf'. injection Hf' as <-. rewrite Hc in Hc'. discriminate.
  - destruct (subscribe_cases id cb2 w) as [(n & Hn & ->)|(Hno & ->)]; simpl;
      [reflexivity|discriminate].
  - destruct (subscribe_cases id cb2 w) as [(n & Hn & ->)|(Hno & ->)]; simpl;
      [discriminate|reflexivity].
  - exact E2.
  - rewrite E2.
    destruct (subscribe_cases id cb2 w) as [(n' & _ & ->)|(Hno & _)];
      [|destruct (Hno n H)].
    simpl. apply lookup_insert_eq.
  - intros k Hk. rewrite E2.
    destruct (subscribe_cases id cb2 w) as [(n' & _ & ->)|(Hno & _)];
      [|destruct (Hno n H)].
    simpl. now apply lookup_insert_ne.
  - intros now raw n v Hn Ha Hcv. rewrite E2.
    destruct (subscribe_cases id cb2 w) as [(n' & _ & ->)|(Hno & _)];
      [|destruct (Hno n Hn)].
    simpl.
    rewrite (writeNode_calls now id raw _ n v); try assumption.
    simpl. now rewrite lookup_insert_eq.
  - intros ops Hne Hun Hops. apply run_never_calls; [|assumption].
    rewrite E2.
    destruct (subscribe_cases id cb2 w) as [(n' & _ & ->)|(Hno & ->)]; simpl;
      [|assumption].
    intros k. simpl. destruct (decide (id = k)) as [->|Hk].
    + rewrite lookup_insert_eq. congruence.
    + rewrite lookup_insert_ne by assumption. apply Hun.
Qed.

(** ** [unsubscribe] *)

(** For an id that is not the name of an inherited property,
    [unsubscribe] fails exactly when the registry holds no callback for
    it, and then changes nothing; otherwise it removes that entry and no
    other. *)
Lemma unsubscribe_plain (id : string) (w : World) :
  inherited id = false ->
  (Result.success (fst (unsubscribe id w)) = false <-> subscriptions w !! id = None)
  /\ (subscriptions w !! id = None ->
      unsubscribe id w =
      (Result.failure ("No active subscription for '" ++ id ++ "'."), w))
  /\ (forall cb, subscriptions w !! id = Some cb ->
      fst (unsubscribe id w) = Result.ok ("Unsubscribed from '" ++ id ++ "'.")
      /\ subscriptions (snd (unsubscribe id w)) !! id = None
      /\ (forall k, k <> id ->
          subscriptions (snd (unsubscribe id w)) !! k = subscriptions w !! k)
      /\ addressSpace (snd (unsubscribe id w)) = addressSpace w
      /\ calls (snd (unsubscribe id w)) = calls w).
Proof.
  intros Hi. unfold unsubscribe. rewrite (getProp_plain _ _ Hi).
  destruct (subscriptions w !! id) as [cb|] eqn:E; simpl.
  - split; [split; discriminate|]. split; [discriminate|].
    intros cb' _. repeat split.
    + apply lookup_delete_eq.
    + intros k Hk. now apply lookup_delete_ne.
  - split; [split; reflexivity|]. split; [reflexivity|]. discriminate.
Qed.

(** Outside the grammar of node identifiers the method misreports: with
    nothing subscribed, [unsubscribe] of the name of a property every
    object inherits does not fail.  The test
    [this.subscriptions[nodeId]] reads the inherited function, [delete]
    finds nothing to remove, and the call reports success.  No caller
    in [app.js] passes such a name: the class is private to the script
    and the page only unsubscribes the id it subscribed. *)
Lemma unsubscribe_inherited_name (t1 t2 t3 t4 : string) :
  let w := construct t1 t2 t3 t4 in
  subscriptions w !! "constructor" = None
  /\ unsubscribe "constructor" w =
     (Result.mk true "Unsubscribed from 'constructor'." None None, w).
Proof.
  intros w. split; [reflexivity|].
  unfold unsubscribe. simpl. unfold setSubscriptions. simpl.
  now rewrite delete_empty.
Qed.

(** ** Starting and stopping the simulation *)

Lemma notify_timers (id : string) (v : JsValue) (t : option string) (w : World) :
  updateInterval (notify id v t w) = updateInterval w
  /\ timers (notify id v t w) = timers w.
Proof. unfold notify. destruct (getProp _ _); split; reflexivity. Qed.

Lemma simulate_timers (id : string) (scale base : Z) (r : Number)
    (now : string) (w : World) :
  updateInterval (simulate id scale base r now w) = updateInterval w
  /\ timers (simulate id scale base r now w) = timers w.
Proof.
  unfold simulate.
  destruct (findNode id (addressSpace w)) as [[n|k]|]; try (split; reflexivity).
  apply (notify_timers id _ (Some now)
           (setSpace (modifyNode _ id (addressSpace w)) w)).
Qed.

(** A tick leaves the timers alone. *)
Lemma tick_timers (r1 r2 : Number) (t1 t2 : string) (w : World) :
  updateInterval (tick r1 r2 t1 t2 w) = updateInterval w
  /\ timers (tick r1 r2 t1 t2 w) = timers w.
Proof.
  unfold tick.
  destruct (simulate_timers "ns=1;s=Pressure" 5 98 r2 t2
              (simulate "ns=1;s=Temperature" 10 20 r1 t1 w)) as (-> & ->).
  apply simulate_timers.
Qed.

Lemma timersKept_exec (o : Op) (w : World) :
  timersKept w -> timersKept (exec o w).
Proof.
  unfold timersKept. intros H.
  destruct o as [id|p|now id v|id cb|id| | |i r1 r2 t1 t2]; simpl; try assumption.
  - destruct (writeNode_cases now id v w) as
      [(msg & _ & ->)|(n & v' & _ & _ & _ & ->)]; simpl; [assumption|].
    unfold notify. destruct (getProp _ _); assumption.
  - destruct (subscribe_cases id cb w) as [(n & _ & ->)|(_ & ->)]; assumption.
  - unfold unsubscribe. destruct (getProp _ _); assumption.
  - unfold startDataSimulation. destruct (updateInterval w) as [i|] eqn:E; simpl.
    + now rewrite E.
    + rewrite H. apply (right_id_L ∅ (∪)).
  - unfold stopDataSimulation. destruct (updateInterval w) as [i|] eqn:E; simpl.
    + rewrite H. apply difference_diag_L.
    + now rewrite E.
  - destruct (fires i w); [|assumption].
    destruct (tick_timers r1 r2 t1 t2 w) as (-> & ->). assumption.
Qed.

Lemma reachable_timersKept (w : World) : reachable w -> timersKept w.
Proof.
  induction 1 as [t1 t2 t3 t4|o w _ IH] using reachable_ind.
  - reflexivity.
  - apply timersKept_exec, IH.
Qed.

Lemma reachable_exec (o : Op) (w : World) : reachable w -> reachable (exec o w).
Proof.
  intros (t1 & t2 & t3 & t4 & ops & ->).
  exists t1, t2, t3, t4, (ops ++ [o])%list. now rewrite run_app.
Qed.

(** While no timer is kept and [startDataSimulation] is not called, no
    timer is kept. *)
Lemma run_stopped (ops : list Op) (w : World) :
  updateInterval w = None -> ~ In OpStart ops ->
  updateInterval (run ops w) = None.
Proof.
  revert w. induction ops as [|o ops IH]; intros w Hw Hops; [assumption|].
  change (run (o :: ops) w) with (run ops (exec o w)).
  apply IH; [|intros Hin; apply Hops; now right].
  destruct o as [id|p|now id v|id cb|id| | |i r1 r2 t1 t2]; simpl; try assumption.
  - destruct (writeNode_cases now id v w) as
      [(msg & _ & ->)|(n & v' & _ & _ & _ & ->)]; simpl; [assumption|].
    unfold notify. destruct (getProp _ _); assumption.
  - destruct (subscribe_cases id cb w) as [(n & _ & ->)|(_ & ->)]; assumption.
  - unfold unsubscribe. destruct (getProp _ _); assumption.
  - destruct Hops. now left.
  - unfold stopDataSimulation. now rewrite Hw.
  - destruct (fires i w); [|assumption].
    destruct (tick_timers r1 r2 t1 t2 w) as (-> & _). assumption.
Qed.

(** C9.  [startDataSimulation] on a server that keeps a timer changes
    nothing, so a second start neither replaces nor adds a timer;
    [stopDataSimulation] is a total function whose second call changes
    nothing; and after a stop no timer of a constructed server is active:
    no tick fires, then or later, until the simulation is started
    again. *)
Theorem simulation_start_stop (w : World) :
  reachable w ->
  (forall i, updateInterval w = Some i -> startDataSimulation w = w)
  /\ startDataSimulation (startDataSimulation w) = startDataSimulation w
  /\ stopDataSimulation (stopDataSimulation w) = stopDataSimulation w
  /\ (updateInterval w = None -> stopDataSimulation w = w)
  /\ timers (stopDataSimulation w) = ∅
  /\ (forall ops i,
        ~ In OpStart ops ->
        fires i (run ops (stopDataSimulation w)) = false)
  /\ (forall i r1 r2 t1 t2,
        exec (OpTick i r1 r2 t1 t2) (stopDataSimulation w) = stopDataSimulation w).
Proof.
  intros Hr.
  assert (Hstop : updateInterval (stopDataSimulation w) = None).
  { unfold stopDataSimulation. destruct (updateInterval w) eqn:E; [reflexivity|exact E]. }
  assert (Hrs : reachable (stopDataSimulation w)) by apply (reachable_exec OpStop w Hr).
  assert (Hnone : forall ops i, ~ In OpStart ops ->
                    fires i (run ops (stopDataSimulation w)) = false).
  { intros ops i Hops. unfold fires. apply bool_decide_eq_false.
    assert (Hk : timersKept (run ops (stopDataSimulation w))).
    { apply reachable_timersKept.
      destruct Hrs as (t1 & t2 & t3 & t4 & ops0 & E).
      exists t1, t2, t3, t4, (ops0 ++ ops)%list. now rewrite run_app, <- E. }
    unfold timersKept in Hk.
    rewrite (run_stopped ops _ Hstop Hops) in Hk. rewrite Hk.
    apply not_elem_of_empty. }
  repeat split.
  - intros i E. unfold startDataSimulation. now rewrite E.
  - unfold startDataSimulation at 1.
    destruct (updateInterval (startDataSimulation w)) eqn:E; [reflexivity|].
    unfold startDataSimulation in E.
    destruct (updateInterval w) eqn:E'; simpl in E; congruence.
  - unfold stopDataSimulation at 1. now rewrite Hstop.
  - intros E. unfold stopDataSimulation. now rewrite E.
  - pose proof (reachable_timersKept _ Hrs) as Hk. unfold timersKept in Hk.
    now rewrite Hstop in Hk.
  - exact Hnone.
  - intros i r1 r2 t1 t2. pose proof (Hnone [] i (fun H => H)) as Hf.
    change (run [] (stopDataSimulation w)) with (stopDataSimulation w) in Hf.
    simpl. now rewrite Hf.
Qed.

(** ** [parseFloat] *)



















(** For example: the value of [26.75] whatever follows it that is not
    numeric, and [NaN] for a text that does not start with a number. *)
Lemma parseFloat_examples :
  parseFloat "26.75abc" = parseFloat "26.75"
  /\ parseFloat "26.75" = ofDecimal 2675 2
  /\ parseFloat "abc" = NaN.
Proof. repeat split; vm_compute; reflexivity. Qed.


(** ** Rounding to binary64 *)

Lemma pow2_pos (k : Z) : 0 <= k -> 0 < 2 ^ k.
Proof. intros H. apply Z.pow_pos_nonneg; lia. Qed.

Lemma denom_pos (e : Z) : 0 < denom e.
Proof. unfold denom. destruct (0 <=? e) eqn:E; [lia|]. apply pow2_pos. lia. Qed.

Lemma geTwoPow_spec (n d l K : Z) :
  0 <= K -> 0 <= K + l ->
  (geTwoPow n d l = true <-> d * 2 ^ (K + l) <= n * 2 ^ K).
Proof.
  intros HK HKl. unfold geTwoPow.
  pose proof (pow2_pos K HK) as HpK.
  destruct (0 <=? l) eqn:El.
  - apply Z.leb_le in El. rewrite Z.leb_le.
    rewrite Z.pow_add_r by lia. pose proof (pow2_pos l El). nia.
  - apply Z.leb_gt in El. rewrite Z.leb_le.
    replace K with ((K + l) + - l) at 2 by lia.
    rewrite (Z.pow_add_r 2 (K + l) (- l)) by lia.
    pose proof (pow2_pos (K + l) HKl). pose proof (pow2_pos (- l) ltac:(lia)). nia.
Qed.

Lemma floorLog2_lower (n d K : Z) :
  0 < n -> 0 < d -> 0 <= K -> 0 <= K + floorLog2 n d ->
  d * 2 ^ (K + floorLog2 n d) <= n * 2 ^ K.
Proof.
  intros Hn Hd HK. unfold floorLog2.
  destruct (geTwoPow n d (Z.log2 n - Z.log2 d)) eqn:E; intros HKl.
  - now apply (geTwoPow_spec n d _ K HK HKl).
  - pose proof (Z.log2_spec n Hn) as [Hn1 _].
    pose proof (Z.log2_spec d Hd) as [_ Hd2].
    pose proof (Z.log2_nonneg n). pose proof (Z.log2_nonneg d).
    assert (E1 : 2 ^ Z.succ (Z.log2 d) * 2 ^ (K + (Z.log2 n - Z.log2 d - 1))
                 = 2 ^ Z.log2 n * 2 ^ K).
    { rewrite <- !Z.pow_add_r by lia. f_equal. lia. }
    pose proof (pow2_pos (K + (Z.log2 n - Z.log2 d - 1)) HKl).
    pose proof (pow2_pos K HK). nia.
Qed.

Lemma floorLog2_upper (n d K : Z) :
  0 < n -> 0 < d -> 0 <= K -> 0 <= K + floorLog2 n d + 1 ->
  n * 2 ^ K < d * 2 ^ (K + floorLog2 n d + 1).
Proof.
  intros Hn Hd HK. unfold floorLog2.
  destruct (geTwoPow n d (Z.log2 n - Z.log2 d)) eqn:E; intros HKl.
  - pose proof (Z.log2_spec n Hn) as [_ Hn2].
    pose proof (Z.log2_spec d Hd) as [Hd1 _].
    pose proof (Z.log2_nonneg n). pose proof (Z.log2_nonneg d).
    assert (E1 : 2 ^ Z.succ (Z.log2 n) * 2 ^ K
                 = 2 ^ (K + (Z.log2 n - Z.log2 d) + 1) * 2 ^ Z.log2 d).
    { rewrite <- !Z.pow_add_r by lia. f_equal. lia. }
    pose proof (pow2_pos (K + (Z.log2 n - Z.log2 d) + 1) HKl).
    pose proof (pow2_pos K HK). nia.
  - replace (K + (Z.log2 n - Z.log2 d - 1) + 1) with (K + (Z.log2 n - Z.log2 d)) in * by lia.
    destruct (Z.lt_ge_cases (n * 2 ^ K) (d * 2 ^ (K + (Z.log2 n - Z.log2 d)))) as [H|H];
      [assumption|].
    apply (geTwoPow_spec n d _ K HK HKl) in H. congruence.
Qed.

(** Rounding to the nearest integer keeps integer bounds. *)
Lemma roundHalfEven_bounds (a b k : Z) :
  0 < b ->
  (k * b <= a -> k <= roundHalfEven a b)
  /\ (a <= k * b -> roundHalfEven a b <= k).
Proof.
  intros Hb. unfold roundHalfEven.
  pose proof (Z.div_mod a b ltac:(lia)) as Hdm.
  pose proof (Z.mod_pos_bound a b Hb) as Hm.
  destruct (2 * (a mod b) <? b) eqn:E1; [apply Z.ltb_lt in E1; split; nia|].
  apply Z.ltb_ge in E1.
  destruct (b <? 2 * (a mod b)) eqn:E2; [split; nia|].
  destruct (Z.even (a / b)); split; nia.
Qed.

Lemma numer_denom_neg (m e : Z) : e < 0 -> numer m e = m /\ denom e = 2 ^ (- e).
Proof.
  intros H. unfold numer, denom.
  destruct (0 <=? e) eqn:E; [apply Z.leb_le in E; lia|auto].
Qed.

Lemma numer_denom_nonneg (m e : Z) : 0 <= e -> numer m e = m * 2 ^ e /\ denom e = 1.
Proof.
  intros H. unfold numer, denom.
  destruct (0 <=? e) eqn:E; [auto|apply Z.leb_gt in E; lia].
Qed.

(** The double nearest to a fraction between two integers below [2^53]
    is between them. *)
Lemma binary64_between (n d lo hi : Z) :
  0 < d -> 0 <= lo -> hi < 2 ^ 53 -> lo * d <= n <= hi * d ->
  between lo hi (binary64 false n d).
Proof.
  intros Hd Hlo Hhi [Hln Hnh]. unfold binary64.
  destruct (n =? 0) eqn:En.
  - apply Z.eqb_eq in En. subst n. unfold between.
    destruct (numer_denom_neg 0 (-1074) ltac:(lia)) as [-> ->].
    assert (0 < 2 ^ (- -1074)) by (apply pow2_pos; lia). nia.
  - apply Z.eqb_neq in En. assert (Hn : 0 < n) by nia. cbv zeta.
    set (l := floorLog2 n d). set (e := Z.max (l - 52) (-1074)).
    set (m := if 0 <=? e then roundHalfEven n (d * 2 ^ e)
              else roundHalfEven (n * 2 ^ (- e)) d).
    assert (Hl : l <= 52).
    { destruct (Z.le_gt_cases l 52) as [H|H]; [assumption|exfalso].
      pose proof (floorLog2_lower n d 0 Hn Hd ltac:(lia) ltac:(fold l; lia)) as Hlow.
      fold l in Hlow. rewrite Z.add_0_l, Z.pow_0_r, Z.mul_1_r in Hlow.
      assert (Hp : 2 ^ 53 <= 2 ^ l) by (apply Z.pow_le_mono_r; lia).
      assert (d * 2 ^ 53 <= d * 2 ^ l) by (apply Z.mul_le_mono_nonneg_l; lia).
      assert (hi * d < 2 ^ 53 * d) by (apply Z.mul_lt_mono_pos_r; lia).
      lia. }
    assert (He : e <= 0) by (subst e; lia).
    assert (Hel : l - 52 <= e) by (subst e; lia).
    set (s := 2 ^ (- e)).
    assert (Hs : 0 < s) by (apply pow2_pos; lia).
    assert (Hup : n * s < d * 2 ^ 53).
    { destruct (Z.le_gt_cases 0 (- e + l + 1)) as [H|H].
      - pose proof (floorLog2_upper n d (- e) Hn Hd ltac:(lia) ltac:(fold l; lia)) as Hu.
        fold l in Hu. fold s in Hu.
        assert (2 ^ (- e + l + 1) <= 2 ^ 53) by (apply Z.pow_le_mono_r; lia). nia.
      - pose proof (floorLog2_upper n d (- l - 1) Hn Hd ltac:(lia) ltac:(fold l; lia)) as Hu.
        fold l in Hu. replace (- l - 1 + l + 1) with 0 in Hu by lia.
        assert (s <= 2 ^ (- l - 1)) by (apply Z.pow_le_mono_r; lia).
        assert (1 <= 2 ^ 53) by (apply Z.pow_le_mono_r with (b := 0); lia).
        simpl (2 ^ 0) in Hu. nia. }
    assert (Hm : m = roundHalfEven (n * s) d).
    { subst m s. destruct (0 <=? e) eqn:E; [|reflexivity].
      apply Z.leb_le in E. assert (e = 0) as -> by lia. simpl.
      now rewrite !Z.mul_1_r. }
    clearbody m.
    destruct (roundHalfEven_bounds (n * s) d (lo * s) Hd) as [Hb1 _].
    destruct (roundHalfEven_bounds (n * s) d (hi * s) Hd) as [_ Hb2].
    destruct (roundHalfEven_bounds (n * s) d (2 ^ 53) Hd) as [_ Hb3].
    rewrite <- Hm in Hb1, Hb2, Hb3.
    specialize (Hb1 ltac:(nia)). specialize (Hb2 ltac:(nia)). specialize (Hb3 ltac:(nia)).
    destruct (971 <? e) eqn:E971; [apply Z.ltb_lt in E971; lia|].
    destruct (m <? 2 ^ 53) eqn:Em.
    + cbv beta iota delta [between]. split; [nia|].
      destruct (Z.eq_dec e 0) as [E0|E0].
      * destruct (numer_denom_nonneg m e ltac:(lia)) as [-> ->].
        subst s. rewrite E0 in *. simpl in *. lia.
      * destruct (numer_denom_neg m e ltac:(lia)) as [-> ->]. fold s. lia.
    + apply Z.ltb_ge in Em. assert (m = 2 ^ 53) by lia. subst m.
      destruct (e =? 971) eqn:E9; [apply Z.eqb_eq in E9; lia|].
      assert (He1 : e < 0).
      { destruct (Z.eq_dec e 0) as [E0|E0]; [|lia].
        subst s. rewrite E0 in *. simpl in *. lia. }
      assert (Hs2 : s = 2 * 2 ^ (- e - 1)).
      { subst s. replace (- e) with (1 + (- e - 1)) at 1 by lia.
        rewrite Z.pow_add_r by lia. reflexivity. }
      assert (H52 : 2 ^ 53 = 2 * 2 ^ 52) by reflexivity.
      cbv beta iota delta [between]. split; [apply Z.pow_nonneg; lia|].
      destruct (Z.eq_dec (e + 1) 0) as [E0|E0].
      * destruct (numer_denom_nonneg (2 ^ 52) (e + 1) ltac:(lia)) as [-> ->].
        rewrite E0. replace (- e - 1) with 0 in Hs2 by lia. simpl (2 ^ 0) in *. lia.
      * destruct (numer_denom_neg (2 ^ 52) (e + 1) ltac:(lia)) as [-> ->].
        replace (- (e + 1)) with (- e - 1) by lia.
        assert (0 < 2 ^ (- e - 1)) by (apply pow2_pos; lia). nia.
Qed.

(** A Number of the unit interval times an integer [z] is between 0 and
    [z]. *)
Lemma mul_unit (r x : Number) (z : Z) :
  unitInterval r -> 0 < z < 2 ^ 53 -> exactly z x -> between 0 z (mul r x).
Proof.
  destruct r as [| |[] m e]; try contradiction.
  destruct x as [| |[] M E]; try contradiction.
  intros [Hm Hr] [Hz1 Hz2] [HE ->]. unfold mul. simpl xorb.
  assert (HpE : 0 < 2 ^ (- E)) by (apply pow2_pos; lia).
  apply binary64_between; [apply denom_pos|lia|assumption|].
  destruct (Z.le_gt_cases 0 e) as [He|He].
  - (* r is an integer below 1 *)
    destruct (numer_denom_nonneg m e He) as [En Ed]. rewrite En, Ed in Hr.
    pose proof (pow2_pos e He). assert (m = 0) by nia. subst m.
    pose proof (denom_pos (e + E)).
    unfold numer. destruct (0 <=? e + E); nia.
  - destruct (numer_denom_neg m e He) as [En Ed]. rewrite En, Ed in Hr.
    destruct (numer_denom_neg (m * (z * 2 ^ (- E))) (e + E) ltac:(lia)) as [-> ->].
    replace (- (e + E)) with (- e + - E) by lia.
    rewrite Z.pow_add_r by lia. nia.
Qed.

(** Adding the integer [z] moves both bounds by [z]. *)
Lemma add_exact (x y : Number) (lo hi z : Z) :
  between lo hi x -> exactly z y -> 0 <= lo -> 0 < z -> hi + z < 2 ^ 53 ->
  between (lo + z) (hi + z) (add x y).
Proof.
  destruct x as [| |[] m e]; try contradiction.
  destruct y as [| |[] M E]; try contradiction.
  intros [Hm [Hl Hh]] [HE ->] Hlo Hz Hhi. unfold add. cbv zeta.
  set (e0 := Z.min e E).
  assert (He0 : e0 <= E /\ e0 <= e /\ e0 < 0) by (subst e0; lia).
  assert (Hp0 : 0 < 2 ^ (- e0)) by (apply pow2_pos; lia).
  assert (Hb : z * 2 ^ (- E) * 2 ^ (E - e0) = z * 2 ^ (- e0)).
  { rewrite <- Z.mul_assoc, <- Z.pow_add_r by lia. do 2 f_equal. lia. }
  assert (Ha : lo * 2 ^ (- e0) <= m * 2 ^ (e - e0) <= hi * 2 ^ (- e0)).
  { destruct (Z.le_gt_cases 0 e) as [He|He].
    - destruct (numer_denom_nonneg m e He) as [En Ed]. rewrite En, Ed in Hl, Hh.
      assert (e0 = E) as -> by lia.
      replace (e - E) with (e + - E) by lia. rewrite Z.pow_add_r by lia.
      assert (0 < 2 ^ (- E)) by (apply pow2_pos; lia). nia.
    - destruct (numer_denom_neg m e He) as [En Ed]. rewrite En, Ed in Hl, Hh.
      assert (Hs : 2 ^ (- e0) = 2 ^ (- e) * 2 ^ (e - e0)).
      { rewrite <- Z.pow_add_r by lia. f_equal. lia. }
      rewrite Hs.
      assert (0 < 2 ^ (e - e0)) by (apply pow2_pos; lia). nia. }
  simpl (if false then _ else _). rewrite Hb.
  set (c := m * 2 ^ (e - e0) + z * 2 ^ (- e0)).
  assert (Hc : 0 < c) by (subst c; nia).
  destruct (c =? 0) eqn:E0; [apply Z.eqb_eq in E0; lia|].
  destruct (c <? 0) eqn:E1; [apply Z.ltb_lt in E1; lia|].
  rewrite Z.abs_eq by lia.
  destruct (numer_denom_neg c e0 ltac:(lia)) as [-> ->].
  apply binary64_between; [assumption|lia|assumption|]. subst c. nia.
Qed.

(** [toFixed(2)] of a Number between two integers is the two-decimal
    text of an integer number of hundredths between them. *)
Lemma toFixed2_between (x : Number) (lo hi : Z) :
  between lo hi x -> 0 <= lo -> hi < 10 ^ 21 ->
  exists n, 100 * lo <= n <= 100 * hi /\ toFixed2 x = fixedText n.
Proof.
  destruct x as [| |[] m e]; try contradiction.
  intros [Hm [Hl Hh]] Hlo Hhi.
  pose proof (denom_pos e) as Hd.
  exists ((200 * numer m e + denom e) / (2 * denom e)). split.
  - split.
    + apply Z.div_le_lower_bound; nia.
    + apply Z.lt_succ_r. apply Z.div_lt_upper_bound; nia.
  - unfold toFixed2. cbv zeta.
    destruct (10 ^ 21 * denom e <=? numer m e) eqn:E; [|reflexivity].
    apply Z.leb_le in E.
    assert (hi * denom e < 10 ^ 21 * denom e) by (apply Z.mul_lt_mono_pos_r; lia).
    lia.
Qed.

Lemma exactly_10 : exactly 10 (ofZ 10).
Proof. vm_compute. split; reflexivity. Qed.

Lemma exactly_20 : exactly 20 (ofZ 20).
Proof. vm_compute. split; reflexivity. Qed.

Lemma exactly_5 : exactly 5 (ofZ 5).
Proof. vm_compute. split; reflexivity. Qed.

Lemma exactly_98 : exactly 98 (ofZ 98).
Proof. vm_compute. split; reflexivity. Qed.

(** [(Math.random() * 10 + 20).toFixed(2)] and
    [(Math.random() * 5 + 98).toFixed(2)]. *)
Lemma sample_Temperature (r : Number) :
  unitInterval r ->
  exists n, 2000 <= n <= 3000 /\
            toFixed2 (add (mul r (ofZ 10)) (ofZ 20)) = fixedText n.
Proof.
  intros Hr.
  destruct (toFixed2_between (add (mul r (ofZ 10)) (ofZ 20)) 20 30) as (n & Hn & E).
  - change 20 with (0 + 20) at 1. change 30 with (10 + 20).
    apply add_exact; [|apply exactly_20|lia|lia|reflexivity].
    apply mul_unit; [assumption|split; reflexivity|apply exactly_10].
  - lia.
  - reflexivity.
  - exists n. split; [lia|assumption].
Qed.

Lemma sample_Pressure (r : Number) :
  unitInterval r ->
  exists n, 9800 <= n <= 10300 /\
            toFixed2 (add (mul r (ofZ 5)) (ofZ 98)) = fixedText n.
Proof.
  intros Hr.
  destruct (toFixed2_between (add (mul r (ofZ 5)) (ofZ 98)) 98 103) as (n & Hn & E).
  - change 98 with (0 + 98) at 1. change 103 with (5 + 98).
    apply add_exact; [|apply exactly_98|lia|lia|reflexivity].
    apply mul_unit; [assumption|split; reflexivity|apply exactly_5].
  - lia.
  - reflexivity.
  - exists n. split; [lia|assumption].
Qed.

(** [toFixed(2)] rounds: the hundredths it prints are the nearest to the
    Number. *)
Lemma toFixed2_rounded (x : Number) (lo hi : Z) :
  between lo hi x -> 0 <= lo -> hi < 10 ^ 21 ->
  exists n, 100 * lo <= n <= 100 * hi /\ toFixed2 x = fixedText n
            /\ roundedTo2 x n.
Proof.
  destruct x as [| |[] m e]; try contradiction.
  intros [Hm [Hl Hh]] Hlo Hhi.
  pose proof (denom_pos e) as Hd.
  exists ((200 * numer m e + denom e) / (2 * denom e)). split; [|split].
  - split.
    + apply Z.div_le_lower_bound; nia.
    + apply Z.lt_succ_r. apply Z.div_lt_upper_bound; nia.
  - unfold toFixed2. cbv zeta.
    destruct (10 ^ 21 * denom e <=? numer m e) eqn:E; [|reflexivity].
    apply Z.leb_le in E.
    assert (hi * denom e < 10 ^ 21 * denom e) by (apply Z.mul_lt_mono_pos_r; lia).
    lia.
  - unfold roundedTo2.
    pose proof (Z.div_mod (200 * numer m e + denom e) (2 * denom e) ltac:(lia)) as Hdm.
    pose proof (Z.mod_pos_bound (200 * numer m e + denom e) (2 * denom e) ltac:(lia))
      as Hmod.
    set (n := (200 * numer m e + denom e) / (2 * denom e)) in *.
    set (r := (200 * numer m e + denom e) mod (2 * denom e)) in *.
    lia.
Qed.

(** The two samples of a tick, and what [toFixed(2)] makes of them. *)
Lemma sampled_Temperature (r : Number) :
  unitInterval r ->
  let x := add (mul r (ofZ 10)) (ofZ 20) in
  between 20 30 x
  /\ exists n, 2000 <= n <= 3000 /\ toFixed2 x = fixedText n /\ roundedTo2 x n.
Proof.
  intros Hr x.
  assert (Hb : between 20 30 x).
  { subst x. change 20 with (0 + 20) at 1. change 30 with (10 + 20).
    apply add_exact; [|apply exactly_20|lia|lia|reflexivity].
    apply mul_unit; [assumption|split; reflexivity|apply exactly_10]. }
  split; [exact Hb|].
  destruct (toFixed2_rounded x 20 30 Hb ltac:(lia) ltac:(reflexivity))
    as (n & Hn & E & Hround).
  exists n. split; [lia|]. split; assumption.
Qed.

Lemma sampled_Pressure (r : Number) :
  unitInterval r ->
  let x := add (mul r (ofZ 5)) (ofZ 98) in
  between 98 103 x
  /\ exists n, 9800 <= n <= 10300 /\ toFixed2 x = fixedText n /\ roundedTo2 x n.
Proof.
  intros Hr x.
  assert (Hb : between 98 103 x).
  { subst x. change 98 with (0 + 98) at 1. change 103 with (5 + 98).
    apply add_exact; [|apply exactly_98|lia|lia|reflexivity].
    apply mul_unit; [assumption|split; reflexivity|apply exactly_5]. }
  split; [exact Hb|].
  destruct (toFixed2_rounded x 98 103 Hb ltac:(lia) ltac:(reflexivity))
    as (n & Hn & E & Hround).
  exists n. split; [lia|]. split; assumption.
Qed.

(** ** The simulation timer *)

(** The two-decimal texts the simulation can produce read back as the
    numbers they show. *)
Lemma parseFloat_fixedText (n : Z) :
  2000 <= n <= 3000 \/ 9800 <= n <= 10300 ->
  parseFloat (fixedText n) = ofDecimal n 2.
Proof.
  intros Hn.
  assert (H : forallb
                (fun k => bool_decide (parseFloat (fixedText (Z.of_nat k))
                                       = ofDecimal (Z.of_nat k) 2))
                (seq (Z.to_nat 2000) (Z.to_nat 1001)
                 ++ seq (Z.to_nat 9800) (Z.to_nat 501)) = true)
    by (vm_compute; reflexivity).
  rewrite forallb_forall in H.
  specialize (H (Z.to_nat n)). rewrite Z2Nat.id in H by lia.
  apply bool_decide_eq_true in H; [assumption|].
  apply in_or_app. rewrite !in_seq. lia.
Qed.

Lemma between_fixedText (n lo hi : Z) :
  0 <= lo -> hi < 2 ^ 53 -> 100 * lo <= n <= 100 * hi ->
  between lo hi (ofDecimal n 2).
Proof.
  intros Hlo Hhi Hn. unfold ofDecimal.
  destruct (n <? 0) eqn:E; [apply Z.ltb_lt in E; lia|].
  rewrite Z.abs_eq by lia. apply binary64_between; try assumption; [reflexivity|].
  change (10 ^ 2) with 100. lia.
Qed.

Lemma simulate_Temperature (scale base : Z) (r : Number) (now : string) (w : World)
    vT tT vP tP vS tS vD tD :
  addressSpace w = spaceWith vT tT vP tP vS tS vD tD ->
  let v := JStr (toFixed2 (add (mul r (ofZ scale)) (ofZ base))) in
  simulate "ns=1;s=Temperature" scale base r now w =
  notify "ns=1;s=Temperature" v (Some now)
    (setSpace (spaceWith v now vP tP vS tS vD tD) w).
Proof. intros E v. unfold simulate. rewrite E. reflexivity. Qed.

Lemma simulate_Pressure (scale base : Z) (r : Number) (now : string) (w : World)
    vT tT vP tP vS tS vD tD :
  addressSpace w = spaceWith vT tT vP tP vS tS vD tD ->
  let v := JStr (toFixed2 (add (mul r (ofZ scale)) (ofZ base))) in
  simulate "ns=1;s=Pressure" scale base r now w =
  notify "ns=1;s=Pressure" v (Some now)
    (setSpace (spaceWith vT tT v now vS tS vD tD) w).
Proof. intros E v. unfold simulate. rewrite E. reflexivity. Qed.

Lemma readNode_spaceWith (w : World) vT tT vP tP vS tS vD tD :
  addressSpace w = spaceWith vT tT vP tP vS tS vD tD ->
  readNode "ns=1;s=Temperature" w =
    Some (ReadResult.mk vT (Some "Float") (Some "ReadWrite") (Some tT))
  /\ readNode "ns=1;s=Pressure" w =
    Some (ReadResult.mk vP (Some "Float") (Some "ReadWrite") (Some tP))
  /\ readNode "ns=1;s=Status" w =
    Some (ReadResult.mk vS (Some "Boolean") (Some "ReadOnly") (Some tS))
  /\ readNode "ns=1;s=DeviceName" w =
    Some (ReadResult.mk vD (Some "String") (Some "ReadOnly") (Some tD)).
Proof. intros E. unfold readNode. rewrite E. repeat split. Qed.

(** C1, as the code has it.  A tick takes two random Numbers [r1] and
    [r2] of the unit interval and two clock readings.  The sample for
    Temperature is [r1 * 10 + 20], a Number from 20 to 30, and the one
    for Pressure is [r2 * 5 + 98], from 98 to 103.  The tick stores in
    each node [toFixed(2)] of its sample, which is the sample rounded
    to two decimal places: the hundredths nearest to it, from 2000 to
    3000 for Temperature and from 9800 to 10300 for Pressure, so that
    the value reads as a Number from 20 to 30, respectively from 98 to
    103, both ends included.  It stores the clock reading of each node
    as its timestamp, calls the callback subscribed to each, if any,
    with the new value and timestamp, Temperature first, and leaves
    Status, DeviceName and the registry as they were. *)
Theorem tick_spec (r1 r2 : Number) (t1 t2 : string) (w : World) :
  reachable w -> unitInterval r1 -> unitInterval r2 ->
  let w' := tick r1 r2 t1 t2 w in
  let sampleT := add (mul r1 (ofZ 10)) (ofZ 20) in
  let sampleP := add (mul r2 (ofZ 5)) (ofZ 98) in
  exists nT nP : Z,
    2000 <= nT <= 3000 /\ 9800 <= nP <= 10300
    /\ readNode "ns=1;s=Temperature" w' =
       Some (ReadResult.mk (JStr (fixedText nT)) (Some "Float") (Some "ReadWrite") (Some t1))
    /\ readNode "ns=1;s=Pressure" w' =
       Some (ReadResult.mk (JStr (fixedText nP)) (Some "Float") (Some "ReadWrite") (Some t2))
    /\ between 20 30 (asNumber (JStr (fixedText nT)))
    /\ between 98 103 (asNumber (JStr (fixedText nP)))
    /\ calls w' =
       (calls w
        ++ match subscriptions w !! "ns=1;s=Temperature" with
           | Some cb => [mkCall (Own cb) (JStr (fixedText nT)) (Some t1)]
           | None => []
           end
        ++ match subscriptions w !! "ns=1;s=Pressure" with
           | Some cb => [mkCall (Own cb) (JStr (fixedText nP)) (Some t2)]
           | None => []
           end)%list
    /\ readNode "ns=1;s=Status" w' = readNode "ns=1;s=Status" w
    /\ readNode "ns=1;s=DeviceName" w' = readNode "ns=1;s=DeviceName" w
    /\ subscriptions w' = subscriptions w
    /\ readNode "ns=1;s=Temperature" w' =
       Some (ReadResult.mk (JStr (toFixed2 sampleT)) (Some "Float")
               (Some "ReadWrite") (Some t1))
    /\ readNode "ns=1;s=Pressure" w' =
       Some (ReadResult.mk (JStr (toFixed2 sampleP)) (Some "Float")
               (Some "ReadWrite") (Some t2))
    /\ toFixed2 sampleT = fixedText nT /\ roundedTo2 sampleT nT
    /\ toFixed2 sampleP = fixedText nP /\ roundedTo2 sampleP nP
    /\ between 20 30 sampleT /\ between 98 103 sampleP.
Proof.
  intros Hr H1 H2 w' sampleT sampleP.
  destruct (reachable_constructedTree w Hr)
    as (vS & tS & vD & tD & vT & tT & vP & tP & E).
  destruct (sampled_Temperature r1 H1) as (HbT & nT & HnT & ET & HrT).
  destruct (sampled_Pressure r2 H2) as (HbP & nP & HnP & EP & HrP).
  exists nT, nP.
  set (w1 := simulate "ns=1;s=Temperature" 10 20 r1 t1 w).
  assert (E1 : w1 = notify "ns=1;s=Temperature" (JStr (fixedText nT)) (Some t1)
                      (setSpace (spaceWith (JStr (fixedText nT)) t1 vP tP vS tS vD tD) w)).
  { subst w1. rewrite (simulate_Temperature 10 20 r1 t1 w _ _ _ _ _ _ _ _ E).
    cbv zeta. now rewrite ET. }
  assert (Es1 : addressSpace w1 = spaceWith (JStr (fixedText nT)) t1 vP tP vS tS vD tD).
  { rewrite E1, addressSpace_notify. reflexivity. }
  assert (E2 : w' = notify "ns=1;s=Pressure" (JStr (fixedText nP)) (Some t2)
                      (setSpace (spaceWith (JStr (fixedText nT)) t1
                                   (JStr (fixedText nP)) t2 vS tS vD tD) w1)).
  { subst w'. unfold tick. fold w1.
    rewrite (simulate_Pressure 5 98 r2 t2 w1 _ _ _ _ _ _ _ _ Es1).
    cbv zeta. now rewrite EP. }
  assert (Es2 : addressSpace w' = spaceWith (JStr (fixedText nT)) t1
                                    (JStr (fixedText nP)) t2 vS tS vD tD).
  { rewrite E2, addressSpace_notify. reflexivity. }
  destruct (readNode_spaceWith w' _ _ _ _ _ _ _ _ Es2) as (RT & RP & RS & RD).
  destruct (readNode_spaceWith w _ _ _ _ _ _ _ _ E) as (_ & _ & RS0 & RD0).
  split; [exact HnT|]. split; [exact HnP|].
  split; [exact RT|]. split; [exact RP|].
  split.
  { unfold asNumber. rewrite parseFloat_fixedText by (left; exact HnT).
    apply between_fixedText; [lia|reflexivity|lia]. }
  split.
  { unfold asNumber. rewrite parseFloat_fixedText by (right; exact HnP).
    apply between_fixedText; [lia|reflexivity|lia]. }
  split.
  { rewrite E2, notify_calls by reflexivity. simpl.
    rewrite E1, notify_calls by reflexivity. simpl.
    now rewrite <- app_assoc. }
  split; [now rewrite RS, RS0|]. split; [now rewrite RD, RD0|].
  split.
  { rewrite E2, subscriptions_notify. simpl.
    rewrite E1, subscriptions_notify. reflexivity. }
  split; [unfold sampleT; rewrite ET; exact RT|].
  split; [unfold sampleP; rewrite EP; exact RP|].
  split; [exact ET|]. split; [exact HrT|]. split; [exact EP|].
  split; [exact HrP|]. split; [exact HbT|exact HbP].
Qed.

(** ** What a change leaves alone *)

Lemma sameAttributes_refl (n : Node) : sameAttributes n n.
Proof. repeat split. Qed.

Lemma sameAttributes_setChildren (n : Node) (ch : Space) :
  sameAttributes n (setChildren n ch).
Proof. destruct n. repeat split. Qed.

Lemma sameLookup_refl (a : option (Lookup Node)) : sameLookup a a.
Proof. destruct a as [[n|k]|]; simpl; auto using sameAttributes_refl. Qed.

Lemma ownNode_modifyOwn_other (f : Node -> Node) (id id' : string) (sp : Space) :
  id' <> id -> ownNode id' (modifyOwn f id sp) = ownNode id' sp.
Proof.
  intros Hne.
  induction sp as [|k m rest _ IH] using Space_children_ind; simpl; [reflexivity|].
  destruct (String.eqb_spec id k) as [->|Hk]; simpl.
  - destruct (String.eqb_spec id' k) as [->|Hk']; [contradiction|reflexivity].
  - destruct (String.eqb id' k); [reflexivity|exact IH].
Qed.

Lemma findInChildren_modifyOwn (f : Node -> Node) (id id' : string) (sp : Space) :
  (forall n, children (f n) = children n) ->
  findInChildren id' (modifyOwn f id sp) = findInChildren id' sp.
Proof.
  intros Hf.
  induction sp as [|k m rest _ IH] using Space_children_ind; simpl; [reflexivity|].
  destruct (String.eqb id k); simpl.
  - now rewrite Hf.
  - now rewrite IH.
Qed.

Lemma findNode_modifyOwn_other (f : Node -> Node) (id id' : string) (sp : Space) :
  id' <> id -> (forall n, children (f n) = children n) ->
  findNode id' (modifyOwn f id sp) = findNode id' sp.
Proof.
  intros Hne Hf. unfold findNode.
  now rewrite ownNode_modifyOwn_other, findInChildren_modifyOwn.
Qed.

(** The own properties after a change below them: the same nodes, one of
    them with changed [children]. *)
Lemma ownNode_modifyInChildren (f : Node -> Node) (id id' : string) (sp : Space) :
  match ownNode id' sp, ownNode id' (modifyInChildren f id sp) with
  | Some n, Some n' => sameAttributes n n'
  | None, None => True
  | _, _ => False
  end.
Proof.
  induction sp as [|k m rest _ IH] using Space_children_ind; simpl; [exact I|].
  destruct (children m) as [ch|]; [destruct (findNode id ch)|]; simpl;
    destruct (String.eqb id' k);
    auto using sameAttributes_refl, sameAttributes_setChildren.
  destruct (ownNode id' rest); auto using sameAttributes_refl.
Qed.

Lemma sameLookup_findNode (id' : string) (sp sp' : Space) :
  match ownNode id' sp, ownNode id' sp' with
  | Some n, Some n' => sameAttributes n n'
  | None, None => True
  | _, _ => False
  end ->
  sameLookup (findInChildren id' sp) (findInChildren id' sp') ->
  sameLookup (findNode id' sp) (findNode id' sp').
Proof.
  unfold findNode, getProp. intros Hown Hch.
  destruct (ownNode id' sp) as [n|], (ownNode id' sp') as [n'|]; try contradiction.
  - exact Hown.
  - destruct (inherited id'); [reflexivity|exact Hch].
Qed.

(** A change of the node found under [id] changes the attributes of no
    node found under another id. *)
Lemma findInChildren_modifyInChildren (f : Node -> Node) (id id' : string) (sp : Space) :
  id' <> id -> (forall n, children (f n) = children n) ->
  sameLookup (findInChildren id' sp) (findInChildren id' (modifyInChildren f id sp)).
Proof.
  intros Hne Hf.
  induction sp as [|k m rest IHch IH] using Space_children_ind; [exact I|].
  destruct (children m) as [ch|] eqn:Ech.
  - destruct (findNode id ch) as [found|] eqn:Efc.
    + replace (modifyInChildren f id (scons k m rest))
        with (scons k (setChildren m (modifyNode f id ch)) rest)
        by (simpl; rewrite Ech, Efc; reflexivity).
      assert (Hch : sameLookup (findNode id' ch) (findNode id' (modifyNode f id ch))).
      { unfold modifyNode. destruct (ownNode id ch) as [o|].
        - rewrite findNode_modifyOwn_other by assumption. apply sameLookup_refl.
        - apply sameLookup_findNode; [apply ownNode_modifyInChildren|].
          exact (IHch ch eq_refl). }
      change (sameLookup
                match children m with
                | Some c =>
                    match findNode id' c with
                    | Some found => Some found
                    | None => findInChildren id' rest
                    end
                | None => findInChildren id' rest
                end
                match children (setChildren m (modifyNode f id ch)) with
                | Some c =>
                    match findNode id' c with
                    | Some found => Some found
                    | None => findInChildren id' rest
                    end
                | None => findInChildren id' rest
                end).
      rewrite Ech, children_setChildren.
      destruct (findNode id' ch) as [[na|ka]|],
               (findNode id' (modifyNode f id ch)) as [[nb|kb]|];
        simpl in Hch; try contradiction; try exact Hch.
      apply sameLookup_refl.
    + replace (modifyInChildren f id (scons k m rest))
        with (scons k m (modifyInChildren f id rest))
        by (simpl; rewrite Ech, Efc; reflexivity).
      change (sameLookup
                match children m with
                | Some c =>
                    match findNode id' c with
                    | Some found => Some found
                    | None => findInChildren id' rest
                    end
                | None => findInChildren id' rest
                end
                match children m with
                | Some c =>
                    match findNode id' c with
                    | Some found => Some found
                    | None => findInChildren id' (modifyInChildren f id rest)
                    end
                | None => findInChildren id' (modifyInChildren f id rest)
                end).
      rewrite Ech. destruct (findNode id' ch); [apply sameLookup_refl|exact IH].
  - replace (modifyInChildren f id (scons k m rest))
      with (scons k m (modifyInChildren f id rest))
      by (simpl; rewrite Ech; reflexivity).
    change (sameLookup
              match children m with
              | Some c =>
                  match findNode id' c with
                  | Some found => Some found
                  | None => findInChildren id' rest
                  end
              | None => findInChildren id' rest
              end
              match children m with
              | Some c =>
                  match findNode id' c with
                  | Some found => Some found
                  | None => findInChildren id' (modifyInChildren f id rest)
                  end
              | None => findInChildren id' (modifyInChildren f id rest)
              end).
    rewrite Ech. exact IH.
Qed.

Lemma findNode_modifyNode_other (f : Node -> Node) (id id' : string) (sp : Space) :
  id' <> id -> (forall n, children (f n) = children n) ->
  sameLookup (findNode id' sp) (findNode id' (modifyNode f id sp)).
Proof.
  intros Hne Hf. unfold modifyNode. destruct (ownNode id sp) as [o|].
  - rewrite findNode_modifyOwn_other by assumption. apply sameLookup_refl.
  - apply sameLookup_findNode; [apply ownNode_modifyInChildren|].
    now apply findInChildren_modifyInChildren.
Qed.

(** [readNode] only looks at the attributes of the node found. *)
Lemma readNode_sameLookup (id : string) (w w' : World) :
  sameLookup (findNode id (addressSpace w)) (findNode id (addressSpace w')) ->
  readNode id w' = readNode id w.
Proof.
  unfold readNode.
  destruct (findNode id (addressSpace w)) as [[n|k]|],
           (findNode id (addressSpace w')) as [[n'|k']|]; simpl; try contradiction;
    try reflexivity.
  intros (_ & _ & Hc & Hd & Hv & Ha & Ht).
  now rewrite Hc, Hd, Hv, Ha, Ht.
Qed.

(** A write, successful or not, changes what [readNode] returns for no
    other id than the one written, and leaves the registry and the
    timers alone. *)
Theorem writeNode_frame (now id raw id' : string) (w : World) :
  id' <> id ->
  let w' := snd (writeNode now id raw w) in
  readNode id' w' = readNode id' w
  /\ subscriptions w' = subscriptions w
  /\ updateInterval w' = updateInterval w
  /\ timers w' = timers w.
Proof.
  intros Hne w'. subst w'.
  destruct (writeNode_cases now id raw w) as
    [(msg & _ & ->)|(n & v & _ & _ & _ & ->)]; simpl; [auto|].
  split; [|split; [now rewrite subscriptions_notify|]].
  2:{ destruct (notify_timers id v (Some now)
                  (setSpace (modifyNode (update v now) id (addressSpace w)) w))
        as [-> ->]. auto. }
  apply readNode_sameLookup. rewrite addressSpace_notify. simpl.
  apply findNode_modifyNode_other; [assumption|apply children_update].
Qed.

(** ** The order of the search *)

Lemma ownNode_findKey (id : string) (sp : Space) :
  ownNode id sp = findKey id (entries sp).
Proof.
  unfold findKey.
  induction sp as [|k m rest _ IH] using Space_children_ind; simpl; [reflexivity|].
  destruct (String.eqb id k); [reflexivity|exact IH].
Qed.

Lemma findKey_app (id : string) (l1 l2 : list (string * Node)) :
  findKey id (l1 ++ l2)%list =
  match findKey id l1 with Some n => Some n | None => findKey id l2 end.
Proof.
  unfold findKey. induction l1 as [|kn l1 IH]; simpl; [reflexivity|].
  destruct (String.eqb id (fst kn)); [reflexivity|exact IH].
Qed.

Lemma findInChildren_below (id : string) (sp : Space) :
  inherited id = false ->
  findInChildren id sp = option_map Own (findKey id (below sp)).
Proof.
  intros Hid.
  induction sp as [|k m rest IHch IH] using Space_children_ind; simpl; [reflexivity|].
  destruct (children m) as [ch|] eqn:Ech; [|exact IH].
  rewrite !findKey_app, <- ownNode_findKey, (getProp_plain _ _ Hid).
  destruct (ownNode id ch) as [n|]; simpl; [reflexivity|].
  rewrite (IHch ch eq_refl).
  destruct (findKey id (below ch)); simpl; [reflexivity|exact IH].
Qed.

Lemma findNode_findKey (id : string) (sp : Space) :
  inherited id = false ->
  findNode id sp = option_map Own (findKey id (searchOrder sp)).
Proof.
  intros Hid. unfold findNode, searchOrder.
  rewrite findKey_app, <- ownNode_findKey, (getProp_plain _ _ Hid).
  destruct (ownNode id sp); simpl; [reflexivity|].
  apply findInChildren_below, Hid.
Qed.

Lemma findNode_inherited (id : string) (sp : Space) :
  inherited id = true ->
  findNode id sp =
  Some match ownNode id sp with Some n => Own n | None => Inherited id end.
Proof.
  intros Hid. unfold findNode, getProp. rewrite Hid.
  destruct (ownNode id sp); reflexivity.
Qed.

Lemma keys_searchOrder (sp : Space) :
  Permutation (keys sp) (map fst (searchOrder sp)).
Proof.
  unfold searchOrder.
  induction sp as [|k m rest IHch IH] using Space_children_ind; simpl; [constructor|].
  constructor. rewrite !map_app in *.
  destruct (children m) as [ch|] eqn:Ech; simpl.
  - rewrite (IHch ch eq_refl), IH, map_app, <- !app_assoc.
    rewrite (Permutation_app_swap_app (map fst (entries rest))).
    apply Permutation_app_head.
    rewrite (Permutation_app_swap_app (map fst (entries rest))).
    reflexivity.
  - exact IH.
Qed.

Lemma findKey_Some (id : string) (l : list (string * Node)) (n : Node) :
  findKey id l = Some n -> In (id, n) l.
Proof.
  unfold findKey. destruct (find _ l) as [[k m]|] eqn:E; [|discriminate].
  intros [= <-]. apply find_some in E as [Hin Heq].
  apply String.eqb_eq in Heq. simpl in Heq. now subst.
Qed.

Lemma findKey_None (id : string) (l : list (string * Node)) :
  findKey id l = None -> ~ In id (map fst l).
Proof.
  unfold findKey. destruct (find _ l) as [kn|] eqn:E; [discriminate|].
  intros _ Hin. apply in_map_iff in Hin as ([k m] & <- & Hin).
  pose proof (find_none _ _ E _ Hin) as H. simpl in H.
  now rewrite String.eqb_refl in H.
Qed.

Lemma findKey_NoDup (k : string) (n : Node) (l : list (string * Node)) :
  NoDup (map fst l) -> In (k, n) l -> findKey k l = Some n.
Proof.
  unfold findKey. induction l as [|[k' n'] l IH]; simpl; [contradiction|].
  intros Hnd [E|Hin].
  - injection E as -> ->. now rewrite String.eqb_refl.
  - apply NoDup_cons in Hnd as [Hnotin Hnd].
    destruct (String.eqb_spec k k') as [->|_].
    + exfalso. apply Hnotin, list_elem_of_In, in_map_iff. now exists (k', n).
    + auto.
Qed.

(** The search of [findNode] is a search in document order, level
    by level below each node: for an id that names no inherited
    property, [findNode] returns the first node stored under it among
    the own properties of the space followed by what is below them, and
    it finds a node exactly when the id is a key of the tree; for the
    name of an inherited property only the own properties of the space
    itself count, and the inherited property is returned when there is
    none, whatever the tree holds below. *)
Theorem findNode_order (id : string) (sp : Space) :
  (inherited id = false ->
   findNode id sp = option_map Own (findKey id (searchOrder sp)) /\
   (In id (keys sp) <-> exists n, findNode id sp = Some (Own n)) /\
   (~ In id (keys sp) <-> findNode id sp = None)) /\
  (inherited id = true ->
   findNode id sp =
   Some match ownNode id sp with Some n => Own n | None => Inherited id end).
Proof.
  split; [intros Hid|apply findNode_inherited].
  rewrite (findNode_findKey _ _ Hid).
  split; [reflexivity|].
  destruct (findKey id (searchOrder sp)) as [n|] eqn:E; simpl.
  - assert (Hin : In id (keys sp)).
    { apply (Permutation_in _ (Permutation_sym (keys_searchOrder sp))).
      apply in_map_iff. exists (id, n). split; [reflexivity|].
      now apply findKey_Some. }
    split; split; eauto; try discriminate. intros H; contradiction.
  - assert (Hout : ~ In id (keys sp)).
    { intros Hin. apply (findKey_None _ _ E).
      apply (Permutation_in _ (keys_searchOrder sp)), Hin. }
    split; split; auto; try contradiction. intros [n [=]].
Qed.

(** ** Browsing a well-formed tree *)

Lemma below_children (sp : Space) (k : string) (p : Node) (ch : Space) :
  In (k, p) (searchOrder sp) -> children p = Some ch ->
  incl (searchOrder ch) (below sp).
Proof.
  unfold searchOrder. intros Hin Hch.
  apply in_app_or in Hin.
  induction sp as [|k' m rest IHch IH] using Space_children_ind; simpl in *.
  - destruct Hin as [[]|[]].
  - destruct Hin as [[E|Hin]|Hin].
    + injection E as -> ->. rewrite Hch. apply incl_appl, incl_refl.
    + apply incl_appr, IH. now left.
    + apply in_app_or in Hin as [Hin|Hin].
      * destruct (children m) as [c|] eqn:Ec; [|destruct Hin].
        apply incl_appl. apply incl_appr.
        apply (IHch c eq_refl). apply in_app_or in Hin. exact Hin.
      * apply incl_appr, IH. now right.
Qed.

Lemma wellFormed_findNode (sp : Space) (k : string) (n : Node) :
  wellFormed sp -> In (k, n) (searchOrder sp) -> findNode k sp = Some (Own n).
Proof.
  intros (Hnd & Hp & _) Hin.
  assert (Hk : In k (keys sp)).
  { apply (Permutation_in _ (Permutation_sym (keys_searchOrder sp))).
    apply in_map_iff. now exists (k, n). }
  rewrite (findNode_findKey _ _ (Hp _ Hk)).
  rewrite (findKey_NoDup k n); [reflexivity| |exact Hin].
  now rewrite <- (keys_searchOrder sp).
Qed.

Lemma findNode_searchOrder (id : string) (sp : Space) (n : Node) :
  findNode id sp = Some (Own n) -> In (id, n) (searchOrder sp).
Proof.
  intros E. destruct (inherited id) eqn:Hid.
  - rewrite (findNode_inherited _ _ Hid) in E.
    destruct (ownNode id sp) as [m|] eqn:Eo; [|discriminate].
    injection E as ->. rewrite ownNode_findKey in Eo.
    apply in_or_app. left. now apply findKey_Some.
  - rewrite (findNode_findKey _ _ Hid) in E.
    destruct (findKey id (searchOrder sp)) as [m|] eqn:Ek; [|discriminate].
    injection E as ->. now apply findKey_Some.
Qed.

Lemma hasChildren_entries (n : Node) :
  hasChildren n = true <->
  match children n with Some ch => entries ch | None => [] end <> [].
Proof.
  unfold hasChildren. destruct (children n) as [[|k m rest]|]; simpl;
    split; congruence.
Qed.

Lemma browseNodes_found (id : string) (w : World) (n : Node) :
  findNode id (addressSpace w) = Some (Own n) ->
  browseNodes (Some id) w =
  map (fun kn => summary (snd kn))
    match children n with Some ch => entries ch | None => [] end.
Proof. intros E. unfold browseNodes. rewrite E. now destruct (children n). Qed.

(** What [browseNodes] lists can be browsed in turn: on a well-formed
    tree every summary in the result of [browseNodes(parent)] is that of
    a node of the tree which its [nodeId] resolves to, browsing that
    [nodeId] lists the children of this very node, and [hasChildren] is
    true exactly when that list is not empty. *)
Theorem browseNodes_navigable (parent : option string) (w : World) (s : Summary.t) :
  wellFormed (addressSpace w) ->
  In s (browseNodes parent w) ->
  exists child,
    s = summary child /\
    findNode (Summary.nodeId s) (addressSpace w) = Some (Own child) /\
    browseNodes (Some (Summary.nodeId s)) w =
    map (fun kn => summary (snd kn))
      match children child with Some ch => entries ch | None => [] end /\
    (Summary.hasChildren s = true <-> browseNodes (Some (Summary.nodeId s)) w <> []).
Proof.
  intros Hwf Hin. unfold browseNodes in Hin.
  set (p := match parent with Some id => id | None => "ns=0;i=84" end) in Hin.
  destruct (findNode p (addressSpace w)) as [[pn|?]|] eqn:Ep; try destruct Hin.
  destruct (children pn) as [ch|] eqn:Ech; [|destruct Hin].
  apply in_map_iff in Hin as ([k child] & <- & Hin). simpl.
  assert (Hso : In (k, child) (searchOrder (addressSpace w))).
  { apply in_or_app. right.
    apply (below_children _ _ _ _ (findNode_searchOrder _ _ _ Ep) Ech).
    apply in_or_app. now left. }
  assert (Hid : nodeId child = k) by (apply Hwf, Hso).
  assert (Hf : findNode (nodeId child) (addressSpace w) = Some (Own child)).
  { rewrite Hid. now apply wellFormed_findNode. }
  exists child. split; [reflexivity|]. split; [exact Hf|].
  rewrite (browseNodes_found _ _ _ Hf). split; [reflexivity|].
  rewrite hasChildren_entries.
  destruct (children child) as [[|? ? ?]|]; simpl; split; congruence.
Qed.

Lemma keys_children_NoDup (sp : Space) (k : string) (p : Node) (ch : Space) :
  NoDup (keys sp) -> In (k, p) (searchOrder sp) -> children p = Some ch ->
  NoDup (keys ch).
Proof.
  unfold searchOrder. intros Hnd Hin Hch. apply in_app_or in Hin.
  induction sp as [|k' m rest IHch IH] using Space_children_ind; simpl in *.
  - destruct Hin as [[]|[]].
  - apply NoDup_cons in Hnd as [_ Hnd].
    apply NoDup_app in Hnd as (Hc & _ & Hr).
    destruct Hin as [[E|Hin]|Hin].
    + injection E as -> ->. now rewrite Hch in Hc.
    + apply IH; [exact Hr|now left].
    + apply in_app_or in Hin as [Hin|Hin].
      * destruct (children m) as [c|] eqn:Ec; [|destruct Hin].
        apply (IHch c eq_refl Hc). apply in_app_or in Hin. exact Hin.
      * apply IH; [exact Hr|now right].
Qed.

(** ** Rendering the tree *)

Lemma renderAddressSpaceTree_cons (fuel : nat) (w : World) (s : Summary.t)
    (l : list Summary.t) :
  renderAddressSpaceTree (S fuel) w (s :: l) =
  match
    if Summary.hasChildren s then
      renderAddressSpaceTree fuel w (browseNodes (Some (Summary.nodeId s)) w)
    else Some []
  with
  | Some sub =>
      match renderAddressSpaceTree (S fuel) w l with
      | Some items => Some (mkItem s sub :: items)
      | None => None
      end
  | None => None
  end.
Proof. reflexivity. Qed.

Lemma renderAddressSpaceTree_entries (w : World) (c : Space) :
  wellFormed (addressSpace w) ->
  incl (entries c) (searchOrder (addressSpace w)) ->
  forall fuel, (depth c < fuel)%nat ->
  exists items,
    renderAddressSpaceTree fuel w (map (fun kn => summary (snd kn)) (entries c))
    = Some items /\
    map Summary.nodeId (flat_map shownIn items) = keys c.
Proof.
  intros Hwf.
  induction c as [|k n rest IHch IH] using Space_children_ind; intros Hin fuel Hd.
  - destruct fuel as [|fuel]; [inversion Hd|]. exists []. split; reflexivity.
  - destruct fuel as [|fuel]; [inversion Hd|].
    simpl in Hd. simpl entries in *. simpl map.
    rewrite renderAddressSpaceTree_cons.
    assert (Hn : In (k, n) (searchOrder (addressSpace w))) by (apply Hin; now left).
    assert (Hid : nodeId n = k) by (apply Hwf, Hn).
    assert (Hf : findNode (nodeId n) (addressSpace w) = Some (Own n)).
    { rewrite Hid. now apply wellFormed_findNode. }
    destruct (IH (fun kn H => Hin kn (or_intror H)) (S fuel)) as (items & Er & Ek);
      [lia|].
    rewrite Er. simpl Summary.hasChildren. simpl Summary.nodeId.
    rewrite (browseNodes_found _ _ _ Hf).
    destruct (hasChildren n) eqn:Eh.
    + unfold hasChildren in Eh.
      destruct (children n) as [ch|] eqn:Ech; [|discriminate].
      destruct (IHch ch eq_refl) with (fuel := fuel) as (sub & Es & Eks).
      { intros kn H. apply in_or_app. right.
        apply (below_children _ _ _ _ Hn Ech). apply in_or_app. now left. }
      { lia. }
      rewrite Es. eexists. split; [reflexivity|].
      simpl. rewrite Ech, map_app, Eks, Ek, Hid. reflexivity.
    + eexists. split; [reflexivity|].
      simpl. rewrite Ek, Hid. unfold hasChildren in Eh.
      destruct (children n) as [[|? ? ?]|]; try discriminate; reflexivity.
Qed.

(** [renderAddressSpaceTree] shows the whole tree below a node: on a
    well-formed tree, rendering the result of [browseNodes(parent)]
    ends, for every depth of calls above the depth of the tree, and the
    items show, from top to bottom, every node below the parent exactly
    once, in the order of the tree. *)
Theorem renderAddressSpaceTree_complete (parent : string) (w : World)
    (p : Node) (ch : Space) (fuel : nat) :
  wellFormed (addressSpace w) ->
  findNode parent (addressSpace w) = Some (Own p) ->
  children p = Some ch ->
  (depth ch < fuel)%nat ->
  exists items,
    renderAddressSpaceTree fuel w (browseNodes (Some parent) w) = Some items /\
    map Summary.nodeId (flat_map shownIn items) = keys ch /\
    NoDup (map Summary.nodeId (flat_map shownIn items)).
Proof.
  intros Hwf Hf Hch Hd.
  rewrite (browseNodes_found _ _ _ Hf), Hch.
  destruct (renderAddressSpaceTree_entries w ch Hwf) with (fuel := fuel)
    as (items & Er & Ek); [|exact Hd|].
  { intros kn H. apply in_or_app. right.
    apply (below_children _ _ _ _ (findNode_searchOrder _ _ _ Hf) Hch).
    apply in_or_app. now left. }
  exists items. split; [exact Er|]. split; [exact Ek|].
  rewrite Ek.
  apply (keys_children_NoDup (addressSpace w) parent p ch);
    [apply Hwf|now apply findNode_searchOrder|exact Hch].
Qed.

(** ** Two writes to one node *)

Lemma modifyOwn_twice (f g : Node -> Node) (id : string) (sp : Space) :
  modifyOwn f id (modifyOwn g id sp) = modifyOwn (fun n => f (g n)) id sp.
Proof.
  induction sp as [|k m rest _ IH] using Space_children_ind; simpl; [reflexivity|].
  destruct (String.eqb id k) eqn:E; simpl; rewrite E; [reflexivity|now rewrite IH].
Qed.

Lemma setChildren_twice (n : Node) (a b : Space) :
  setChildren (setChildren n a) b = setChildren n b.
Proof. destruct n; reflexivity. Qed.

Lemma findNode_Inherited (id k : string) (sp : Space) :
  findNode id sp = Some (Inherited k) -> ownNode id sp = None /\ inherited id = true.
Proof.
  destruct (inherited id) eqn:Hid.
  - rewrite (findNode_inherited _ _ Hid).
    destruct (ownNode id sp); [discriminate|auto].
  - rewrite (findNode_findKey _ _ Hid).
    destruct (findKey id (searchOrder sp)); discriminate.
Qed.

Lemma ownNode_modifyNode_None (f : Node -> Node) (id : string) (sp : Space) :
  ownNode id sp = None -> ownNode id (modifyNode f id sp) = None.
Proof.
  intros E. unfold modifyNode. rewrite E. now apply ownNode_modifyInChildren_None.
Qed.

(** The node found under [id] is still found after it was changed. *)
Lemma findNode_modifyNode_Some (f : Node -> Node) (id : string) (sp : Space) :
  findNode id sp <> None -> findNode id (modifyNode f id sp) <> None.
Proof.
  destruct (findNode id sp) as [[n|k]|] eqn:E; [| |congruence]; intros _.
  - now rewrite (findNode_modifyNode f id sp n E).
  - apply findNode_Inherited in E as [Eo Hid].
    rewrite (findNode_inherited _ _ Hid). discriminate.
Qed.

Lemma modifyNode_twice (f g : Node -> Node) (id : string) (sp : Space) :
  modifyNode f id (modifyNode g id sp) = modifyNode (fun n => f (g n)) id sp.
Proof.
  induction sp as [|k m rest IHch IH] using Space_children_ind; [reflexivity|].
  unfold modifyNode at 2 3.
  destruct (ownNode id (scons k m rest)) as [n|] eqn:Eo.
  - unfold modifyNode. rewrite ownNode_modifyOwn, Eo.
    apply modifyOwn_twice.
  - unfold modifyNode.
    rewrite (ownNode_modifyInChildren_None g id id _ Eo).
    simpl in Eo. destruct (String.eqb id k) eqn:Ek; [discriminate|].
    assert (IHr : modifyInChildren f id (modifyInChildren g id rest) =
                  modifyInChildren (fun n => f (g n)) id rest).
    { unfold modifyNode in IH.
      rewrite Eo, (ownNode_modifyInChildren_None g id id _ Eo) in IH. exact IH. }
    simpl. destruct (children m) as [ch|] eqn:Ech.
    + destruct (findNode id ch) as [found|] eqn:Ef.
      * simpl. rewrite children_setChildren.
        change (match ownNode id ch with
                | Some _ => modifyOwn g id ch
                | None => modifyInChildren g id ch
                end) with (modifyNode g id ch).
        destruct (findNode id (modifyNode g id ch)) as [found'|] eqn:Ef'.
        -- rewrite setChildren_twice. f_equal. f_equal.
           apply (IHch ch eq_refl).
        -- exfalso. apply (findNode_modifyNode_Some g id ch); congruence.
      * simpl. rewrite Ech, Ef. now rewrite IHr.
    + simpl. rewrite Ech. now rewrite IHr.
Qed.

Lemma update_twice (v1 v2 : JsValue) (t1 t2 : string) (n : Node) :
  update v2 t2 (update v1 t1 n) = update v2 t2 n.
Proof. destruct n; reflexivity. Qed.

Lemma modifyNode_ext (f g : Node -> Node) (id : string) (sp : Space) :
  (forall n, f n = g n) -> modifyNode f id sp = modifyNode g id sp.
Proof.
  intros H.
  assert (Hown : forall s, modifyOwn f id s = modifyOwn g id s).
  { induction s as [|k m rest _ IH] using Space_children_ind; simpl; [reflexivity|].
    now rewrite H, IH. }
  induction sp as [|k m rest IHch IH] using Space_children_ind; [reflexivity|].
  unfold modifyNode in *. destruct (ownNode id (scons k m rest)) eqn:Eo; [apply Hown|].
  simpl in *. destruct (String.eqb id k); [discriminate|]. rewrite Eo in IH.
  destruct (children m) as [ch|] eqn:Ech; [|now rewrite IH].
  destruct (findNode id ch); [|now rewrite IH].
  do 2 f_equal. apply (IHch ch eq_refl).
Qed.

(** The last write wins: when two writes to one node follow each other
    and both succeed, the tree is the one the second write alone leaves,
    the first value is gone, and a subscriber of the node was called
    once for each write, in their order. *)
Theorem writeNode_twice (t1 t2 id raw1 raw2 : string) (w : World)
    (n : Node) (v1 v2 : JsValue) :
  plainKeys (addressSpace w) ->
  resolvesToVariable id (addressSpace w) n ->
  accessLevel n = Some "ReadWrite" ->
  convert (dataType n) raw1 = inr v1 ->
  convert (dataType n) raw2 = inr v2 ->
  let w1 := snd (writeNode t1 id raw1 w) in
  let w2 := snd (writeNode t2 id raw2 w1) in
  fst (writeNode t2 id raw2 w1) = fst (writeNode t2 id raw2 w)
  /\ addressSpace w2 = addressSpace (snd (writeNode t2 id raw2 w))
  /\ readNode id w2 =
     Some (ReadResult.mk v2 (dataType n) (accessLevel n) (Some t2))
  /\ calls w2 = (calls w ++
                 match subscriptions w !! id with
                 | Some cb => [mkCall (Own cb) v1 (Some t1); mkCall (Own cb) v2 (Some t2)]
                 | None => []
                 end)%list.
Proof.
  intros Hp Hn Ha Hc1 Hc2 w1 w2. subst w2 w1.
  pose proof (Hp _ (findNode_In_keys _ _ _ (proj1 Hn))) as Hid.
  rewrite (writeNode_done t1 id raw1 w n v1 Hn Ha Hc1). simpl.
  set (w1 := notify id v1 (Some t1) _).
  assert (Hn1 : resolvesToVariable id (addressSpace w1) (update v1 t1 n)).
  { unfold w1. rewrite addressSpace_notify. simpl. destruct Hn as [Hf Hc]. split.
    - now apply findNode_modifyNode.
    - destruct n; exact Hc. }
  assert (Ha1 : accessLevel (update v1 t1 n) = Some "ReadWrite") by (destruct n; exact Ha).
  assert (Hd1 : dataType (update v1 t1 n) = dataType n) by (destruct n; reflexivity).
  assert (Hb1 : browseName (update v1 t1 n) = browseName n) by (destruct n; reflexivity).
  assert (Hc2' : convert (dataType (update v1 t1 n)) raw2 = inr v2) by now rewrite Hd1.
  rewrite (writeNode_done t2 id raw2 w1 _ v2 Hn1 Ha1 Hc2').
  rewrite (writeNode_done t2 id raw2 w n v2 Hn Ha Hc2). simpl.
  rewrite Hd1, Hb1. split; [reflexivity|].
  rewrite !addressSpace_notify. simpl.
  assert (Esp : modifyNode (update v2 t2) id (addressSpace w1) =
                modifyNode (update v2 t2) id (addressSpace w)).
  { unfold w1. rewrite addressSpace_notify. simpl. rewrite modifyNode_twice.
    apply modifyNode_ext. intros m. apply update_twice. }
  split; [exact Esp|]. split.
  - unfold readNode. rewrite addressSpace_notify. simpl. rewrite Esp.
    destruct Hn as [Hf Hc].
    rewrite (findNode_modifyNode _ _ _ _ Hf).
    replace (nodeClass (update v2 t2 n)) with (nodeClass n) by (destruct n; reflexivity).
    rewrite Hc. simpl. destruct n; reflexivity.
  - rewrite (notify_calls _ _ _ _ Hid). simpl.
    unfold w1. rewrite (notify_calls _ _ _ _ Hid). simpl.
    destruct (subscriptions w !! id); simpl; rewrite <- ?app_assoc; reflexivity.
Qed.

(** ** Subscribing and unsubscribing again *)

(** [unsubscribe] undoes [subscribe], and more: after a successful
    [subscribe(id, cb)], [unsubscribe(id)] succeeds and leaves the
    server as it was with the registry holding nothing under [id]; it
    is the server before the two calls when nothing was subscribed to
    [id], and a callback that was subscribed before is not brought
    back. *)
Theorem subscribe_unsubscribe (id : string) (cb : Callback) (w : World) (n : Node) :
  plainKeys (addressSpace w) ->
  resolvesToVariable id (addressSpace w) n ->
  let w1 := snd (subscribe id cb w) in
  unsubscribe id w1 =
  (Result.ok ("Unsubscribed from '" ++ id ++ "'."),
   setSubscriptions (delete id (subscriptions w)) w)
  /\ (subscriptions w !! id = None -> snd (unsubscribe id w1) = w)
  /\ subscriptions (snd (unsubscribe id w1)) !! id = None.
Proof.
  intros Hp Hn w1. subst w1.
  destruct (subscribe_cases id cb w) as [(n' & _ & ->)|(Hno & _)];
    [|destruct (Hno n Hn)].
  unfold unsubscribe. simpl.
  rewrite lookup_insert_eq. simpl. rewrite delete_insert_eq.
  split; [reflexivity|]. split.
  - intros Hnone. unfold setSubscriptions. simpl.
    rewrite (delete_id _ _ Hnone). destruct w; reflexivity.
  - apply lookup_delete_eq.
Qed.

(** ** The timer of the simulation *)

(** On a server reachable from the constructor the only timer that
    fires the simulation is the one whose id the server keeps: none
    while [updateInterval] is [null], and however often
    [startDataSimulation] was called, one. *)
Theorem simulation_single_timer (w : World) (i : positive) :
  reachable w ->
  (fires i w = true <-> updateInterval w = Some i)
  /\ (fires i (startDataSimulation w) = true <->
      updateInterval (startDataSimulation w) = Some i)
  /\ (forall j, fires i w = true -> fires j w = true -> i = j).
Proof.
  intros Hr.
  assert (H : forall w, reachable w -> forall i,
                fires i w = true <-> updateInterval w = Some i).
  { clear. intros w Hr i. pose proof (reachable_timersKept w Hr) as Hk.
    unfold timersKept in Hk. unfold fires. rewrite bool_decide_eq_true, Hk.
    destruct (updateInterval w) as [k|].
    - rewrite elem_of_singleton. split; congruence.
    - split; [intros []%elem_of_empty|discriminate]. }
  split; [apply H, Hr|]. split.
  - apply H, (reachable_exec OpStart w Hr).
  - intros j Hi Hj. apply (H w Hr) in Hi, Hj. congruence.
Qed.

(** ** Writes that are stored as text *)

Lemma convert_text (type : option string) (raw : string) :
  type <> Some "Float" -> type <> Some "Boolean" ->
  convert type raw = inr (JStr raw).
Proof.
  intros Hf Hb. unfold convert.
  destruct type as [ty|]; [|reflexivity].
  destruct (String.eqb_spec ty "Float") as [->|Hne]; [congruence|].
  destruct (String.eqb_spec ty "Boolean") as [->|Hnb]; [congruence|].
  repeat (destruct ty as [|[[] [] [] [] [] [] [] []] ty]; try reflexivity;
          try congruence).
Qed.

(** A write to a ReadWrite Variable whose data type is neither Float nor
    Boolean (String, any other, or none) never fails: the text is
    stored as it is, be it empty or padded with blanks, and it is the
    value the message and the subscriber get. *)
Theorem writeNode_text (now id raw : string) (w : World) (n : Node) :
  plainKeys (addressSpace w) ->
  resolvesToVariable id (addressSpace w) n ->
  accessLevel n = Some "ReadWrite" ->
  dataType n <> Some "Float" -> dataType n <> Some "Boolean" ->
  let w' := snd (writeNode now id raw w) in
  fst (writeNode now id raw w) =
    Result.mk true ("Value of " ++ browseName n ++ " updated to " ++ raw)
      (Some now) (dataType n)
  /\ readNode id w' =
     Some (ReadResult.mk (JStr raw) (dataType n) (accessLevel n) (Some now))
  /\ calls w' = (calls w ++ match subscriptions w !! id with
                            | Some cb => [mkCall (Own cb) (JStr raw) (Some now)]
                            | None => []
                            end)%list.
Proof.
  intros Hp Hn Ha Hf Hb w'. subst w'.
  pose proof (convert_text (dataType n) raw Hf Hb) as Hcv.
  rewrite (writeNode_calls now id raw w n _ Hp Hn Ha Hcv).
  rewrite (writeNode_done now id raw w n _ Hn Ha Hcv). simpl.
  split; [reflexivity|]. split; [|reflexivity].
  unfold readNode. rewrite addressSpace_notify. simpl.
  destruct Hn as [Hfn Hc]. rewrite (findNode_modifyNode _ _ _ _ Hfn).
  replace (nodeClass (update (JStr raw) now n)) with (nodeClass n)
    by (destruct n; reflexivity).
  rewrite Hc. simpl. destruct n; reflexivity.
Qed.

(** ** [getLocalUtcOffset] *)

Lemma offsetHours_checked :
  forallb
    (fun n : nat =>
       let o := Z.of_nat n - 1440 in
       let h := div (opp (ofZ o)) (ofZ 60) in
       Bool.eqb (isZero h) (o =? 0)
       && Bool.eqb (greaterThanZero h) (o <? 0)
       && bool_decide (h = binary64 (0 <=? o) (Z.abs o) 60)
       && ((o =? 0) || negb (o mod 60 =? 0)
           || bool_decide (h = ofZ (- o / 60))))
    (seq 0 (Z.to_nat 2881)) = true.
Proof. vm_compute. reflexivity. Qed.

(** The offset [getLocalUtcOffset] prints, for a time zone at most a
    day from UTC: [UTC+0] when the host reports no offset; otherwise
    [UTC], a [+] when the zone is ahead of UTC (the host then reports a
    negative number of minutes) and none when it is behind, and the
    text of the offset in hours, which is the double nearest to
    [-offsetMinutes / 60] and, for a whole number of hours, that
    integer. *)
Theorem getLocalUtcOffset_spec (offsetMinutes : Z) :
  -1440 <= offsetMinutes <= 1440 ->
  let offsetHours := div (opp (ofZ offsetMinutes)) (ofZ 60) in
  getLocalUtcOffset offsetMinutes =
    (if offsetMinutes =? 0 then "UTC+0"
     else if offsetMinutes <? 0 then "UTC+" ++ numberToString offsetHours
     else "UTC" ++ numberToString offsetHours)
  /\ offsetHours = binary64 (0 <=? offsetMinutes) (Z.abs offsetMinutes) 60
  /\ (forall k, k <> 0 -> offsetMinutes = -60 * k -> offsetHours = ofZ k).
Proof.
  intros Hrange h.
  pose proof offsetHours_checked as Hall.
  rewrite forallb_forall in Hall.
  specialize (Hall (Z.to_nat (offsetMinutes + 1440))).
  replace (Z.of_nat (Z.to_nat (offsetMinutes + 1440)) - 1440)
    with offsetMinutes in Hall by lia.
  cbv zeta in Hall. fold h in Hall.
  assert (Hin : In (Z.to_nat (offsetMinutes + 1440)) (seq 0 (Z.to_nat 2881))).
  { apply in_seq. lia. }
  apply Hall in Hin. clear Hall.
  apply andb_true_iff in Hin as [Hin Hwhole].
  apply andb_true_iff in Hin as [Hin Hval].
  apply andb_true_iff in Hin as [Hzero Hpos].
  apply Bool.eqb_prop in Hzero, Hpos. apply bool_decide_eq_true in Hval.
  split; [|split; [exact Hval|]].
  - unfold getLocalUtcOffset. fold h. rewrite Hzero, Hpos.
    destruct (offsetMinutes =? 0); [reflexivity|].
    destruct (offsetMinutes <? 0); reflexivity.
  - intros k Hk E.
    apply orb_true_iff in Hwhole as [Hwhole|Hwhole];
      [apply orb_true_iff in Hwhole as [Hwhole|Hwhole]|].
    + apply Z.eqb_eq in Hwhole. lia.
    + apply negb_true_iff, Z.eqb_neq in Hwhole. exfalso. apply Hwhole.
      subst offsetMinutes. replace (-60 * k) with ((- k) * 60) by lia.
      apply Z.mod_mul. lia.
    + apply bool_decide_eq_true in Hwhole. rewrite Hwhole. f_equal.
      subst offsetMinutes.
      replace (- (-60 * k)) with (k * 60) by lia. apply Z.div_mul. lia.
Qed.

(** ** [trim] *)

Lemma trimStart_empty (s : string) :
  trimStart s = "" <-> allWhiteSpace s = true.
Proof.
  induction s as [|c r IH]; simpl; [tauto|].
  destruct (isWhiteSpace c); simpl; [exact IH|]. split; discriminate.
Qed.

Lemma trimEnd_empty (s : string) :
  trimEnd s = "" <-> allWhiteSpace s = true.
Proof.
  induction s as [|c r IH]; simpl; [tauto|].
  destruct (trimEnd r) as [|c' r'] eqn:E.
  - destruct (isWhiteSpace c); simpl.
    + split; [intros _; now apply IH|reflexivity].
    + split; discriminate.
  - split; [discriminate|]. intros H. apply andb_true_iff in H as [_ H].
    apply IH in H. discriminate.
Qed.

Lemma allWhiteSpace_trimStart (s : string) :
  allWhiteSpace (trimStart s) = allWhiteSpace s.
Proof.
  induction s as [|c r IH]; simpl; [reflexivity|].
  destruct (isWhiteSpace c) eqn:E; simpl; [exact IH|now rewrite E].
Qed.

(** [s.trim()] is empty exactly when [s] is white space. *)
Lemma trim_empty (s : string) : trim s = "" <-> allWhiteSpace s = true.
Proof. unfold trim. now rewrite trimEnd_empty, allWhiteSpace_trimStart. Qed.

Lemma trim_eqb (s : string) : String.eqb (trim s) "" = allWhiteSpace s.
Proof.
  destruct (String.eqb_spec (trim s) "") as [E|E];
    destruct (allWhiteSpace s) eqn:Ea; try reflexivity.
  - apply trim_empty in E. congruence.
  - apply trim_empty in Ea. congruence.
Qed.

(** ** What the methods leave alone *)

Lemma writeNode_kept (now id raw : string) (w : World) :
  let w' := snd (writeNode now id raw w) in
  subscriptions w' = subscriptions w /\ updateInterval w' = updateInterval w
  /\ timers w' = timers w.
Proof.
  destruct (writeNode_cases now id raw w) as
    [(msg & _ & ->)|(n & v & _ & _ & _ & ->)]; simpl; [auto|].
  rewrite subscriptions_notify.
  destruct (notify_timers id v (Some now)
              (setSpace (modifyNode (update v now) id (addressSpace w)) w))
    as (-> & ->).
  auto.
Qed.

Lemma tick_kept (r1 r2 : Number) (t1 t2 : string) (w : World) :
  let w' := tick r1 r2 t1 t2 w in
  subscriptions w' = subscriptions w /\ updateInterval w' = updateInterval w
  /\ timers w' = timers w.
Proof.
  simpl. destruct (tick_timers r1 r2 t1 t2 w) as (-> & ->).
  split; [|auto]. unfold tick.
  destruct (simulate_subscribed "ns=1;s=Pressure" 5 98 r2 t2
              (simulate "ns=1;s=Temperature" 10 20 r1 t1 w)) as (-> & _).
  apply simulate_subscribed.
Qed.

Lemma startDataSimulation_kept (w : World) :
  subscriptions (startDataSimulation w) = subscriptions w
  /\ addressSpace (startDataSimulation w) = addressSpace w
  /\ calls (startDataSimulation w) = calls w
  /\ updateInterval (startDataSimulation w) <> None.
Proof.
  unfold startDataSimulation. destruct (updateInterval w) eqn:E; simpl;
    repeat split; congruence.
Qed.

Lemma stopDataSimulation_kept (w : World) :
  subscriptions (stopDataSimulation w) = subscriptions w
  /\ addressSpace (stopDataSimulation w) = addressSpace w
  /\ calls (stopDataSimulation w) = calls w
  /\ updateInterval (stopDataSimulation w) = None.
Proof.
  unfold stopDataSimulation. destruct (updateInterval w) eqn:E; simpl;
    repeat split; congruence.
Qed.

(** The Variables of the constructor's tree are the four the page
    displays. *)
Lemma constructedTree_Variable (id : string) (sp : Space) (n : Node) :
  constructedTree sp -> resolvesToVariable id sp n -> In id nodesToDisplay.
Proof.
  intros (vS & tS & vD & tD & vT & tT & vP & tP & ->) [Hf Hc].
  rewrite findNode_spaceWith in Hf.
  destruct (String.eqb id "ns=0;i=84").
  { injection Hf as <-. discriminate. }
  destruct (inherited id); [discriminate|].
  destruct (String.eqb id "ns=1;s=Folder1").
  { injection Hf as <-. discriminate. }
  destruct (String.eqb_spec id "ns=1;s=Temperature") as [->|]; [simpl; auto|].
  destruct (String.eqb_spec id "ns=1;s=Pressure") as [->|]; [simpl; auto|].
  destruct (String.eqb_spec id "ns=1;s=Status") as [->|]; [simpl; auto|].
  destruct (String.eqb_spec id "ns=1;s=DeviceName") as [->|]; [simpl; auto 6|].
  discriminate.
Qed.

Lemma nodesToDisplay_plain (id : string) :
  In id nodesToDisplay -> inherited id = false /\ truthy (Some id) = true.
Proof.
  intros [<-|[<-|[<-|[<-|[]]]]]; split; reflexivity.
Qed.

(** ** The page *)

Lemma handleAll_app (es1 es2 : list Event) (p : Page) :
  handleAll (es1 ++ es2) p = handleAll es2 (handleAll es1 p).
Proof. unfold handleAll. apply fold_left_app. Qed.

Lemma reachablePage_ind (html : Dom) (P : Page -> Prop) :
  (forall t1 t2 t3 t4, P (init t1 t2 t3 t4 html)) ->
  (forall e p, reachablePage html p -> P p -> P (handle e p)) ->
  forall p, reachablePage html p -> P p.
Proof.
  intros Hinit Hstep p (t1 & t2 & t3 & t4 & es & ->).
  induction es as [|e es IH] using rev_ind.
  - apply Hinit.
  - rewrite handleAll_app. apply Hstep; [|exact IH].
    exists t1, t2, t3, t4, es. reflexivity.
Qed.

Lemma reachablePage_handle (html : Dom) (e : Event) (p : Page) :
  reachablePage html p -> reachablePage html (handle e p).
Proof.
  intros (t1 & t2 & t3 & t4 & es & ->).
  exists t1, t2, t3, t4, (es ++ [e])%list. now rewrite handleAll_app.
Qed.

(** What a handler does to the server is a sequence of calls of its
    methods, or a tick of its timer. *)
Lemma server_handle (e : Event) (p : Page) :
  exists ops, server (handle e p) = run ops (server p).
Proof.
  destruct e as [| |o|now o| |id|s|s|i r1 r2 t1 t2]; simpl.
  - destruct (connectDisabled _); [now exists []|].
    unfold handleConnect. destruct (isConnected p); [now exists []|].
    now exists [OpStart].
  - destruct (disconnectDisabled _); [now exists []|].
    unfold handleDisconnect. destruct (isConnected p); [|now exists []]. simpl.
    destruct (subscribedNodeId p) as [id|]; [|now exists [OpStop]].
    destruct (negb (String.eqb id "")); [|now exists [OpStop]].
    now exists [OpUnsubscribe id; OpStop].
  - exists []. destruct (readDisabled _); [reflexivity|].
    unfold handleRead. destruct (String.eqb _ _); [reflexivity|].
    destruct (readNode _ _); reflexivity.
  - destruct (writeDisabled _); [now exists []|].
    unfold handleWrite. destruct (_ || _); [now exists []|].
    exists [OpWrite now (trim (nodeIdInput (dom p))) (trim (nodeValueInput (dom p)))].
    simpl. destruct (writeNode _ _ _ _) as [r w]. simpl.
    destruct (Result.success r); reflexivity.
  - destruct (subscribeDisabled _); [now exists []|].
    unfold handleSubscribe. destruct (String.eqb _ _); [now exists []|].
    destruct (bool_decide _).
    + exists [OpUnsubscribe (trim (nodeIdInput (dom p)))]. simpl.
      destruct (unsubscribe _ _) as [r w]. simpl.
      destruct (Result.success r); reflexivity.
    + destruct (subscribedNodeId p) as [old|].
      * destruct (truthy (Some old)).
        -- exists [OpUnsubscribe old;
                   OpSubscribe (trim (nodeIdInput (dom p))) (closures p)].
           simpl. destruct (subscribe _ _ _) as [r w]. simpl.
           destruct (Result.success r); reflexivity.
        -- exists [OpSubscribe (trim (nodeIdInput (dom p))) (closures p)].
           simpl. destruct (subscribe _ _ _) as [r w]. simpl.
           destruct (Result.success r); reflexivity.
      * exists [OpSubscribe (trim (nodeIdInput (dom p))) (closures p)].
        simpl. destruct (subscribe _ _ _) as [r w]. simpl.
        destruct (Result.success r); reflexivity.
  - now exists [].
  - now exists [].
  - now exists [].
  - destruct (fires i (server p)) eqn:Ef; [|now exists []].
    exists [OpTick i r1 r2 t1 t2]. simpl. now rewrite Ef.
Qed.

(** The server of the page is a server reachable from the constructor. *)
Lemma reachablePage_server (html : Dom) (p : Page) :
  reachablePage html p -> reachable (server p).
Proof.
  induction 1 as [t1 t2 t3 t4|e p _ IH] using reachablePage_ind.
  - exists t1, t2, t3, t4, [OpStart]. reflexivity.
  - destruct (server_handle e p) as (ops & ->).
    destruct IH as (t1 & t2 & t3 & t4 & ops0 & ->).
    exists t1, t2, t3, t4, (ops0 ++ ops)%list. now rewrite run_app.
Qed.

Lemma setSubscriptions_same (w : World) :
  setSubscriptions (subscriptions w) w = w.
Proof. destruct w; reflexivity. Qed.

Lemma unsubscribe_singleton (id : string) (cb : Callback) (w : World) :
  subscriptions w = {[ id := cb ]} ->
  unsubscribe id w =
  (Result.ok ("Unsubscribed from '" ++ id ++ "'."), setSubscriptions ∅ w).
Proof.
  intros E. unfold unsubscribe. rewrite E, lookup_singleton_eq. simpl.
  now rewrite delete_singleton_eq.
Qed.

(** What [handleDisconnect] does on a connected page that holds its
    one subscription. *)
Lemma handleDisconnect_connected (p : Page) :
  oneSubscription p -> isConnected p = true ->
  handleDisconnect p =
  mkPage (stopDataSimulation (setSubscriptions ∅ (server p))) false None (closures p)
    (displayClientMessage "Disconnected from simulated OPC UA Server." InfoMessage
       (setTree ConnectPrompt
          (updateClientButtons false None
             (setEntries [NoData]
                (setLogDisplay "none"
                   (setStatus "Client Status: Disconnected" (dom p))))))).
Proof.
  unfold oneSubscription, handleDisconnect. intros Hone ->. cbn [negb].
  destruct (subscribedNodeId p) as [id|].
  - destruct Hone as (Hin & cb & _ & Hreg).
    destruct (nodesToDisplay_plain id Hin) as [_ Ht]. rewrite !Ht.
    rewrite (unsubscribe_singleton id cb _ Hreg). reflexivity.
  - cbn [truthy]. rewrite <- Hone, setSubscriptions_same. reflexivity.
Qed.

(** The document [handleSubscribe] starts the new subscription on: the
    entries of the old one are removed. *)
Lemma handleSubscribe_cases (p : Page) :
  oneSubscription p ->
  constructedTree (addressSpace (server p)) ->
  let id := trim (nodeIdInput (dom p)) in
  let d0 := match subscribedNodeId p with
            | Some _ => setEntries [] (dom p)
            | None => dom p
            end in
  (id = "" /\
   handleSubscribe p =
   setDom (displayClientMessage "Please enter a Node ID to subscribe."
             ErrorMessage (dom p)) p)
  \/ (id <> "" /\ subscribedNodeId p = Some id /\
      handleSubscribe p =
      mkPage (setSubscriptions ∅ (server p)) (isConnected p) None (closures p)
        (updateClientButtons (isConnected p) None
           (displayClientMessage ("Unsubscribed from '" ++ id ++ "'.") InfoMessage
              (setEntries [NoData] (setLogDisplay "none" (dom p))))))
  \/ (id <> "" /\ subscribedNodeId p <> Some id /\
      exists n, resolvesToVariable id (addressSpace (server p)) n /\
      handleSubscribe p =
      mkPage (setSubscriptions {[ id := closures p ]} (server p)) (isConnected p)
        (Some id) (S (closures p))
        (updateClientButtons (isConnected p) (Some id)
           (displayClientMessage ("Subscribed to '" ++ browseName n ++ "'.")
              SuccessMessage
              (setSubscribedDisplay id (setLogDisplay "block" d0)))))
  \/ (id <> "" /\ subscribedNodeId p <> Some id /\
      (forall n, ~ resolvesToVariable id (addressSpace (server p)) n) /\
      handleSubscribe p =
      mkPage (setSubscriptions ∅ (server p)) (isConnected p) None (S (closures p))
        (updateClientButtons (isConnected p) None
           (displayClientMessage
              ("Subscription failed: Cannot subscribe to '" ++ id
               ++ "'. Not a Variable.")
              ErrorMessage d0))).
Proof.
  intros Hone Htree id d0. unfold handleSubscribe. fold id.
  destruct (String.eqb_spec id "") as [E|Hne]; [left; auto|right].
  destruct (bool_decide_reflect (subscribedNodeId p = Some id)) as [Hs|Hs].
  - left. split; [exact Hne|]. split; [exact Hs|].
    unfold oneSubscription in Hone. rewrite Hs in Hone.
    destruct Hone as (_ & cb & _ & Hreg).
    rewrite (unsubscribe_singleton id cb _ Hreg). reflexivity.
  - right.
    assert (Hw0 :
      match subscribedNodeId p with
      | Some old =>
          if truthy (Some old) then
            (snd (unsubscribe old (server p)), setEntries [] (dom p))
          else (server p, dom p)
      | None => (server p, dom p)
      end = (setSubscriptions ∅ (server p), d0)).
    { unfold oneSubscription in Hone. subst d0.
      destruct (subscribedNodeId p) as [old|].
      - destruct Hone as (Hin & cb & _ & Hreg).
        destruct (nodesToDisplay_plain old Hin) as [_ ->].
        now rewrite (unsubscribe_singleton old cb _ Hreg).
      - now rewrite <- Hone, setSubscriptions_same. }
    rewrite Hw0.
    destruct (subscribe_cases id (closures p) (setSubscriptions ∅ (server p)))
      as [(n & Hn & ->)|(Hno & ->)]; simpl.
    + left. split; [exact Hne|]. split; [exact Hs|]. exists n. split; [exact Hn|].
      rewrite insert_empty. reflexivity.
    + right. split; [exact Hne|]. split; [exact Hs|]. split; [exact Hno|].
      reflexivity.
Qed.

Lemma handle_quiet (e : Event) (p : Page) :
  quiet e = true ->
  isConnected (handle e p) = isConnected p
  /\ subscribedNodeId (handle e p) = subscribedNodeId p
  /\ closures (handle e p) = closures p
  /\ buttons (dom (handle e p)) = buttons (dom p)
  /\ subscriptions (server (handle e p)) = subscriptions (server p)
  /\ updateInterval (server (handle e p)) = updateInterval (server p).
Proof.
  destruct e as [| |o|now o| |id|s|s|i r1 r2 t1 t2]; try discriminate;
    intros _; simpl; try tauto.
  - destruct (readDisabled _); [tauto|].
    unfold handleRead. destruct (String.eqb _ _); [simpl; tauto|].
    destruct (readNode _ _); simpl; tauto.
  - destruct (writeDisabled _); [tauto|].
    unfold handleWrite. destruct (_ || _); [simpl; tauto|].
    pose proof (writeNode_kept now (trim (nodeIdInput (dom p)))
                  (trim (nodeValueInput (dom p))) (server p)) as H.
    destruct (writeNode _ _ _ _) as [r w]. simpl in H.
    destruct (Result.success r); simpl; tauto.
  - destruct (fires i (server p)); [|tauto].
    pose proof (tick_kept r1 r2 t1 t2 (server p)) as H. simpl in H.
    unfold timerTick. destruct (isConnected p); simpl; tauto.
Qed.

Lemma handleConnect_connected (p : Page) :
  isConnected p = true -> handleConnect p = p.
Proof. unfold handleConnect. now intros ->. Qed.

Lemma handleDisconnect_disconnected (p : Page) :
  isConnected p = false -> handleDisconnect p = p.
Proof. unfold handleDisconnect. now intros ->. Qed.

Lemma handleConnect_disconnected (p : Page) :
  isConnected p = false ->
  handleConnect p =
  mkPage (startDataSimulation (server p)) true (subscribedNodeId p) (closures p)
    (displayClientMessage
       "Successfully connected to simulated OPC UA Server." SuccessMessage
       (setTree (TreeOf (addressSpace (startDataSimulation (server p))))
          (updateServerNodeDisplay (startDataSimulation (server p))
             (updateClientButtons true (subscribedNodeId p)
                (setStatus "Client Status: Connected" (dom p)))))).
Proof. unfold handleConnect. now intros ->. Qed.

Lemma reachablePage_tree (html : Dom) (p : Page) :
  reachablePage html p -> constructedTree (addressSpace (server p)).
Proof. intros H. apply reachable_constructedTree, (reachablePage_server html), H. Qed.

(** On every page of a session the registry of the server holds what
    [subscribedNodeId] says. *)
Lemma reachablePage_oneSubscription (html : Dom) (p : Page) :
  reachablePage html p -> oneSubscription p.
Proof.
  induction 1 as [t1 t2 t3 t4|e p Hr IH] using reachablePage_ind; [reflexivity|].
  destruct (quiet e) eqn:Eq.
  - destruct (handle_quiet e p Eq) as (_ & Hs & Hc & _ & Hreg & _).
    unfold oneSubscription in *. now rewrite Hs, Hc, Hreg.
  - destruct e; try discriminate; simpl.
    + destruct (connectDisabled _); [exact IH|].
      destruct (bool_dec (isConnected p) true) as [Ec|Ec%not_true_is_false].
      * now rewrite (handleConnect_connected p Ec).
      * rewrite (handleConnect_disconnected p Ec).
        unfold oneSubscription in *. simpl.
        now rewrite (proj1 (startDataSimulation_kept (server p))).
    + destruct (disconnectDisabled _); [exact IH|].
      destruct (bool_dec (isConnected p) true) as [Ec|Ec%not_true_is_false].
      * rewrite (handleDisconnect_connected p IH Ec).
        unfold oneSubscription. simpl.
        now rewrite (proj1 (stopDataSimulation_kept _)).
      * now rewrite (handleDisconnect_disconnected p Ec).
    + destruct (subscribeDisabled _); [exact IH|].
      destruct (handleSubscribe_cases p IH (reachablePage_tree html p Hr)) as
        [(_ & ->)|[(_ & _ & ->)|[(_ & _ & n & Hn & ->)|(_ & _ & _ & ->)]]];
        try reflexivity.
      * exact IH.
      * unfold oneSubscription. simpl. split.
        -- eapply constructedTree_Variable; [exact (reachablePage_tree html p Hr)|exact Hn].
        -- exists (closures p). split; [lia|reflexivity].
Qed.

(** While the page is connected the simulation runs. *)
Lemma reachablePage_running (html : Dom) (p : Page) :
  reachablePage html p -> isConnected p = true -> updateInterval (server p) <> None.
Proof.
  induction 1 as [t1 t2 t3 t4|e p Hr IH] using reachablePage_ind; [discriminate|].
  pose proof (reachablePage_oneSubscription html p Hr) as Hone.
  destruct (quiet e) eqn:Eq.
  - destruct (handle_quiet e p Eq) as (Hc & _ & _ & _ & _ & Hu).
    now rewrite Hc, Hu.
  - destruct e; try discriminate; simpl.
    + destruct (connectDisabled _); [exact IH|].
      destruct (bool_dec (isConnected p) true) as [Ec|Ec%not_true_is_false].
      * now rewrite (handleConnect_connected p Ec).
      * rewrite (handleConnect_disconnected p Ec).
        intros _. apply startDataSimulation_kept.
    + destruct (disconnectDisabled _); [exact IH|].
      destruct (bool_dec (isConnected p) true) as [Ec|Ec%not_true_is_false].
      * rewrite (handleDisconnect_connected p Hone Ec). discriminate.
      * now rewrite (handleDisconnect_disconnected p Ec).
    + destruct (subscribeDisabled _); [exact IH|].
      destruct (handleSubscribe_cases p Hone (reachablePage_tree html p Hr)) as
        [(_ & ->)|[(_ & _ & ->)|[(_ & _ & n & Hn & ->)|(_ & _ & _ & ->)]]];
        exact IH.
Qed.


Lemma nodesToDisplay_Variable (id : string) (sp : Space) :
  constructedTree sp -> In id nodesToDisplay ->
  exists n, resolvesToVariable id sp n.
Proof.
  intros (vS & tS & vD & tD & vT & tT & vP & tP & ->)
         [<-|[<-|[<-|[<-|[]]]]]; eexists; split; reflexivity.
Qed.

(** The page never holds more than one subscription: on every page of a
    session the registry of the server has a callback under an id
    exactly when that id is the one kept in [subscribedNodeId], and
    that id is one of the four Variables; the callback is an arrow
    function [handleSubscribe] made. *)
Theorem page_one_subscription (html : Dom) (p : Page) :
  reachablePage html p ->
  (forall id, (exists cb, subscriptions (server p) !! id = Some cb) <->
              subscribedNodeId p = Some id)
  /\ (forall id cb, subscriptions (server p) !! id = Some cb ->
                    (cb < closures p)%nat)
  /\ (forall id, subscribedNodeId p = Some id ->
                 In id nodesToDisplay /\
                 exists n, resolvesToVariable id (addressSpace (server p)) n).
Proof.
  intros Hr.
  pose proof (reachablePage_oneSubscription html p Hr) as Hone.
  pose proof (reachablePage_tree html p Hr) as Htree.
  unfold oneSubscription in Hone.
  destruct (subscribedNodeId p) as [id0|].
  - destruct Hone as (Hin & cb0 & Hlt & Hreg). rewrite Hreg.
    split; [|split].
    + intros id. split.
      * intros (cb & [-> _]%lookup_singleton_Some). reflexivity.
      * intros [= ->]. exists cb0. apply lookup_singleton_eq.
    + intros id cb [_ <-]%lookup_singleton_Some. exact Hlt.
    + intros id [= <-]. split; [exact Hin|now apply nodesToDisplay_Variable].
  - rewrite Hone. split; [|split].
    + intros id. split; [|discriminate].
      intros (cb & H). now rewrite lookup_empty in H.
    + intros id cb H. now rewrite lookup_empty in H.
    + discriminate.
Qed.

(** While the page is connected the simulation runs, fired by the one
    timer the server keeps; [handleDisconnect] stops it and drops the
    subscription; and [init] has started it on a page that is not
    connected yet. *)
Theorem page_connected_running (html : Dom) (p : Page) :
  reachablePage html p ->
  (isConnected p = true ->
   exists i, updateInterval (server p) = Some i /\ timers (server p) = {[ i ]})
  /\ (isConnected p = true ->
      let p' := handleDisconnect p in
      isConnected p' = false /\ updateInterval (server p') = None
      /\ timers (server p') = ∅ /\ subscriptions (server p') = ∅
      /\ subscribedNodeId p' = None
      /\ subscriptionEntries (dom p') = [NoData]
      /\ addressSpace (server p') = addressSpace (server p))
  /\ (forall t1 t2 t3 t4,
        isConnected (init t1 t2 t3 t4 html) = false /\
        updateInterval (server (init t1 t2 t3 t4 html)) = Some 1%positive).
Proof.
  intros Hr.
  pose proof (reachablePage_oneSubscription html p Hr) as Hone.
  pose proof (reachable_timersKept _ (reachablePage_server html p Hr)) as Hk.
  split; [|split].
  - intros Hc. pose proof (reachablePage_running html p Hr Hc) as Hrun.
    unfold timersKept in Hk.
    destruct (updateInterval (server p)) as [i|]; [|congruence]. eauto.
  - intros Hc p'. subst p'. rewrite (handleDisconnect_connected p Hone Hc). simpl.
    destruct (stopDataSimulation_kept (setSubscriptions ∅ (server p)))
      as (Hs & Ha & _ & Hu).
    rewrite Hs, Ha, Hu. repeat split.
    pose proof (reachablePage_running html p Hr Hc) as Hrun.
    unfold timersKept in Hk. unfold stopDataSimulation. simpl.
    destruct (updateInterval (server p)) as [i|]; [|congruence]. simpl.
    rewrite Hk. apply difference_diag_L.
  - intros. split; reflexivity.
Qed.




(** What a click on the subscribe button does, on every page of a
    session.  With no id in the field it asks for one.  With the id the
    page is subscribed to, it unsubscribes: the button is a toggle.
    With another id it first drops the subscription the page holds and
    empties the log; then, when the id is that of a Variable, the page
    is subscribed to it with a new arrow function, and otherwise the
    page is left with no subscription at all and an error message: a
    failed switch loses the old subscription. *)
Theorem handleSubscribe_spec (html : Dom) (p : Page) :
  reachablePage html p ->
  let id := trim (nodeIdInput (dom p)) in
  let d0 := match subscribedNodeId p with
            | Some _ => setEntries [] (dom p)
            | None => dom p
            end in
  (allWhiteSpace (nodeIdInput (dom p)) = true /\
   handleSubscribe p =
   setDom (displayClientMessage "Please enter a Node ID to subscribe."
             ErrorMessage (dom p)) p)
  \/ (subscribedNodeId p = Some id /\
      handleSubscribe p =
      mkPage (setSubscriptions ∅ (server p)) (isConnected p) None (closures p)
        (updateClientButtons (isConnected p) None
           (displayClientMessage ("Unsubscribed from '" ++ id ++ "'.") InfoMessage
              (setEntries [NoData] (setLogDisplay "none" (dom p))))))
  \/ (allWhiteSpace (nodeIdInput (dom p)) = false /\
      subscribedNodeId p <> Some id /\
      exists n, resolvesToVariable id (addressSpace (server p)) n /\
      handleSubscribe p =
      mkPage (setSubscriptions {[ id := closures p ]} (server p)) (isConnected p)
        (Some id) (S (closures p))
        (updateClientButtons (isConnected p) (Some id)
           (displayClientMessage ("Subscribed to '" ++ browseName n ++ "'.")
              SuccessMessage
              (setSubscribedDisplay id (setLogDisplay "block" d0)))))
  \/ (allWhiteSpace (nodeIdInput (dom p)) = false /\
      subscribedNodeId p <> Some id /\
      ~ In id nodesToDisplay /\
      handleSubscribe p =
      mkPage (setSubscriptions ∅ (server p)) (isConnected p) None (S (closures p))
        (updateClientButtons (isConnected p) None
           (displayClientMessage
              ("Subscription failed: Cannot subscribe to '" ++ id
               ++ "'. Not a Variable.")
              ErrorMessage d0))).
Proof.
  intros Hr id d0.
  pose proof (reachablePage_oneSubscription html p Hr) as Hone.
  pose proof (reachablePage_tree html p Hr) as Htree.
  assert (Hblank : forall b, allWhiteSpace (nodeIdInput (dom p)) = b <->
                             String.eqb id "" = b).
  { intros b. subst id. now rewrite trim_eqb. }
  destruct (handleSubscribe_cases p Hone Htree) as
    [(E & H)|[(E & Hs & H)|[(E & Hs & n & Hn & H)|(E & Hs & Hno & H)]]].
  - left. split; [|exact H]. apply Hblank. now apply String.eqb_eq.
  - right; left. auto.
  - right; right; left. split; [|eauto].
    apply Hblank. now apply String.eqb_neq.
  - right; right; right. split; [|split; [exact Hs|split; [|exact H]]].
    + apply Hblank. now apply String.eqb_neq.
    + intros Hin. destruct (nodesToDisplay_Variable _ _ Htree Hin) as (n & Hn).
      exact (Hno n Hn).
Qed.

(** ** The subscription log *)

Lemma prependEntry_firstn (v : JsValue) (t : option string) (l : list LogItem) :
  (length l <= 10)%nat ->
  prependEntry v t l = firstn 10 (Entry (entryText v t) :: l).
Proof.
  intros H. unfold prependEntry. cbv zeta.
  do 11 (destruct l as [|? l]; [reflexivity|]). simpl in H. lia.
Qed.

Lemma prependEntry_length (v : JsValue) (t : option string) (l : list LogItem) :
  (length l <= 10)%nat -> (length (prependEntry v t l) <= 10)%nat.
Proof.
  intros H. rewrite (prependEntry_firstn v t l H). rewrite length_firstn. lia.
Qed.

Lemma deliver_length (cs : list Call) (l : list LogItem) :
  (length l <= 10)%nat -> (length (deliver cs l) <= 10)%nat.
Proof.
  revert l. induction cs as [|c cs IH]; intros l H; [exact H|].
  simpl. apply IH. unfold called.
  destruct (callee c); [now apply prependEntry_length|exact H].
Qed.

Lemma callsFrom_app (w w' : World) (l : list Call) :
  calls w' = (calls w ++ l)%list -> callsFrom (length (calls w)) w' = l.
Proof. intros E. unfold callsFrom. rewrite E. apply drop_app_length. Qed.

Lemma served_entries (w' : World) (p : Page) (l : list Call) :
  calls w' = (calls (server p) ++ l)%list ->
  subscriptionEntries (served w' p) = deliver l (subscriptionEntries (dom p)).
Proof. intros E. unfold served. simpl. now rewrite (callsFrom_app _ _ _ E). Qed.

(** The entries after an event that is not a click on connect,
    disconnect or subscribe: those the calls of the server wrote. *)
Lemma handle_quiet_entries (e : Event) (p : Page) :
  quiet e = true ->
  exists l, subscriptionEntries (dom (handle e p)) =
            deliver l (subscriptionEntries (dom p)).
Proof.
  destruct e as [| |o|now o| |id|s|s|i r1 r2 t1 t2]; try discriminate;
    intros _; simpl; try (now exists []).
  - destruct (readDisabled _); [now exists []|].
    unfold handleRead. destruct (String.eqb _ _); [now exists []|].
    destruct (readNode _ _); now exists [].
  - destruct (writeDisabled _); [now exists []|].
    unfold handleWrite. destruct (_ || _); [now exists []|].
    destruct (exec_subscribed
                (OpWrite now (trim (nodeIdInput (dom p)))
                   (trim (nodeValueInput (dom p)))) (server p)) as (l & E & _).
    simpl in E. destruct (writeNode _ _ _ _) as [r w]. simpl in E.
    exists l. destruct (Result.success r); simpl; now apply served_entries.
  - destruct (fires i (server p)) eqn:Ef; [|now exists []].
    destruct (exec_subscribed (OpTick i r1 r2 t1 t2) (server p)) as (l & E & _).
    simpl in E. rewrite Ef in E.
    exists l. unfold timerTick.
    destruct (isConnected p); simpl; now apply served_entries.
Qed.

Lemma reachablePage_entries (html : Dom) (p : Page) :
  (length (subscriptionEntries html) <= 10)%nat ->
  reachablePage html p ->
  (length (subscriptionEntries (dom p)) <= 10)%nat.
Proof.
  intros Hh.
  induction 1 as [t1 t2 t3 t4|e p Hr IH] using reachablePage_ind; [exact Hh|].
  pose proof (reachablePage_oneSubscription html p Hr) as Hone.
  destruct (quiet e) eqn:Eq.
  - destruct (handle_quiet_entries e p Eq) as (l & ->). now apply deliver_length.
  - destruct e; try discriminate; simpl.
    + destruct (connectDisabled _); [exact IH|].
      destruct (bool_dec (isConnected p) true) as [Ec|Ec%not_true_is_false].
      * now rewrite (handleConnect_connected p Ec).
      * now rewrite (handleConnect_disconnected p Ec).
    + destruct (disconnectDisabled _); [exact IH|].
      destruct (bool_dec (isConnected p) true) as [Ec|Ec%not_true_is_false].
      * rewrite (handleDisconnect_connected p Hone Ec). simpl. lia.
      * now rewrite (handleDisconnect_disconnected p Ec).
    + destruct (subscribeDisabled _); [exact IH|].
      destruct (handleSubscribe_cases p Hone (reachablePage_tree html p Hr)) as
        [(_ & ->)|[(_ & _ & ->)|[(_ & _ & n & Hn & ->)|(_ & _ & _ & ->)]]];
        simpl; try exact IH; try lia;
        destruct (subscribedNodeId p); simpl; try exact IH; lia.
Qed.

Lemma tick_calls (r1 r2 : Number) (t1 t2 : string) (w : World) :
  constructedTree (addressSpace w) ->
  calls (tick r1 r2 t1 t2 w) =
  (calls w
   ++ match subscriptions w !! "ns=1;s=Temperature" with
      | Some cb =>
          [mkCall (Own cb) (JStr (toFixed2 (add (mul r1 (ofZ 10)) (ofZ 20)))) (Some t1)]
      | None => []
      end
   ++ match subscriptions w !! "ns=1;s=Pressure" with
      | Some cb =>
          [mkCall (Own cb) (JStr (toFixed2 (add (mul r2 (ofZ 5)) (ofZ 98)))) (Some t2)]
      | None => []
      end)%list.
Proof.
  intros (vS & tS & vD & tD & vT & tT & vP & tP & E).
  unfold tick.
  rewrite (simulate_Temperature 10 20 r1 t1 w _ _ _ _ _ _ _ _ E). cbv zeta.
  set (v1 := JStr (toFixed2 (add (mul r1 (ofZ 10)) (ofZ 20)))).
  set (w1 := notify "ns=1;s=Temperature" v1 (Some t1) _).
  assert (Es1 : addressSpace w1 = spaceWith v1 t1 vP tP vS tS vD tD).
  { unfold w1. now rewrite addressSpace_notify. }
  rewrite (simulate_Pressure 5 98 r2 t2 w1 _ _ _ _ _ _ _ _ Es1). cbv zeta.
  rewrite notify_calls by reflexivity. simpl.
  unfold w1 at 1 2. rewrite subscriptions_notify. simpl.
  unfold w1. rewrite notify_calls by reflexivity. simpl.
  now rewrite <- app_assoc.
Qed.

(** The subscription log shows the ten newest notifications, newest
    first.  On a document whose log starts with at most ten children
    the log of every page of a session has at most ten; and a tick of
    the simulation puts one entry on top of it when the page is
    subscribed to Temperature or to Pressure, with the value and the
    clock reading the tick gave that node, dropping the oldest child
    when there are ten already, and none when the page is subscribed to
    Status, to DeviceName or to nothing. *)
Theorem subscription_log (html : Dom) (p : Page) :
  reachablePage html p ->
  (length (subscriptionEntries html) <= 10)%nat ->
  (length (subscriptionEntries (dom p)) <= 10)%nat
  /\ forall i r1 r2 t1 t2,
       fires i (server p) = true ->
       subscriptionEntries (dom (handle (TimerFires i r1 r2 t1 t2) p)) =
       match subscribedNodeId p with
       | Some id =>
           if String.eqb id "ns=1;s=Temperature" then
             firstn 10
               (Entry (entryText
                         (JStr (toFixed2 (add (mul r1 (ofZ 10)) (ofZ 20))))
                         (Some t1))
                :: subscriptionEntries (dom p))
           else if String.eqb id "ns=1;s=Pressure" then
             firstn 10
               (Entry (entryText
                         (JStr (toFixed2 (add (mul r2 (ofZ 5)) (ofZ 98))))
                         (Some t2))
                :: subscriptionEntries (dom p))
           else subscriptionEntries (dom p)
       | None => subscriptionEntries (dom p)
       end.
Proof.
  intros Hr Hh.
  pose proof (reachablePage_entries html p Hh Hr) as Hlen.
  split; [exact Hlen|].
  intros i r1 r2 t1 t2 Hf. simpl. rewrite Hf.
  pose proof (tick_calls r1 r2 t1 t2 (server p) (reachablePage_tree html p Hr)) as Hc.
  assert (He : subscriptionEntries (dom (timerTick r1 r2 t1 t2 p)) =
               subscriptionEntries (served (tick r1 r2 t1 t2 (server p)) p)).
  { unfold timerTick. destruct (isConnected p); reflexivity. }
  rewrite He, (served_entries _ _ _ Hc).
  pose proof (reachablePage_oneSubscription html p Hr) as Hone.
  unfold oneSubscription in Hone.
  destruct (subscribedNodeId p) as [id|].
  - destruct Hone as (Hin & cb & _ & ->).
    destruct Hin as [<-|[<-|[<-|[<-|[]]]]]; simpl;
      try reflexivity; now apply prependEntry_firstn.
  - rewrite Hone. reflexivity.
Qed.

(** ** Reading and writing through the page *)

Lemma readNode_page (id : string) (w : World) :
  constructedTree (addressSpace w) ->
  (exists r, readNode id w = Some r) <-> In id nodesToDisplay.
Proof.
  intros Htree. split.
  - intros (r & Hr). apply readNode_Some in Hr as (n & Hn & _).
    eapply constructedTree_Variable; eauto.
  - intros Hin. destruct (nodesToDisplay_Variable _ _ Htree Hin) as (n & Hn).
    eexists. apply readNode_Some. exists n. split; [exact Hn|reflexivity].
Qed.

(** A click on the read button changes nothing but the message.  On
    every page of a session the message is the request for an id when
    the field holds white space only, the values read when the trimmed
    text is the id of one of the four Variables, and the failure
    message otherwise. *)
Theorem handleRead_spec (html : Dom) (p : Page) (offsetMinutes : Z) :
  reachablePage html p ->
  let id := trim (nodeIdInput (dom p)) in
  (allWhiteSpace (nodeIdInput (dom p)) = true /\
   handleRead offsetMinutes p =
   setDom (displayClientMessage "Please enter a Node ID to read." ErrorMessage
             (dom p)) p)
  \/ (In id nodesToDisplay /\
      exists r, readNode id (server p) = Some r /\
      handleRead offsetMinutes p =
      setDom
        (displayClientMessage
           ("Read Node '" ++ id ++ "': Value = " ++ toText (ReadResult.value r)
            ++ ", Data Type = " ++ orUndefined (ReadResult.dataType r)
            ++ ", Access = " ++ orUndefined (ReadResult.accessLevel r)
            ++ ", UTC Timestamp = " ++ utcTimeString (ReadResult.timestamp r)
            ++ " UTC, Local Timestamp = "
            ++ formatUtcToLocalTime (ReadResult.timestamp r)
            ++ " " ++ getLocalUtcOffset offsetMinutes)
           SuccessMessage (dom p)) p)
  \/ (allWhiteSpace (nodeIdInput (dom p)) = false /\
      ~ In id nodesToDisplay /\
      handleRead offsetMinutes p =
      setDom
        (displayClientMessage
           ("Failed to read Node '" ++ id
            ++ "'. Node not found or not a variable.")
           ErrorMessage (dom p)) p).
Proof.
  intros Hr id.
  pose proof (readNode_page id (server p) (reachablePage_tree html p Hr)) as Hpage.
  unfold handleRead. fold id. rewrite <- (trim_eqb (nodeIdInput (dom p))). fold id.
  destruct (String.eqb id ""); [left; auto|right].
  destruct (readNode id (server p)) as [r|] eqn:Er.
  - left. split; [apply Hpage; eauto|]. exists r. auto.
  - right. split; [reflexivity|]. split; [|reflexivity].
    intros Hin. apply Hpage in Hin as (r & Hr'). discriminate.
Qed.

Lemma served_same (p : Page) : served (server p) p = dom p.
Proof.
  unfold served, callsFrom. rewrite drop_all. simpl. destruct (dom p); reflexivity.
Qed.

(** A click on the write button, on every page of a session.  When one
    of the two fields holds white space only the page asks for both and
    the server is not called.  Otherwise the server is asked to write
    the trimmed value to the trimmed id; the write succeeds exactly
    when the id is that of Temperature or Pressure and the value starts
    with a number, and then the value field is emptied, the log gets
    an entry when the page is subscribed to that id, and the node
    display and the tree are not redrawn; a write that fails changes
    nothing but the message. *)
Theorem handleWrite_spec (html : Dom) (p : Page) (now : string) (offsetMinutes : Z) :
  reachablePage html p ->
  (length (subscriptionEntries html) <= 10)%nat ->
  let id := trim (nodeIdInput (dom p)) in
  let newValue := trim (nodeValueInput (dom p)) in
  let p' := handleWrite now offsetMinutes p in
  ((allWhiteSpace (nodeIdInput (dom p)) = true \/
    allWhiteSpace (nodeValueInput (dom p)) = true) /\
   p' = setDom
          (displayClientMessage "Please enter both a Node ID and a value to write."
             ErrorMessage (dom p)) p)
  \/ (allWhiteSpace (nodeIdInput (dom p)) = false /\
      allWhiteSpace (nodeValueInput (dom p)) = false /\
      (id = "ns=1;s=Temperature" \/ id = "ns=1;s=Pressure") /\
      parseFloat newValue <> NaN /\
      server p' = snd (writeNode now id newValue (server p)) /\
      readNode id (server p') =
        Some (ReadResult.mk (JNum (parseFloat newValue)) (Some "Float")
                (Some "ReadWrite") (Some now)) /\
      isConnected p' = isConnected p /\
      subscribedNodeId p' = subscribedNodeId p /\
      nodeValueInput (dom p') = "" /\
      nodeIdInput (dom p') = nodeIdInput (dom p) /\
      (exists m, clientMessageBox (dom p') = Some (m, SuccessMessage)) /\
      subscriptionEntries (dom p') =
        (if bool_decide (subscribedNodeId p = Some id) then
           firstn 10
             (Entry (entryText (JNum (parseFloat newValue)) (Some now))
              :: subscriptionEntries (dom p))
         else subscriptionEntries (dom p)) /\
      serverNodesDisplay (dom p') = serverNodesDisplay (dom p) /\
      addressSpaceTree (dom p') = addressSpaceTree (dom p))
  \/ (allWhiteSpace (nodeIdInput (dom p)) = false /\
      allWhiteSpace (nodeValueInput (dom p)) = false /\
      ~ ((id = "ns=1;s=Temperature" \/ id = "ns=1;s=Pressure") /\
         parseFloat newValue <> NaN) /\
      exists msg,
        WriteFailure id newValue (addressSpace (server p)) msg /\
        p' = setDom
               (displayClientMessage
                  ("Failed to write to Node '" ++ id ++ "': " ++ msg)
                  ErrorMessage (dom p)) p).
Proof.
  intros Hr Hh id newValue p'. subst p'.
  pose proof (reachablePage_tree html p Hr) as Htree.
  pose proof (reachablePage_oneSubscription html p Hr) as Hone.
  pose proof (reachablePage_entries html p Hh Hr) as Hlen.
  unfold handleWrite. fold id newValue.
  rewrite <- (trim_eqb (nodeIdInput (dom p))), <- (trim_eqb (nodeValueInput (dom p))).
  fold id newValue.
  destruct (String.eqb id "") eqn:Ei; [left; auto|].
  destruct (String.eqb newValue "") eqn:Ev; [left; auto|]. right. simpl.
  destruct (writeNode_cases now id newValue (server p)) as
    [(msg & Hfail & E)|(n & v & Hn & Ha & Hcv & E)].
  - right. rewrite E. simpl. split; [reflexivity|]. split; [reflexivity|]. split.
    + intros [Hid Hnum].
      assert (Hok : exists n, resolvesToVariable id (addressSpace (server p)) n
                              /\ accessLevel n = Some "ReadWrite"
                              /\ dataType n = Some "Float").
      { destruct Htree as (vS & tS & vD & tD & vT & tT & vP & tP & ->).
        destruct Hid as [->| ->]; eexists; repeat split. }
      destruct Hok as (n & Hn & Ha & Ht).
      destruct Hfail as [Hno|m Hm Ham|m Hm _ Htm Hpm].
      * exact (Hno n Hn).
      * destruct Hn as [Hf _], Hm as [Hf' _]. congruence.
      * contradiction.
    + exists msg. split; [exact Hfail|]. now rewrite served_same.
  - left.
    pose proof (constructedTree_ReadWrite id _ n Htree Hn Ha) as Hid.
    assert (Ht : dataType n = Some "Float").
    { destruct Htree as (vS & tS & vD & tD & vT & tT & vP & tP & Es).
      destruct Hn as [Hf _]. rewrite Es in Hf.
      destruct Hid as [-> | ->]; injection Hf as <-; reflexivity. }
    assert (Hplain : inherited id = false) by (destruct Hid as [-> | ->]; reflexivity).
    rewrite Ht in Hcv. unfold convert in Hcv.
    destruct (isNaN (parseFloat newValue)) eqn:Enan; [discriminate|].
    injection Hcv as <-.
    assert (Hnum : parseFloat newValue <> NaN).
    { intros Hx. rewrite Hx in Enan. discriminate. }
    rewrite E. simpl.
    set (w' := notify id (JNum (parseFloat newValue)) (Some now) _).
    assert (Hcalls : calls w' =
                     (calls (server p)
                      ++ match subscriptions (server p) !! id with
                         | Some cb => [mkCall (Own cb) (JNum (parseFloat newValue)) (Some now)]
                         | None => []
                         end)%list).
    { unfold w'. now rewrite (notify_calls _ _ _ _ Hplain). }
    split; [reflexivity|]. split; [reflexivity|]. split; [exact Hid|].
    split; [exact Hnum|]. split; [reflexivity|]. split.
    { unfold readNode, w'. rewrite addressSpace_notify. simpl.
      destruct Hn as [Hf Hc]. rewrite (findNode_modifyNode _ _ _ _ Hf).
      replace (nodeClass (update (JNum (parseFloat newValue)) now n))
        with (nodeClass n) by (destruct n; reflexivity).
      rewrite Hc. simpl. rewrite <- Ht, <- Ha. destruct n; reflexivity. }
    split; [reflexivity|]. split; [reflexivity|]. split; [reflexivity|].
    split; [reflexivity|]. split; [eexists; reflexivity|].
    split; [|split; reflexivity].
    rewrite (callsFrom_app _ _ _ Hcalls).
    unfold oneSubscription in Hone.
    destruct (subscribedNodeId p) as [id0|].
    + destruct Hone as (_ & cb & _ & ->).
      destruct (bool_decide_reflect (Some id0 = Some id)) as [[= ->]|Hne].
      * rewrite lookup_singleton_eq.
        apply (prependEntry_firstn (JNum (parseFloat newValue)) (Some now) _ Hlen).
      * rewrite lookup_singleton_ne by congruence. reflexivity.
    + rewrite Hone, lookup_empty.
      destruct (bool_decide_reflect (@None string = Some id)); [discriminate|reflexivity].
Qed.

(** ** A tick after a write *)

Lemma tick_spaceWith (r1 r2 : Number) (t1 t2 : string) (w : World)
    vT tT vP tP vS tS vD tD :
  addressSpace w = spaceWith vT tT vP tP vS tS vD tD ->
  addressSpace (tick r1 r2 t1 t2 w) =
  spaceWith (JStr (toFixed2 (add (mul r1 (ofZ 10)) (ofZ 20)))) t1
            (JStr (toFixed2 (add (mul r2 (ofZ 5)) (ofZ 98)))) t2 vS tS vD tD.
Proof.
  intros E. unfold tick.
  rewrite (simulate_Temperature 10 20 r1 t1 w _ _ _ _ _ _ _ _ E). cbv zeta.
  set (w1 := notify "ns=1;s=Temperature" _ (Some t1) _).
  assert (Es1 : addressSpace w1 =
                spaceWith (JStr (toFixed2 (add (mul r1 (ofZ 10)) (ofZ 20)))) t1
                  vP tP vS tS vD tD).
  { unfold w1. now rewrite addressSpace_notify. }
  rewrite (simulate_Pressure 5 98 r2 t2 w1 _ _ _ _ _ _ _ _ Es1). cbv zeta.
  now rewrite addressSpace_notify.
Qed.

(** The simulation erases what was written: on a server reachable from
    the constructor, the tree after a write followed by a tick is the
    tree after the tick alone, whatever was written and whether the
    write succeeded.  (The nodes a write can change are the two the
    tick assigns.) *)
Theorem tick_after_write (now id raw : string) (r1 r2 : Number) (t1 t2 : string)
    (w : World) :
  reachable w ->
  addressSpace (tick r1 r2 t1 t2 (snd (writeNode now id raw w))) =
    addressSpace (tick r1 r2 t1 t2 w)
  /\ forall id',
       readNode id' (tick r1 r2 t1 t2 (snd (writeNode now id raw w))) =
       readNode id' (tick r1 r2 t1 t2 w).
Proof.
  intros Hr.
  assert (H : addressSpace (tick r1 r2 t1 t2 (snd (writeNode now id raw w))) =
              addressSpace (tick r1 r2 t1 t2 w)).
  { pose proof (reachable_constructedTree w Hr) as Htree.
    destruct (writeNode_cases now id raw w) as
      [(msg & _ & ->)|(n & v & Hn & Ha & _ & ->)]; [reflexivity|].
    pose proof (constructedTree_ReadWrite id _ n Htree Hn Ha) as Hid.
    destruct Htree as (vS & tS & vD & tD & vT & tT & vP & tP & E).
    rewrite (tick_spaceWith r1 r2 t1 t2 w _ _ _ _ _ _ _ _ E). simpl.
    destruct Hid as [-> | ->].
    - apply (tick_spaceWith r1 r2 t1 t2 _ v now vP tP).
      rewrite addressSpace_notify. simpl. now rewrite E.
    - apply (tick_spaceWith r1 r2 t1 t2 _ vT tT v now).
      rewrite addressSpace_notify. simpl. now rewrite E. }
  split; [exact H|]. intros id'. unfold readNode. now rewrite H.
Qed.

(** ** The constructor's tree is well-formed *)

Lemma wellFormed_spaceWith vT tT vP tP vS tS vD tD :
  wellFormed (spaceWith vT tT vP tP vS tS vD tD).
Proof.
  split; [|split].
  - simpl. repeat (apply NoDup_cons; split;
                   [rewrite ?elem_of_cons, elem_of_nil; intros H;
                    repeat (destruct H as [H|H]; [discriminate H|]); exact H|]).
    apply NoDup_nil_2.
  - intros k Hk. simpl in Hk.
    repeat (destruct Hk as [<-|Hk]; [reflexivity|]). destruct Hk.
  - intros k n Hk. simpl in Hk.
    repeat (destruct Hk as [[= <- <-]|Hk]; [reflexivity|]). destruct Hk.
Qed.

Lemma wellFormed_reachable (w : World) :
  reachable w -> wellFormed (addressSpace w).
Proof.
  intros Hr.
  destruct (reachable_constructedTree w Hr)
    as (vS & tS & vD & tD & vT & tT & vP & tP & ->).
  apply wellFormed_spaceWith.
Qed.

(** The data model is kept: the tree of every server reachable from the
    constructor is well-formed, with the six node ids of the
    constructor, each a key once; [findNode] finds a node exactly for
    these ids, and the node it finds carries the id it was asked for. *)
Theorem addressSpace_wellFormed (w : World) :
  reachable w ->
  wellFormed (addressSpace w)
  /\ keys (addressSpace w) =
     [ "ns=0;i=84"; "ns=1;s=Folder1"; "ns=1;s=Temperature"; "ns=1;s=Pressure";
       "ns=1;s=Status"; "ns=1;s=DeviceName" ]
  /\ (forall id n, findNode id (addressSpace w) = Some (Own n) -> nodeId n = id)
  /\ (forall id, (exists n, findNode id (addressSpace w) = Some (Own n)) <->
                 In id (keys (addressSpace w))).
Proof.
  intros Hr. pose proof (wellFormed_reachable w Hr) as Hwf.
  split; [exact Hwf|].
  destruct (reachable_constructedTree w Hr)
    as (vS & tS & vD & tD & vT & tT & vP & tP & E).
  split; [now rewrite E|]. split.
  - intros id n Hf. apply Hwf. now apply findNode_searchOrder.
  - intros id. split.
    + intros (n & Hf). eapply findNode_In_keys; eauto.
    + rewrite E. intros Hin. simpl in Hin.
      repeat (destruct Hin as [<-|Hin]; [eexists; reflexivity|]). destruct Hin.
Qed.

(** ** The node display *)

Lemma updateServerNodeDisplay_spaceWith (w : World) (d : Dom)
    vT tT vP tP vS tS vD tD :
  addressSpace w = spaceWith vT tT vP tP vS tS vD tD ->
  serverNodesDisplay (updateServerNodeDisplay w d) =
  [ mkNodeLine "Temperature" (toText vT) (utcTimeString (Some tT) ++ " UTC");
    mkNodeLine "Pressure" (toText vP) (utcTimeString (Some tP) ++ " UTC");
    mkNodeLine "Status" (toText vS) (utcTimeString (Some tS) ++ " UTC");
    mkNodeLine "DeviceName" (toText vD) (utcTimeString (Some tD) ++ " UTC") ].
Proof. intros E. unfold updateServerNodeDisplay. rewrite E. reflexivity. Qed.

(** The display after an event is the one before it, or the one
    [updateServerNodeDisplay] draws for the server the event leaves. *)
Lemma handle_display (html : Dom) (e : Event) (p : Page) :
  reachablePage html p ->
  serverNodesDisplay (dom (handle e p)) = serverNodesDisplay (dom p)
  \/ forall d, serverNodesDisplay (dom (handle e p)) =
               serverNodesDisplay (updateServerNodeDisplay (server (handle e p)) d).
Proof.
  intros Hr.
  pose proof (reachablePage_oneSubscription html p Hr) as Hone.
  destruct e as [| |o|now o| |id|s|s|i r1 r2 t1 t2]; simpl; auto.
  - destruct (connectDisabled _); [now left|].
    destruct (bool_dec (isConnected p) true) as [Ec|Ec%not_true_is_false].
    + rewrite (handleConnect_connected p Ec). now left.
    + rewrite (handleConnect_disconnected p Ec). right. reflexivity.
  - destruct (disconnectDisabled _); [now left|].
    destruct (bool_dec (isConnected p) true) as [Ec|Ec%not_true_is_false].
    + rewrite (handleDisconnect_connected p Hone Ec). now left.
    + rewrite (handleDisconnect_disconnected p Ec). now left.
  - destruct (readDisabled _); [now left|]. left.
    unfold handleRead. destruct (String.eqb _ _); [reflexivity|].
    destruct (readNode _ _); reflexivity.
  - destruct (writeDisabled _); [now left|]. left.
    unfold handleWrite. destruct (_ || _); [reflexivity|].
    destruct (writeNode _ _ _ _) as [r w].
    destruct (Result.success r); reflexivity.
  - destruct (subscribeDisabled _); [now left|]. left.
    destruct (handleSubscribe_cases p Hone (reachablePage_tree html p Hr)) as
      [(_ & ->)|[(_ & _ & ->)|[(_ & _ & n & Hn & ->)|(_ & _ & _ & ->)]]];
      try reflexivity; destruct (subscribedNodeId p); reflexivity.
  - destruct (fires i (server p)); [|now left]. right. intros d.
    unfold timerTick. destruct (isConnected p); reflexivity.
Qed.

(** The node display of every page of a session shows the four
    Variables, in the order Temperature, Pressure, Status, DeviceName:
    for Status and DeviceName what the server holds, which never
    changes, and for Temperature and Pressure a value and a clock
    reading that were drawn at [init], at a connect or at a tick; after
    a tick all four lines show what the server holds. *)
Theorem page_node_display (html : Dom) (p : Page) :
  reachablePage html p ->
  exists vT tT vP tP tS tD,
    serverNodesDisplay (dom p) =
    [ mkNodeLine "Temperature" (toText vT) (utcTimeString (Some tT) ++ " UTC");
      mkNodeLine "Pressure" (toText vP) (utcTimeString (Some tP) ++ " UTC");
      mkNodeLine "Status" "true" (utcTimeString (Some tS) ++ " UTC");
      mkNodeLine "DeviceName" "SensorUnit-A" (utcTimeString (Some tD) ++ " UTC") ]
    /\ readNode "ns=1;s=Status" (server p) =
       Some (ReadResult.mk (JBool true) (Some "Boolean") (Some "ReadOnly") (Some tS))
    /\ readNode "ns=1;s=DeviceName" (server p) =
       Some (ReadResult.mk (JStr "SensorUnit-A") (Some "String") (Some "ReadOnly")
               (Some tD))
    /\ forall i r1 r2 t1 t2,
         fires i (server p) = true ->
         let p' := handle (TimerFires i r1 r2 t1 t2) p in
         serverNodesDisplay (dom p') =
         [ mkNodeLine "Temperature"
             (toFixed2 (add (mul r1 (ofZ 10)) (ofZ 20)))
             (utcTimeString (Some t1) ++ " UTC");
           mkNodeLine "Pressure"
             (toFixed2 (add (mul r2 (ofZ 5)) (ofZ 98)))
             (utcTimeString (Some t2) ++ " UTC");
           mkNodeLine "Status" "true" (utcTimeString (Some tS) ++ " UTC");
           mkNodeLine "DeviceName" "SensorUnit-A" (utcTimeString (Some tD) ++ " UTC") ]
         /\ readNode "ns=1;s=Temperature" (server p') =
            Some (ReadResult.mk (JStr (toFixed2 (add (mul r1 (ofZ 10)) (ofZ 20))))
                    (Some "Float") (Some "ReadWrite") (Some t1))
         /\ readNode "ns=1;s=Pressure" (server p') =
            Some (ReadResult.mk (JStr (toFixed2 (add (mul r2 (ofZ 5)) (ofZ 98))))
                    (Some "Float") (Some "ReadWrite") (Some t2)).
Proof.
  intros Hr.
  assert (Hinv : exists tS tD,
            treeWith (JBool true) tS (JStr "SensorUnit-A") tD (addressSpace (server p))
            /\ exists vT tT vP tP,
                 serverNodesDisplay (dom p) =
                 [ mkNodeLine "Temperature" (toText vT) (utcTimeString (Some tT) ++ " UTC");
                   mkNodeLine "Pressure" (toText vP) (utcTimeString (Some tP) ++ " UTC");
                   mkNodeLine "Status" "true" (utcTimeString (Some tS) ++ " UTC");
                   mkNodeLine "DeviceName" "SensorUnit-A"
                     (utcTimeString (Some tD) ++ " UTC") ]).
  { induction Hr as [t1 t2 t3 t4|e p Hr IH] using reachablePage_ind.
    - exists t3, t4. split.
      + eexists _, _, _, _. reflexivity.
      + eexists _, _, _, _. reflexivity.
    - destruct IH as (tS & tD & Htree & vT & tT & vP & tP & Hd).
      exists tS, tD.
      assert (Htree' : treeWith (JBool true) tS (JStr "SensorUnit-A") tD
                         (addressSpace (server (handle e p)))).
      { destruct (server_handle e p) as (ops & ->). now apply run_treeWith. }
      split; [exact Htree'|].
      destruct (handle_display html e p Hr) as [->|H].
      + eauto 6.
      + destruct Htree' as (vT' & tT' & vP' & tP' & E).
        exists vT', tT', vP', tP'. rewrite (H (dom p)).
        apply (updateServerNodeDisplay_spaceWith _ _ _ _ _ _ _ _ _ _ E). }
  destruct Hinv as (tS & tD & (vT0 & tT0 & vP0 & tP0 & E) & vT & tT & vP & tP & Hd).
  exists vT, tT, vP, tP, tS, tD. split; [exact Hd|].
  destruct (readNode_spaceWith (server p) _ _ _ _ _ _ _ _ E) as (_ & _ & RS & RD).
  split; [exact RS|]. split; [exact RD|].
  intros i r1 r2 t1 t2 Hf p'. subst p'. simpl. rewrite Hf.
  pose proof (tick_spaceWith r1 r2 t1 t2 (server p) _ _ _ _ _ _ _ _ E) as Et.
  assert (Es : server (timerTick r1 r2 t1 t2 p) = tick r1 r2 t1 t2 (server p)).
  { unfold timerTick. destruct (isConnected p); reflexivity. }
  assert (Ed : forall d, serverNodesDisplay (dom (timerTick r1 r2 t1 t2 p)) =
               serverNodesDisplay
                 (updateServerNodeDisplay (tick r1 r2 t1 t2 (server p)) d)).
  { intros d. unfold timerTick. destruct (isConnected p); reflexivity. }
  rewrite Es, (Ed (dom p)).
  rewrite (updateServerNodeDisplay_spaceWith _ _ _ _ _ _ _ _ _ _ Et).
  destruct (readNode_spaceWith _ _ _ _ _ _ _ _ _ Et) as (RT' & RP' & _ & _).
  split; [reflexivity|]. split; [exact RT'|exact RP'].
Qed.

(** ** [unsubscribe] on node identifiers *)

(** No node identifier is the name of an inherited property: all of
    them begin with [n]. *)
Lemma isNodeId_plain (id : string) : isNodeId id = true -> inherited id = false.
Proof.
  destruct id as [|[[] [] [] [] [] [] [] []] r]; simpl; try discriminate.
  intros _. reflexivity.
Qed.

(** The ids the page hands to [unsubscribe] are node identifiers: it
    passes [subscribedNodeId], which holds one of the four Variables. *)
Lemma subscribedNodeId_isNodeId (html : Dom) (p : Page) (id : string) :
  reachablePage html p -> subscribedNodeId p = Some id -> isNodeId id = true.
Proof.
  intros Hr Hs. pose proof (reachablePage_oneSubscription html p Hr) as Hone.
  unfold oneSubscription in Hone. rewrite Hs in Hone.
  destruct Hone as ([<-|[<-|[<-|[<-|[]]]]] & _); reflexivity.
Qed.

(** C8.  For every node identifier, [unsubscribe] fails if and only if
    the registry holds no callback for it; it then returns the failure
    result and leaves the server, the registry included, as it was.
    When a callback is subscribed it returns the success result,
    removes exactly that entry and leaves every other entry of the
    registry, the address space and the calls made as they were. *)
Theorem unsubscribe_spec (id : string) (w : World) :
  isNodeId id = true ->
  (Result.success (fst (unsubscribe id w)) = false <-> subscriptions w !! id = None)
  /\ (subscriptions w !! id = None ->
      unsubscribe id w =
      (Result.failure ("No active subscription for '" ++ id ++ "'."), w))
  /\ (forall cb, subscriptions w !! id = Some cb ->
      unsubscribe id w =
      (Result.ok ("Unsubscribed from '" ++ id ++ "'."),
       setSubscriptions (delete id (subscriptions w)) w)
      /\ subscriptions (snd (unsubscribe id w)) !! id = None
      /\ (forall k, k <> id ->
          subscriptions (snd (unsubscribe id w)) !! k = subscriptions w !! k)
      /\ addressSpace (snd (unsubscribe id w)) = addressSpace w
      /\ updateInterval (snd (unsubscribe id w)) = updateInterval w
      /\ calls (snd (unsubscribe id w)) = calls w).
Proof.
  intros Hid. pose proof (isNodeId_plain id Hid) as Hi.
  unfold unsubscribe. rewrite (getProp_plain _ _ Hi).
  destruct (subscriptions w !! id) as [cb|] eqn:E; simpl.
  - split; [split; discriminate|]. split; [discriminate|].
    intros cb' _. repeat split.
    + apply lookup_delete_eq.
    + intros k Hk. now apply lookup_delete_ne.
  - split; [split; reflexivity|]. split; [reflexivity|]. discriminate.
Qed.
End Server.

(** ** The constructed server *)

Lemma plainKeys_spaceWith vT tT vP tP vS tS vD tD :
  plainKeys (spaceWith vT tT vP tP vS tS vD tD).
Proof.
  intros k Hk. simpl in Hk.
  repeat (destruct Hk as [<-|Hk]; [reflexivity|]). destruct Hk.
Qed.

Lemma plainKeys_switchSpace : plainKeys (addressSpace switchServer).
Proof.
  intros k Hk. simpl in Hk.
  repeat (destruct Hk as [<-|Hk]; [reflexivity|]). destruct Hk.
Qed.

Lemma reachable_server0 : reachable printedNumber server0.
Proof. exists time0, time0, time0, time0, []. reflexivity. Qed.

(** ** Examples of the properties *)

(** C2 at a write of ["26.75"] to Temperature with callback 7
    subscribed. *)
Lemma writeNode_success_witness :
  let w := snd (subscribe "ns=1;s=Temperature" 7%nat server0) in
  let r := fst (writeNode printedNumber time1 "ns=1;s=Temperature" "26.75" w) in
  let w' := snd (writeNode printedNumber time1 "ns=1;s=Temperature" "26.75" w) in
  r = Result.mk true "Value of Temperature updated to <number>"
        (Some time1) (Some "Float")
  /\ (exists n', resolvesToVariable "ns=1;s=Temperature" (addressSpace w') n' /\
                 value n' = JNum (ofDecimal 2675 2) /\ timestamp n' = Some time1 /\
                 Result.timestamp r = timestamp n')
  /\ calls w' = [mkCall (Own 7%nat) (JNum (ofDecimal 2675 2)) (Some time1)]
  /\ subscriptions w' = subscriptions w.
Proof.
  exact (writeNode_success printedNumber time1 "ns=1;s=Temperature" "26.75"
           (snd (subscribe "ns=1;s=Temperature" 7%nat server0))
           (variable "Temperature" "ns=1;s=Temperature" "Float"
              (JNum (ofDecimal 255 1)) "ReadWrite" time0)
           (JNum (ofDecimal 2675 2))
           (plainKeys_spaceWith _ _ _ _ _ _ _ _)
           (conj eq_refl eq_refl) eq_refl eq_refl).
Defined.

(** C4 at a write of ["TRUE"] to a ReadWrite Boolean. *)
Lemma writeNode_Boolean_witness :
  exists b : bool,
    (b = true <-> equalsIgnoreCase "TRUE" "true" = true \/ "TRUE" = "1")
    /\ convert (Some "Boolean") "TRUE" = inr (JBool b)
    /\ Result.success
         (fst (writeNode printedNumber time1 "ns=2;s=Switch" "TRUE" switchServer)) = true
    /\ (exists n',
          resolvesToVariable "ns=2;s=Switch"
            (addressSpace
               (snd (writeNode printedNumber time1 "ns=2;s=Switch" "TRUE" switchServer))) n'
          /\ value n' = JBool b)
    /\ calls (snd (writeNode printedNumber time1 "ns=2;s=Switch" "TRUE" switchServer)) = [].
Proof.
  exact (writeNode_Boolean printedNumber time1 "ns=2;s=Switch" "TRUE" switchServer
           (variable "Switch" "ns=2;s=Switch" "Boolean" (JBool false) "ReadWrite" time0)
           plainKeys_switchSpace (conj eq_refl eq_refl) eq_refl eq_refl).
Defined.

(** C6 at two subscriptions of Pressure on the constructed server. *)
Lemma subscribe_spec_witness :
  let w := server0 in
  let id := "ns=1;s=Pressure" in
  let w1 := snd (subscribe id 3%nat w) in
  let w2 := snd (subscribe id 7%nat w1) in
  (Result.success (fst (subscribe id 7%nat w)) = true <->
   exists n, resolvesToVariable id (addressSpace w) n)
  /\ (~ In id (keys (addressSpace w)) \/ resolvesToObject id (addressSpace w) ->
      subscribe id 7%nat w =
      (Result.failure ("Cannot subscribe to '" ++ id ++ "'. Not a Variable."), w))
  /\ (Result.success (fst (subscribe id 7%nat w)) = true ->
      snd (subscribe id 7%nat w) = setSubscriptions (<[id := 7%nat]> (subscriptions w)) w)
  /\ (Result.success (fst (subscribe id 7%nat w)) = false ->
      snd (subscribe id 7%nat w) = w)
  /\ w2 = snd (subscribe id 7%nat w)
  /\ (forall n, resolvesToVariable id (addressSpace w) n ->
      subscriptions w2 !! id = Some 7%nat
      /\ forall k, k <> id -> subscriptions w2 !! k = subscriptions w !! k)
  /\ (forall now raw n v,
        resolvesToVariable id (addressSpace w) n ->
        accessLevel n = Some "ReadWrite" ->
        convert (dataType n) raw = inr v ->
        calls (snd (writeNode printedNumber now id raw w2)) =
        (calls w2 ++ [mkCall (Own 7%nat) v (Some now)])%list)
  /\ (forall ops,
        3%nat <> 7%nat -> unsubscribed 3%nat w ->
        Forall (fun o => ~ isSubscribeOf 3%nat o) ops ->
        forall c, In c (callsFrom (List.length (calls w2)) (run printedNumber ops w2)) ->
                  callee c <> Own 3%nat).
Proof.
  exact (subscribe_spec printedNumber "ns=1;s=Pressure" 3%nat 7%nat server0
           (plainKeys_spaceWith _ _ _ _ _ _ _ _)).
Defined.

(** After them, a write and a tick call the second callback only. *)
Lemma subscribe_example :
  let w2 := snd (subscribe "ns=1;s=Pressure" 7%nat
                   (snd (subscribe "ns=1;s=Pressure" 3%nat server0))) in
  calls (run printedNumber
           [OpStart;
            OpWrite time1 "ns=1;s=Pressure" "100.5";
            OpTick 1%positive (binary64 false 1 2) (binary64 false 1 4) time2 time2]
           w2)
  = [mkCall (Own 7%nat) (JNum (ofDecimal 1005 1)) (Some time1);
     mkCall (Own 7%nat) (JStr "99.25") (Some time2)].
Proof. reflexivity. Qed.

(** C5 at the constructed server. *)
Lemma browseNodes_spec_witness :
  (browseNodes None server0 =
     [Summary.mk "ns=1;s=Folder1" "MyDevices" "Object" None true JUndefined None]
   /\ browseNodes (Some "ns=0;i=84") server0 = browseNodes None server0
   /\ map Summary.browseName (browseNodes (Some "ns=1;s=Folder1") server0)
      = ["Temperature"; "Pressure"; "Status"; "DeviceName"]
   /\ map Summary.nodeId (browseNodes (Some "ns=1;s=Folder1") server0)
      = ["ns=1;s=Temperature"; "ns=1;s=Pressure"; "ns=1;s=Status";
         "ns=1;s=DeviceName"]
   /\ map Summary.hasChildren (browseNodes (Some "ns=1;s=Folder1") server0)
      = [false; false; false; false])
  /\ (forall parent n ch,
        findNode parent (addressSpace server0) = Some (Own n) ->
        children n = Some ch ->
        browseNodes (Some parent) server0 = map (fun kn => summary (snd kn)) (entries ch))
  /\ (forall parent,
        (forall n, findNode parent (addressSpace server0) = Some (Own n) ->
                   children n = None \/ children n = Some snil) ->
        browseNodes (Some parent) server0 = []).
Proof. exact (browseNodes_spec printedNumber server0 reachable_server0). Defined.

(** C9 at a constructed server whose simulation was started. *)
Lemma simulation_start_stop_witness :
  let w := startDataSimulation server0 in
  updateInterval w = Some 1%positive
  /\ timers w = {[ 1%positive ]}
  /\ (forall i, updateInterval w = Some i -> startDataSimulation w = w)
  /\ startDataSimulation (startDataSimulation w) = startDataSimulation w
  /\ stopDataSimulation (stopDataSimulation w) = stopDataSimulation w
  /\ (updateInterval w = None -> stopDataSimulation w = w)
  /\ timers (stopDataSimulation w) = ∅
  /\ (forall ops i,
        ~ In OpStart ops ->
        fires i (run printedNumber ops (stopDataSimulation w)) = false)
  /\ (forall i r1 r2 t1 t2,
        exec printedNumber (OpTick i r1 r2 t1 t2) (stopDataSimulation w)
        = stopDataSimulation w).
Proof.
  intros w. split; [reflexivity|]. split; [reflexivity|].
  exact (simulation_start_stop printedNumber w
           (reachable_exec printedNumber OpStart server0 reachable_server0)).
Defined.

Lemma unitInterval_half : unitInterval (binary64 false 1 2).
Proof. vm_compute. split; [discriminate|reflexivity]. Qed.

Lemma unitInterval_quarter : unitInterval (binary64 false 1 4).
Proof. vm_compute. split; [discriminate|reflexivity]. Qed.

(** C1, as amended, at a tick with the random numbers 1/2 and 1/4 and
    callback 7 subscribed to Pressure. *)
Lemma tick_spec_witness :
  let w := snd (subscribe "ns=1;s=Pressure" 7%nat server0) in
  let w' := tick printedNumber (binary64 false 1 2) (binary64 false 1 4) time1 time2 w in
  let sampleT := add (mul (binary64 false 1 2) (ofZ 10)) (ofZ 20) in
  let sampleP := add (mul (binary64 false 1 4) (ofZ 5)) (ofZ 98) in
  exists nT nP : Z,
    2000 <= nT <= 3000 /\ 9800 <= nP <= 10300
    /\ readNode "ns=1;s=Temperature" w' =
       Some (ReadResult.mk (JStr (fixedText nT)) (Some "Float") (Some "ReadWrite") (Some time1))
    /\ readNode "ns=1;s=Pressure" w' =
       Some (ReadResult.mk (JStr (fixedText nP)) (Some "Float") (Some "ReadWrite") (Some time2))
    /\ between 20 30 (asNumber (JStr (fixedText nT)))
    /\ between 98 103 (asNumber (JStr (fixedText nP)))
    /\ calls w' =
       (calls w
        ++ match subscriptions w !! "ns=1;s=Temperature" with
           | Some cb => [mkCall (Own cb) (JStr (fixedText nT)) (Some time1)]
           | None => []
           end
        ++ match subscriptions w !! "ns=1;s=Pressure" with
           | Some cb => [mkCall (Own cb) (JStr (fixedText nP)) (Some time2)]
           | None => []
           end)%list
    /\ readNode "ns=1;s=Status" w' = readNode "ns=1;s=Status" w
    /\ readNode "ns=1;s=DeviceName" w' = readNode "ns=1;s=DeviceName" w
    /\ subscriptions w' = subscriptions w
    /\ readNode "ns=1;s=Temperature" w' =
       Some (ReadResult.mk (JStr (toFixed2 printedNumber sampleT)) (Some "Float")
               (Some "ReadWrite") (Some time1))
    /\ readNode "ns=1;s=Pressure" w' =
       Some (ReadResult.mk (JStr (toFixed2 printedNumber sampleP)) (Some "Float")
               (Some "ReadWrite") (Some time2))
    /\ toFixed2 printedNumber sampleT = fixedText nT /\ roundedTo2 sampleT nT
    /\ toFixed2 printedNumber sampleP = fixedText nP /\ roundedTo2 sampleP nP
    /\ between 20 30 sampleT /\ between 98 103 sampleP.
Proof.
  exact (tick_spec printedNumber (binary64 false 1 2) (binary64 false 1 4) time1 time2
           (snd (subscribe "ns=1;s=Pressure" 7%nat server0))
           (reachable_exec printedNumber (OpSubscribe "ns=1;s=Pressure" 7%nat) server0
              reachable_server0)
           unitInterval_half unitInterval_quarter).
Defined.

(** What that tick stores and whom it calls. *)
Lemma tick_example :
  let w := snd (subscribe "ns=1;s=Pressure" 7%nat server0) in
  let w' := tick printedNumber (binary64 false 1 2) (binary64 false 1 4) time1 time2 w in
  (ReadResult.value <$> readNode "ns=1;s=Temperature" w') = Some (JStr "25.00")
  /\ (ReadResult.value <$> readNode "ns=1;s=Pressure" w') = Some (JStr "99.25")
  /\ calls w' = [mkCall (Own 7%nat) (JStr "99.25") (Some time2)].
Proof. repeat split. Qed.

(** C1 as stated fails.  The random number 8191/8192 is a Number of the
    unit interval; all of [8191/8192 * 10 + 20] is computed without
    rounding, to 29.998779296875, and [toFixed(2)] rounds it to the text
    ["30.00"]: the value read back is a string, and the number it shows
    is not below 30. *)
Lemma tick_reaches_30 :
  let w' := tick printedNumber (binary64 false 8191 8192) (binary64 false 1 2)
              time1 time2 server0 in
  unitInterval (binary64 false 8191 8192)
  /\ add (mul (binary64 false 8191 8192) (ofZ 10)) (ofZ 20)
     = binary64 false 122875 4096
  /\ (ReadResult.value <$> readNode "ns=1;s=Temperature" w') = Some (JStr "30.00")
  /\ asNumber (JStr "30.00") = ofZ 30
  /\ ~ halfOpen 20 30 (asNumber (JStr "30.00")).
Proof.
  repeat split.
  - discriminate.
  - vm_compute. intros [_ H]. discriminate H.
Qed.


(** The texts of the specification: ["26.75abc"] is the literal [26.75]
    followed by ["abc"], it is stored as 26.75; ["abc"] fails. *)
Lemma writeNode_Float_examples :
  "26.75abc" = "" ++ literalText (mkLiteral "" "26" true "75" None) ++ "abc"
  /\ wfLiteral (mkLiteral "" "26" true "75" None) = true
  /\ ignorable "abc" = true
  /\ literalValue (mkLiteral "" "26" true "75" None) = ofDecimal 2675 2
  /\ (ReadResult.value <$>
      readNode "ns=1;s=Temperature"
        (snd (writeNode printedNumber time1 "ns=1;s=Temperature" "26.75abc" server0)))
     = Some (JNum (ofDecimal 2675 2))
  /\ writeNode printedNumber time1 "ns=1;s=Temperature" "abc" server0
     = (Result.failure "Invalid float value. for Float type.", server0).
Proof. repeat split. Qed.


(** [unsubscribe] of an inherited name, and of a node identifier
    without and with a subscription. *)
Lemma unsubscribe_examples :
  fst (unsubscribe "toString" server0) = Result.ok "Unsubscribed from 'toString'."
  /\ fst (unsubscribe "ns=1;s=Pressure" server0)
     = Result.failure "No active subscription for 'ns=1;s=Pressure'."
  /\ fst (unsubscribe "ns=1;s=Pressure"
            (snd (subscribe "ns=1;s=Pressure" 7%nat server0)))
     = Result.ok "Unsubscribed from 'ns=1;s=Pressure'.".
Proof. repeat split. Qed.

(** [unsubscribe] of an id that names no inherited property, with a
    callback subscribed. *)
Lemma unsubscribe_plain_witness :
  let w := snd (subscribe "ns=1;s=Pressure" 7%nat server0) in
  let id := "ns=1;s=Pressure" in
  (Result.success (fst (unsubscribe id w)) = false <-> subscriptions w !! id = None)
  /\ (subscriptions w !! id = None ->
      unsubscribe id w =
      (Result.failure ("No active subscription for '" ++ id ++ "'."), w))
  /\ (forall cb, subscriptions w !! id = Some cb ->
      fst (unsubscribe id w) = Result.ok ("Unsubscribed from '" ++ id ++ "'.")
      /\ subscriptions (snd (unsubscribe id w)) !! id = None
      /\ (forall k, k <> id ->
          subscriptions (snd (unsubscribe id w)) !! k = subscriptions w !! k)
      /\ addressSpace (snd (unsubscribe id w)) = addressSpace w
      /\ calls (snd (unsubscribe id w)) = calls w).
Proof.
  exact (unsubscribe_plain "ns=1;s=Pressure"
           (snd (subscribe "ns=1;s=Pressure" 7%nat server0)) eq_refl).
Defined.

(** A write to Temperature and what is read from Pressure. *)
Lemma writeNode_frame_witness :
  let w' := snd (writeNode printedNumber time1 "ns=1;s=Temperature" "26.75" server0) in
  readNode "ns=1;s=Pressure" w' = readNode "ns=1;s=Pressure" server0
  /\ subscriptions w' = subscriptions server0
  /\ updateInterval w' = updateInterval server0
  /\ timers w' = timers server0.
Proof.
  exact (writeNode_frame printedNumber time1 "ns=1;s=Temperature" "26.75"
           "ns=1;s=Pressure" server0 ltac:(discriminate)).
Defined.

(** ** Examples of the further properties *)

(** The children of the root of a constructed server. *)
Lemma browseNodes_navigable_witness :
  let s := Summary.mk "ns=1;s=Folder1" "MyDevices" "Object" None true JUndefined None in
  In s (browseNodes None server0)
  /\ exists child,
       s = summary child /\
       findNode (Summary.nodeId s) (addressSpace server0) = Some (Own child) /\
       browseNodes (Some (Summary.nodeId s)) server0 =
       map (fun kn => summary (snd kn))
         match children child with Some ch => entries ch | None => [] end /\
       (Summary.hasChildren s = true <->
        browseNodes (Some (Summary.nodeId s)) server0 <> []).
Proof.
  split; [left; reflexivity|].
  exact (browseNodes_navigable None server0 _
           (wellFormed_spaceWith _ _ _ _ _ _ _ _) (or_introl eq_refl)).
Defined.

(** The tree a constructed server is rendered as: the folder and the
    four Variables below it. *)
Lemma renderAddressSpaceTree_complete_witness :
  exists items,
    renderAddressSpaceTree 3 server0 (browseNodes (Some "ns=0;i=84") server0)
    = Some items /\
    map Summary.nodeId (flat_map shownIn items) =
    ["ns=1;s=Folder1"; "ns=1;s=Temperature"; "ns=1;s=Pressure"; "ns=1;s=Status";
     "ns=1;s=DeviceName"] /\
    NoDup (map Summary.nodeId (flat_map shownIn items)).
Proof.
  exact (renderAddressSpaceTree_complete "ns=0;i=84" server0
           (mkNode "Objects" "ns=0;i=84" "Object" None JUndefined None None
              (Some
                 (scons "ns=1;s=Folder1"
                    (mkNode "MyDevices" "ns=1;s=Folder1" "Object" None JUndefined
                       None None
                       (Some (folder1 (JNum (ofDecimal 255 1)) time0
                                (JNum (ofDecimal 1012 1)) time0 (JBool true) time0
                                (JStr "SensorUnit-A") time0)))
                    snil)))
           (scons "ns=1;s=Folder1"
              (mkNode "MyDevices" "ns=1;s=Folder1" "Object" None JUndefined
                 None None
                 (Some (folder1 (JNum (ofDecimal 255 1)) time0
                          (JNum (ofDecimal 1012 1)) time0 (JBool true) time0
                          (JStr "SensorUnit-A") time0)))
              snil)
           3%nat (wellFormed_spaceWith _ _ _ _ _ _ _ _) eq_refl eq_refl
           ltac:(simpl; lia)).
Defined.

(** Two writes to Temperature with callback 7 subscribed. *)
Lemma writeNode_twice_witness :
  let id := "ns=1;s=Temperature" in
  let w := snd (subscribe id 7%nat server0) in
  let w1 := snd (writeNode printedNumber time1 id "21.5" w) in
  let w2 := snd (writeNode printedNumber time2 id "22.25" w1) in
  fst (writeNode printedNumber time2 id "22.25" w1) =
    fst (writeNode printedNumber time2 id "22.25" w)
  /\ addressSpace w2 = addressSpace (snd (writeNode printedNumber time2 id "22.25" w))
  /\ readNode id w2 =
     Some (ReadResult.mk (JNum (ofDecimal 2225 2)) (Some "Float")
             (Some "ReadWrite") (Some time2))
  /\ calls w2 = [mkCall (Own 7%nat) (JNum (ofDecimal 215 1)) (Some time1);
                 mkCall (Own 7%nat) (JNum (ofDecimal 2225 2)) (Some time2)].
Proof.
  exact (writeNode_twice printedNumber time1 time2 "ns=1;s=Temperature" "21.5" "22.25"
           (snd (subscribe "ns=1;s=Temperature" 7%nat server0))
           (variable "Temperature" "ns=1;s=Temperature" "Float"
              (JNum (ofDecimal 255 1)) "ReadWrite" time0)
           (JNum (ofDecimal 215 1)) (JNum (ofDecimal 2225 2))
           (plainKeys_spaceWith _ _ _ _ _ _ _ _)
           (conj eq_refl eq_refl) eq_refl eq_refl eq_refl).
Defined.

(** Subscribing to Pressure and unsubscribing again, on a constructed
    server. *)
Lemma subscribe_unsubscribe_witness :
  let id := "ns=1;s=Pressure" in
  let w1 := snd (subscribe id 7%nat server0) in
  unsubscribe id w1 =
  (Result.ok "Unsubscribed from 'ns=1;s=Pressure'.",
   setSubscriptions (delete id (subscriptions server0)) server0)
  /\ (subscriptions server0 !! id = None -> snd (unsubscribe id w1) = server0)
  /\ subscriptions (snd (unsubscribe id w1)) !! id = None.
Proof.
  exact (subscribe_unsubscribe "ns=1;s=Pressure" 7%nat server0
           (variable "Pressure" "ns=1;s=Pressure" "Float"
              (JNum (ofDecimal 1012 1)) "ReadWrite" time0)
           (plainKeys_spaceWith _ _ _ _ _ _ _ _) (conj eq_refl eq_refl)).
Defined.

(** The timer of a constructed server whose simulation was started. *)
Lemma simulation_single_timer_witness :
  let w := startDataSimulation server0 in
  (fires 1 w = true <-> updateInterval w = Some 1%positive)
  /\ (fires 1 (startDataSimulation w) = true <->
      updateInterval (startDataSimulation w) = Some 1%positive)
  /\ (forall j, fires 1 w = true -> fires j w = true -> 1%positive = j).
Proof.
  exact (simulation_single_timer printedNumber (startDataSimulation server0) 1%positive
           (reachable_exec printedNumber OpStart server0 reachable_server0)).
Defined.

(** A text with blanks written to a ReadWrite String Variable. *)
Lemma writeNode_text_witness :
  let id := "ns=2;s=Label" in
  let w' := snd (writeNode printedNumber time1 id " a b " switchServer) in
  fst (writeNode printedNumber time1 id " a b " switchServer) =
    Result.mk true "Value of Label updated to  a b " (Some time1) (Some "String")
  /\ readNode id w' =
     Some (ReadResult.mk (JStr " a b ") (Some "String") (Some "ReadWrite") (Some time1))
  /\ calls w' = [].
Proof.
  exact (writeNode_text printedNumber time1 "ns=2;s=Label" " a b " switchServer
           (variable "Label" "ns=2;s=Label" "String" (JStr "Unit") "ReadWrite" time0)
           plainKeys_switchSpace (conj eq_refl eq_refl) eq_refl
           ltac:(discriminate) ltac:(discriminate)).
Defined.

(** The offset of a zone five and a half hours ahead of UTC. *)
Lemma getLocalUtcOffset_spec_witness :
  let offsetHours := div (opp (ofZ (-330))) (ofZ 60) in
  getLocalUtcOffset printedNumber (-330) = "UTC+<number>"
  /\ offsetHours = binary64 false 330 60
  /\ (forall k, k <> 0 -> -330 = -60 * k -> offsetHours = ofZ k).
Proof.
  exact (getLocalUtcOffset_spec printedNumber (-330) ltac:(lia)).
Defined.

(** A write and a tick on a constructed server. *)
Lemma tick_after_write_witness :
  let w' := snd (writeNode printedNumber time1 "ns=1;s=Temperature" "26.75" server0) in
  addressSpace (tick printedNumber (binary64 false 1 2) (binary64 false 1 4)
                  time2 time2 w') =
  addressSpace (tick printedNumber (binary64 false 1 2) (binary64 false 1 4)
                  time2 time2 server0)
  /\ forall id',
       readNode id' (tick printedNumber (binary64 false 1 2) (binary64 false 1 4)
                       time2 time2 w') =
       readNode id' (tick printedNumber (binary64 false 1 2) (binary64 false 1 4)
                       time2 time2 server0).
Proof.
  exact (tick_after_write printedNumber time1 "ns=1;s=Temperature" "26.75"
           (binary64 false 1 2) (binary64 false 1 4) time2 time2 server0
           reachable_server0).
Defined.

Lemma reachablePage_handleAll (es : list Event) :
  reachablePage printedNumber printedTime printedTime html0
    (handleAll printedNumber printedTime printedTime es
       (init printedNumber printedTime time0 time0 time0 time0 html0)).
Proof. exists time0, time0, time0, time0, es. reflexivity. Qed.

(** The page after a click on connect and a subscription to
    Temperature. *)
Lemma page_one_subscription_witness :
  let p := handleAll printedNumber printedTime printedTime
             [ClickConnect; TypeNodeId " ns=1;s=Temperature "; ClickSubscribe]
             (init printedNumber printedTime time0 time0 time0 time0 html0) in
  subscribedNodeId p = Some "ns=1;s=Temperature"
  /\ (forall id, (exists cb, subscriptions (server p) !! id = Some cb) <->
                 subscribedNodeId p = Some id)
  /\ (forall id cb, subscriptions (server p) !! id = Some cb ->
                    (cb < closures p)%nat)
  /\ (forall id, subscribedNodeId p = Some id ->
                 In id nodesToDisplay /\
                 exists n, resolvesToVariable id (addressSpace (server p)) n).
Proof.
  split; [reflexivity|].
  exact (page_one_subscription printedNumber printedTime printedTime html0 _
           (reachablePage_handleAll
              [ClickConnect; TypeNodeId " ns=1;s=Temperature "; ClickSubscribe])).
Defined.

(** The page after a click on connect. *)
Lemma page_connected_running_witness :
  let p := handleAll printedNumber printedTime printedTime [ClickConnect]
             (init printedNumber printedTime time0 time0 time0 time0 html0) in
  isConnected p = true
  /\ (isConnected p = true ->
      exists i, updateInterval (server p) = Some i /\ timers (server p) = {[ i ]})
  /\ (isConnected p = true ->
      let p' := handleDisconnect p in
      isConnected p' = false /\ updateInterval (server p') = None
      /\ timers (server p') = ∅ /\ subscriptions (server p') = ∅
      /\ subscribedNodeId p' = None
      /\ subscriptionEntries (dom p') = [NoData]
      /\ addressSpace (server p') = addressSpace (server p))
  /\ (forall t1 t2 t3 t4,
        isConnected (init printedNumber printedTime t1 t2 t3 t4 html0) = false /\
        updateInterval (server (init printedNumber printedTime t1 t2 t3 t4 html0))
        = Some 1%positive).
Proof.
  split; [reflexivity|].
  exact (page_connected_running printedNumber printedTime printedTime html0 _
           (reachablePage_handleAll [ClickConnect])).
Defined.


(** A page subscribed to Temperature on which the id of the folder is
    entered: a click on subscribe. *)
Lemma handleSubscribe_spec_witness :
  let p := handleAll printedNumber printedTime printedTime
             [ClickConnect; TypeNodeId "ns=1;s=Temperature"; ClickSubscribe;
              TypeNodeId "ns=1;s=Folder1"]
             (init printedNumber printedTime time0 time0 time0 time0 html0) in
  let id := trim (nodeIdInput (dom p)) in
  let d0 := match subscribedNodeId p with
            | Some _ => setEntries [] (dom p)
            | None => dom p
            end in
  (allWhiteSpace (nodeIdInput (dom p)) = true /\
   handleSubscribe p =
   setDom (displayClientMessage "Please enter a Node ID to subscribe."
             ErrorMessage (dom p)) p)
  \/ (subscribedNodeId p = Some id /\
      handleSubscribe p =
      mkPage (setSubscriptions ∅ (server p)) (isConnected p) None (closures p)
        (updateClientButtons (isConnected p) None
           (displayClientMessage ("Unsubscribed from '" ++ id ++ "'.") InfoMessage
              (setEntries [NoData] (setLogDisplay "none" (dom p))))))
  \/ (allWhiteSpace (nodeIdInput (dom p)) = false /\
      subscribedNodeId p <> Some id /\
      exists n, resolvesToVariable id (addressSpace (server p)) n /\
      handleSubscribe p =
      mkPage (setSubscriptions {[ id := closures p ]} (server p)) (isConnected p)
        (Some id) (S (closures p))
        (updateClientButtons (isConnected p) (Some id)
           (displayClientMessage ("Subscribed to '" ++ browseName n ++ "'.")
              SuccessMessage
              (setSubscribedDisplay id (setLogDisplay "block" d0)))))
  \/ (allWhiteSpace (nodeIdInput (dom p)) = false /\
      subscribedNodeId p <> Some id /\
      ~ In id nodesToDisplay /\
      handleSubscribe p =
      mkPage (setSubscriptions ∅ (server p)) (isConnected p) None (S (closures p))
        (updateClientButtons (isConnected p) None
           (displayClientMessage
              ("Subscription failed: Cannot subscribe to '" ++ id
               ++ "'. Not a Variable.")
              ErrorMessage d0))).
Proof.
  exact (handleSubscribe_spec printedNumber printedTime printedTime html0 _
           (reachablePage_handleAll
              [ClickConnect; TypeNodeId "ns=1;s=Temperature"; ClickSubscribe;
               TypeNodeId "ns=1;s=Folder1"])).
Defined.

(** The failed switch of that page: the subscription to Temperature is
    gone. *)
Lemma handleSubscribe_example :
  let p := handleAll printedNumber printedTime printedTime
             [ClickConnect; TypeNodeId "ns=1;s=Temperature"; ClickSubscribe;
              TypeNodeId "ns=1;s=Folder1"]
             (init printedNumber printedTime time0 time0 time0 time0 html0) in
  subscribedNodeId p = Some "ns=1;s=Temperature"
  /\ subscriptions (server p) !! "ns=1;s=Temperature" = Some O
  /\ subscribedNodeId (handleSubscribe p) = None
  /\ subscriptions (server (handleSubscribe p)) !! "ns=1;s=Temperature" = None
  /\ clientMessageBox (dom (handleSubscribe p)) =
     Some ("Subscription failed: Cannot subscribe to 'ns=1;s=Folder1'. Not a Variable.",
           ErrorMessage)
  /\ subscriptionLogDisplay (dom (handleSubscribe p)) = "block"
  /\ subscriptionEntries (dom (handleSubscribe p)) = [].
Proof. vm_compute. repeat split. Qed.

(** A tick on a page that is connected and subscribed to Temperature. *)
Lemma subscription_log_witness :
  let p := handleAll printedNumber printedTime printedTime
             [ClickConnect; TypeNodeId "ns=1;s=Temperature"; ClickSubscribe]
             (init printedNumber printedTime time0 time0 time0 time0 html0) in
  (length (subscriptionEntries html0) <= 10)%nat
  /\ (length (subscriptionEntries (dom p)) <= 10)%nat
  /\ forall i r1 r2 t1 t2,
       fires i (server p) = true ->
       subscriptionEntries
         (dom (handle printedNumber printedTime printedTime
                 (TimerFires i r1 r2 t1 t2) p)) =
       match subscribedNodeId p with
       | Some id =>
           if String.eqb id "ns=1;s=Temperature" then
             firstn 10
               (Entry (entryText printedNumber printedTime printedTime
                         (JStr (toFixed2 printedNumber (add (mul r1 (ofZ 10)) (ofZ 20))))
                         (Some t1))
                :: subscriptionEntries (dom p))
           else if String.eqb id "ns=1;s=Pressure" then
             firstn 10
               (Entry (entryText printedNumber printedTime printedTime
                         (JStr (toFixed2 printedNumber (add (mul r2 (ofZ 5)) (ofZ 98))))
                         (Some t2))
                :: subscriptionEntries (dom p))
           else subscriptionEntries (dom p)
       | None => subscriptionEntries (dom p)
       end.
Proof.
  split; [simpl; lia|].
  exact (subscription_log printedNumber printedTime printedTime html0 _
           (reachablePage_handleAll
              [ClickConnect; TypeNodeId "ns=1;s=Temperature"; ClickSubscribe])
           ltac:(simpl; lia)).
Defined.

(** The log of that page after a tick with the random numbers 1/2 and
    1/4: the entry is on top, and the paragraph the document came with
    is still below it, since a first subscription does not empty the
    log. *)
Lemma subscription_log_example :
  let p := handleAll printedNumber printedTime printedTime
             [ClickConnect; TypeNodeId "ns=1;s=Temperature"; ClickSubscribe;
              TimerFires 1 (binary64 false 1 2) (binary64 false 1 4) time1 time2]
             (init printedNumber printedTime time0 time0 time0 time0 html0) in
  subscriptionEntries (dom p) =
    [Entry "New Value: 25.00 (UTC: <time> | Local: <time>)"; NoData]
  /\ readNode "ns=1;s=Temperature" (server p) =
     Some (ReadResult.mk (JStr "25.00") (Some "Float") (Some "ReadWrite") (Some time1)).
Proof. vm_compute. split; reflexivity. Qed.

(** A click on read with the id of Status, padded with blanks. *)
Lemma handleRead_spec_witness :
  let p := handleAll printedNumber printedTime printedTime
             [ClickConnect; TypeNodeId "  ns=1;s=Status "]
             (init printedNumber printedTime time0 time0 time0 time0 html0) in
  let id := trim (nodeIdInput (dom p)) in
  (allWhiteSpace (nodeIdInput (dom p)) = true /\
   handleRead printedNumber printedTime printedTime 0 p =
   setDom (displayClientMessage "Please enter a Node ID to read." ErrorMessage
             (dom p)) p)
  \/ (In id nodesToDisplay /\
      exists r, readNode id (server p) = Some r /\
      handleRead printedNumber printedTime printedTime 0 p =
      setDom
        (displayClientMessage
           ("Read Node '" ++ id ++ "': Value = "
            ++ toText printedNumber (ReadResult.value r)
            ++ ", Data Type = " ++ orUndefined (ReadResult.dataType r)
            ++ ", Access = " ++ orUndefined (ReadResult.accessLevel r)
            ++ ", UTC Timestamp = " ++ printedTime (ReadResult.timestamp r)
            ++ " UTC, Local Timestamp = "
            ++ printedTime (ReadResult.timestamp r)
            ++ " " ++ getLocalUtcOffset printedNumber 0)
           SuccessMessage (dom p)) p)
  \/ (allWhiteSpace (nodeIdInput (dom p)) = false /\
      ~ In id nodesToDisplay /\
      handleRead printedNumber printedTime printedTime 0 p =
      setDom
        (displayClientMessage
           ("Failed to read Node '" ++ id
            ++ "'. Node not found or not a variable.")
           ErrorMessage (dom p)) p).
Proof.
  exact (handleRead_spec printedNumber printedTime printedTime html0 _ 0
           (reachablePage_handleAll [ClickConnect; TypeNodeId "  ns=1;s=Status "])).
Defined.

(** The message of that click. *)
Lemma handleRead_example :
  let p := handleAll printedNumber printedTime printedTime
             [ClickConnect; TypeNodeId "  ns=1;s=Status "; ClickRead 0]
             (init printedNumber printedTime time0 time0 time0 time0 html0) in
  clientMessageBox (dom p) =
  Some ("Read Node 'ns=1;s=Status': Value = true, Data Type = Boolean, Access = ReadOnly, UTC Timestamp = <time> UTC, Local Timestamp = <time> UTC+0",
        SuccessMessage).
Proof. vm_compute. reflexivity. Qed.

(** The page on which a number, padded with blanks, is entered for
    Temperature. *)
Abbreviation writePage :=
  (handleAll printedNumber printedTime printedTime
     [ClickConnect; TypeNodeId "ns=1;s=Temperature"; TypeNodeValue " 26.75 "]
     (init printedNumber printedTime time0 time0 time0 time0 html0)).

(** A click on write on that page. *)
Lemma handleWrite_spec_witness :
  let id := trim (nodeIdInput (dom writePage)) in
  let newValue := trim (nodeValueInput (dom writePage)) in
  let p' := handleWrite printedNumber printedTime printedTime time1 0 writePage in
  ((allWhiteSpace (nodeIdInput (dom writePage)) = true \/
    allWhiteSpace (nodeValueInput (dom writePage)) = true) /\
   p' = setDom
          (displayClientMessage "Please enter both a Node ID and a value to write."
             ErrorMessage (dom writePage)) writePage)
  \/ (allWhiteSpace (nodeIdInput (dom writePage)) = false /\
      allWhiteSpace (nodeValueInput (dom writePage)) = false /\
      (id = "ns=1;s=Temperature" \/ id = "ns=1;s=Pressure") /\
      parseFloat newValue <> NaN /\
      server p' = snd (writeNode printedNumber time1 id newValue (server writePage)) /\
      readNode id (server p') =
        Some (ReadResult.mk (JNum (parseFloat newValue)) (Some "Float")
                (Some "ReadWrite") (Some time1)) /\
      isConnected p' = isConnected writePage /\
      subscribedNodeId p' = subscribedNodeId writePage /\
      nodeValueInput (dom p') = "" /\
      nodeIdInput (dom p') = nodeIdInput (dom writePage) /\
      (exists m, clientMessageBox (dom p') = Some (m, SuccessMessage)) /\
      subscriptionEntries (dom p') =
        (if bool_decide (subscribedNodeId writePage = Some id) then
           firstn 10
             (Entry (entryText printedNumber printedTime printedTime
                       (JNum (parseFloat newValue)) (Some time1))
              :: subscriptionEntries (dom writePage))
         else subscriptionEntries (dom writePage)) /\
      serverNodesDisplay (dom p') = serverNodesDisplay (dom writePage) /\
      addressSpaceTree (dom p') = addressSpaceTree (dom writePage))
  \/ (allWhiteSpace (nodeIdInput (dom writePage)) = false /\
      allWhiteSpace (nodeValueInput (dom writePage)) = false /\
      ~ ((id = "ns=1;s=Temperature" \/ id = "ns=1;s=Pressure") /\
         parseFloat newValue <> NaN) /\
      exists msg,
        WriteFailure id newValue (addressSpace (server writePage)) msg /\
        p' = setDom
               (displayClientMessage
                  ("Failed to write to Node '" ++ id ++ "': " ++ msg)
                  ErrorMessage (dom writePage)) writePage).
Proof.
  exact (handleWrite_spec printedNumber printedTime printedTime html0 _ time1 0
           (reachablePage_handleAll
              [ClickConnect; TypeNodeId "ns=1;s=Temperature"; TypeNodeValue " 26.75 "])
           ltac:(simpl; lia)).
Defined.

(** What that click leaves: the number is stored and the value field
    is empty. *)
Lemma handleWrite_example :
  let p := handleAll printedNumber printedTime printedTime
             [ClickConnect; TypeNodeId "ns=1;s=Temperature"; TypeNodeValue " 26.75 ";
              ClickWrite time1 0]
             (init printedNumber printedTime time0 time0 time0 time0 html0) in
  readNode "ns=1;s=Temperature" (server p) =
    Some (ReadResult.mk (JNum (ofDecimal 2675 2)) (Some "Float") (Some "ReadWrite")
            (Some time1))
  /\ nodeValueInput (dom p) = ""
  /\ clientMessageBox (dom p) =
     Some ("Value of Temperature updated to <number>, UTC Timestamp = <time> UTC, Local Timestamp = <time> UTC+0",
           SuccessMessage).
Proof. vm_compute. repeat split. Qed.

(** The tree of a constructed server. *)
Lemma addressSpace_wellFormed_witness :
  wellFormed (addressSpace server0)
  /\ keys (addressSpace server0) =
     [ "ns=0;i=84"; "ns=1;s=Folder1"; "ns=1;s=Temperature"; "ns=1;s=Pressure";
       "ns=1;s=Status"; "ns=1;s=DeviceName" ]
  /\ (forall id n, findNode id (addressSpace server0) = Some (Own n) -> nodeId n = id)
  /\ (forall id, (exists n, findNode id (addressSpace server0) = Some (Own n)) <->
                 In id (keys (addressSpace server0))).
Proof. exact (addressSpace_wellFormed printedNumber server0 reachable_server0). Defined.

(** The node display of the page after a click on connect. *)
Lemma page_node_display_witness :
  let p := handleAll printedNumber printedTime printedTime [ClickConnect]
             (init printedNumber printedTime time0 time0 time0 time0 html0) in
  exists vT tT vP tP tS tD,
    serverNodesDisplay (dom p) =
    [ mkNodeLine "Temperature" (toText printedNumber vT) (printedTime (Some tT) ++ " UTC");
      mkNodeLine "Pressure" (toText printedNumber vP) (printedTime (Some tP) ++ " UTC");
      mkNodeLine "Status" "true" (printedTime (Some tS) ++ " UTC");
      mkNodeLine "DeviceName" "SensorUnit-A" (printedTime (Some tD) ++ " UTC") ]
    /\ readNode "ns=1;s=Status" (server p) =
       Some (ReadResult.mk (JBool true) (Some "Boolean") (Some "ReadOnly") (Some tS))
    /\ readNode "ns=1;s=DeviceName" (server p) =
       Some (ReadResult.mk (JStr "SensorUnit-A") (Some "String") (Some "ReadOnly")
               (Some tD))
    /\ forall i r1 r2 t1 t2,
         fires i (server p) = true ->
         let p' := handle printedNumber printedTime printedTime
                     (TimerFires i r1 r2 t1 t2) p in
         serverNodesDisplay (dom p') =
         [ mkNodeLine "Temperature"
             (toFixed2 printedNumber (add (mul r1 (ofZ 10)) (ofZ 20)))
             (printedTime (Some t1) ++ " UTC");
           mkNodeLine "Pressure"
             (toFixed2 printedNumber (add (mul r2 (ofZ 5)) (ofZ 98)))
             (printedTime (Some t2) ++ " UTC");
           mkNodeLine "Status" "true" (printedTime (Some tS) ++ " UTC");
           mkNodeLine "DeviceName" "SensorUnit-A" (printedTime (Some tD) ++ " UTC") ]
         /\ readNode "ns=1;s=Temperature" (server p') =
            Some (ReadResult.mk
                    (JStr (toFixed2 printedNumber (add (mul r1 (ofZ 10)) (ofZ 20))))
                    (Some "Float") (Some "ReadWrite") (Some t1))
         /\ readNode "ns=1;s=Pressure" (server p') =
            Some (ReadResult.mk
                    (JStr (toFixed2 printedNumber (add (mul r2 (ofZ 5)) (ofZ 98))))
                    (Some "Float") (Some "ReadWrite") (Some t2)).
Proof.
  exact (page_node_display printedNumber printedTime printedTime html0 _
           (reachablePage_handleAll [ClickConnect])).
Defined.

(** The lines of that display. *)
Lemma page_node_display_example :
  serverNodesDisplay
    (dom (handleAll printedNumber printedTime printedTime [ClickConnect]
            (init printedNumber printedTime time0 time0 time0 time0 html0))) =
  [ mkNodeLine "Temperature" "<number>" "<time> UTC";
    mkNodeLine "Pressure" "<number>" "<time> UTC";
    mkNodeLine "Status" "true" "<time> UTC";
    mkNodeLine "DeviceName" "SensorUnit-A" "<time> UTC" ].
Proof. vm_compute. reflexivity. Qed.

(** The search for the id of Status, and for the name of an inherited
    property, in the tree of a constructed server. *)
Lemma findNode_order_witness :
  let sp := addressSpace server0 in
  (findNode "ns=1;s=Status" sp =
     option_map Own (findKey "ns=1;s=Status" (searchOrder sp))
   /\ (In "ns=1;s=Status" (keys sp) <->
       exists n, findNode "ns=1;s=Status" sp = Some (Own n))
   /\ (~ In "ns=1;s=Status" (keys sp) <-> findNode "ns=1;s=Status" sp = None))
  /\ findNode "constructor" sp = Some (Inherited "constructor").
Proof.
  split.
  - exact (proj1 (findNode_order "ns=1;s=Status" (addressSpace server0)) eq_refl).
  - exact (proj2 (findNode_order "constructor" (addressSpace server0)) eq_refl).
Defined.

(** C8 on a server with callback 7 subscribed to Pressure. *)
Lemma unsubscribe_spec_witness :
  let w := snd (subscribe "ns=1;s=Pressure" 7%nat server0) in
  let id := "ns=1;s=Pressure" in
  isNodeId id = true
  /\ (Result.success (fst (unsubscribe id w)) = false <-> subscriptions w !! id = None)
  /\ (subscriptions w !! id = None ->
      unsubscribe id w =
      (Result.failure ("No active subscription for '" ++ id ++ "'."), w))
  /\ (forall cb, subscriptions w !! id = Some cb ->
      unsubscribe id w =
      (Result.ok ("Unsubscribed from '" ++ id ++ "'."),
       setSubscriptions (delete id (subscriptions w)) w)
      /\ subscriptions (snd (unsubscribe id w)) !! id = None
      /\ (forall k, k <> id ->
          subscriptions (snd (unsubscribe id w)) !! k = subscriptions w !! k)
      /\ addressSpace (snd (unsubscribe id w)) = addressSpace w
      /\ updateInterval (snd (unsubscribe id w)) = updateInterval w
      /\ calls (snd (unsubscribe id w)) = calls w).
Proof.
  split; [reflexivity|].
  exact (unsubscribe_spec "ns=1;s=Pressure"
           (snd (subscribe "ns=1;s=Pressure" 7%nat server0)) eq_refl).
Defined.

(** The node identifiers of the constructor follow the grammar, and the
    names of inherited properties do not. *)
Lemma isNodeId_examples :
  forallb isNodeId
    [ "ns=0;i=84"; "ns=1;s=Folder1"; "ns=1;s=Temperature"; "ns=1;s=Pressure";
      "ns=1;s=Status"; "ns=1;s=DeviceName" ] = true
  /\ existsb isNodeId objectPrototypeNames = false
  /\ isNodeId "ns=;s=x" = false /\ isNodeId "ns=1;i=" = false
  /\ isNodeId "ns=1;i=8a" = false.
Proof. repeat split. Qed.
